(** * geo-notebooks: the STAC item pipeline of the two notebooks

    The notebooks [odc-planetary-computer.ipynb] and [odc-landsat.ipynb]
    contain three pieces of logic of their own:

    - [items_to_geodataframe], the conversion of a list of STAC item
      dictionaries into a GeoDataFrame indexed by acquisition time;
    - the loop of the Landsat notebook that rewrites every asset [href] to
      its [s3] alternate and renames the bucket;
    - the NDVI expression [((nir - red) / (nir + red)).clip(0, 1)].

    They are embedded below over a small model of the Python objects they
    touch: JSON-like values, dictionaries in insertion order, a store of
    mutable records, pandas data frames as named columns, and binary64
    floats taken from [SpecFloat]. *)

From Stdlib Require Import ZArith String Ascii List Lia.
From Stdlib Require Import Floats.SpecFloat.
From stdpp Require Import base list strings option.

Local Open Scope Z_scope.
Local Open Scope string_scope.

(** ** Python values *)

Module Py.

(** A pandas [Timestamp]: the wall-clock fields and, when the value is
    timezone-aware, the offset from UTC in minutes. *)
Record Timestamp := mkTimestamp {
  ts_year : Z; ts_month : Z; ts_day : Z;
  ts_hour : Z; ts_minute : Z; ts_second : Z;
  ts_tz : option Z
}.

Definition tz_aware (t : Timestamp) : bool :=
  match ts_tz t with Some _ => true | None => false end.

(** The objects that travel through the notebooks: what [json] decoding
    produces, plus the three kinds of objects the code puts in their place
    (a shapely geometry, a pandas timestamp, the missing timestamp [NaT]).
    A missing cell of a data frame is the float [nan]. *)
#[local] Unset Elimination Schemes.
Inductive value : Type :=
| VNone
| VBool (b : bool)
| VInt (n : Z)
| VFloat (x : spec_float)
| VStr (s : string)
| VList (l : list value)
| VDict (d : list (string * value))
| VGeom (ob : value)
| VTimestamp (t : Timestamp)
| VNaT.
#[local] Set Elimination Schemes.

Definition VNaN : value := VFloat S754_nan.

Abbreviation dict := (list (string * value)).

Definition is_dict (v : value) : bool :=
  match v with VDict _ => true | _ => false end.

(** [pd.isna] on a scalar. *)
Definition isna (v : value) : bool :=
  match v with
  | VNone | VNaT | VFloat S754_nan => true
  | _ => false
  end.

(** Exceptions.  [KeyError] carries its argument: the missing key when a
    dictionary raises it, the message when pandas does.  [ShapeError] and
    [DatetimeError] stand for whatever [shapely.geometry.shape] and
    [pd.to_datetime] raise on an object they reject. *)
Inductive exn : Type :=
| KeyError (k : string)
| TypeError
| AttributeError
| ShapeError
| DatetimeError
| InvalidRef.

Inductive result (A : Type) : Type :=
| Ok (a : A)
| Raise (e : exn).
Arguments Ok {A} a.
Arguments Raise {A} e.

Definition is_ok {A} (r : result A) : bool :=
  match r with Ok _ => true | Raise _ => false end.

(** *** Dictionaries, in insertion order *)

Section Dict.
Context {V : Type}.

Fixpoint dict_get (k : string) (d : list (string * V)) : option V :=
    match d with
    | [] => None
    | (k', v) :: d' => if String.eqb k k' then Some v else dict_get k d'
    end.

  (** [d[k] = v]: an existing key keeps its position. *)
Fixpoint dict_set (k : string) (v : V) (d : list (string * V))
    : list (string * V) :=
    match d with
    | [] => [(k, v)]
    | (k', v') :: d' =>
        if String.eqb k k' then (k, v) :: d' else (k', v') :: dict_set k v d'
    end.

  (** [del d[k]] / [d.pop(k)], result dropped. *)
Fixpoint dict_pop (k : string) (d : list (string * V))
    : list (string * V) :=
    match d with
    | [] => []
    | (k', v') :: d' =>
        if String.eqb k k' then dict_pop k d' else (k', v') :: dict_pop k d'
    end.

Definition dict_has (k : string) (d : list (string * V)) : bool :=
    match dict_get k d with Some _ => true | None => false end.

Definition dict_keys (d : list (string * V)) : list string := map fst d.

  (** [d.update(e)], [{**d, **e}]. *)
Definition dict_update (d e : list (string * V)) : list (string * V) :=
    fold_left (fun acc kv => dict_set (fst kv) (snd kv) acc) e d.
End Dict.

(** *** Strings *)

(** [needle in s] on two strings. *)
Fixpoint str_contains (needle s : string) : bool :=
  String.prefix needle s ||
  match s with
  | EmptyString => false
  | String _ s' => str_contains needle s'
  end.

(** [s.replace(old, new)] for a non-empty [old]: occurrences are found
    from the left and do not overlap; [skip] counts the characters of the
    occurrence just replaced that are still to be dropped. *)
Fixpoint replace_from (old new : string) (skip : nat) (s : string) : string :=
  match s with
  | EmptyString => EmptyString
  | String c s' =>
      match skip with
      | S k => replace_from old new k s'
      | O =>
          if String.prefix old s
          then new +:+ replace_from old new (String.length old - 1) s'
          else String c (replace_from old new 0 s')
      end
  end.

Definition str_replace (old new s : string) : string :=
  replace_from old new 0 s.

(** *** Subscripting and membership *)

(** [v[k]] with a string key. *)
Definition getitem (v : value) (k : string) : result value :=
  match v with
  | VDict d =>
      match dict_get k d with
      | Some x => Ok x
      | None => Raise (KeyError k)
      end
  | _ => Raise TypeError
  end.

(** [v[k] = x] with a string key. *)
Definition setitem (v : value) (k : string) (x : value) : result value :=
  match v with
  | VDict d => Ok (VDict (dict_set k x d))
  | _ => Raise TypeError
  end.

(** [k in v] with a string on the left: a key of a dict, a substring of a
    string, an element of a list. *)
Definition contains (k : string) (v : value) : result bool :=
  match v with
  | VDict d => Ok (dict_has k d)
  | VStr s => Ok (str_contains k s)
  | VList l =>
      Ok (existsb (fun x => match x with VStr s => String.eqb k s | _ => false end) l)
  | _ => Raise TypeError
  end.

(** [v.replace(old, new)]: only strings have the method. *)
Definition replace_method (v : value) (old new : string) : result value :=
  match v with
  | VStr s => Ok (VStr (str_replace old new s))
  | _ => Raise AttributeError
  end.

End Py.
Export Py.

(** ** The store of mutable records

    The items returned by the catalog are JSON documents: every dictionary
    nested in an item belongs to that item alone.  A record is therefore
    kept in the store as one tree, and a variable such as [i] or [item]
    holds the location of a record.  Two variables alias when they hold the
    same location; [deepcopy] is what allocates a new one. *)

Module Store.

Abbreviation loc := nat.
Abbreviation store := (list value).

Definition M (A : Type) : Type := store -> result A * store.

Definition ret {A} (a : A) : M A := fun h => (Ok a, h).

Definition bind {A B} (m : M A) (f : A -> M B) : M B :=
  fun h =>
    match m h with
    | (Ok a, h') => f a h'
    | (Raise e, h') => (Raise e, h')
    end.

Definition lift {A} (r : result A) : M A := fun h => (r, h).

Definition load (l : loc) : M value :=
  fun h =>
    match h !! l with
    | Some v => (Ok v, h)
    | None => (Raise InvalidRef, h)
    end.

Definition save (l : loc) (v : value) : M unit :=
  fun h =>
    match h !! l with
    | Some _ => (Ok tt, <[l := v]> h)
    | None => (Raise InvalidRef, h)
    end.

Definition alloc (v : value) : M loc :=
  fun h => (Ok (length h), (h ++ [v])%list).

Declare Scope py_scope.
Delimit Scope py_scope with py.
Notation "x <- m ;; k" := (bind m (fun x => k))
  (at level 100, m at next level, right associativity) : py_scope.
Notation "m ;; k" := (bind m (fun _ => k))
  (at level 100, right associativity) : py_scope.
Local Open Scope py_scope.

(** [copy.deepcopy(i)]: a new record with the same content. *)
Definition deepcopy (i : loc) : M loc :=
  v <- load i ;; alloc v.

(** [x[k]] and [x[k] = v] on the record a variable points to. *)
Definition getitem_at (x : loc) (k : string) : M value :=
  v <- load x ;; lift (getitem v k).

Definition setitem_at (x : loc) (k : string) (y : value) : M unit :=
  v <- load x ;; v' <- lift (setitem v k y) ;; save x v'.

(** [for x in xs: acc.append(body(x))]. *)
Fixpoint for_each {A B} (body : A -> M B) (xs : list A) : M (list B) :=
  match xs with
  | [] => ret []
  | x :: xs' => y <- body x ;; ys <- for_each body xs' ;; ret (y :: ys)
  end.

(** [for x in xs: body(x)]. *)
Fixpoint for_ {A} (body : A -> M unit) (xs : list A) : M unit :=
  match xs with
  | [] => ret tt
  | x :: xs' => body x ;; for_ body xs'
  end.

(** A loop that threads a local variable. *)
Fixpoint for_fold {A S} (body : S -> A -> M S) (xs : list A) (s : S) : M S :=
  match xs with
  | [] => ret s
  | x :: xs' => s' <- body s x ;; for_fold body xs' s'
  end.

End Store.
Export Store.
Local Open Scope py_scope.

(** ** pandas *)

Module Pandas.

(** A data frame: the index and the columns by name; every column has one
    value per row. *)
Record DataFrame := mkDataFrame {
  df_index : list value;
  df_columns : list (string * list value)
}.

Definition nrows (df : DataFrame) : nat := length (df_index df).

Definition aligned (df : DataFrame) : Prop :=
  Forall (fun c => length (snd c) = nrows df) (df_columns df).

Definition RangeIndex (n : nat) : list value :=
  map (fun i => VInt (Z.of_nat i)) (seq 0 n).

(** [DataFrame()] *)
Definition empty_frame : DataFrame := mkDataFrame [] [].

(** The key under which [_normalise_json] files the entry [key] met below
    [key_string] (separator ["."]; pandas 2 drops the separator only when
    [key_string] is empty, and pandas 1.4 and 1.5 agree with that unless a
    key starts with the separator). *)
Definition new_key (key_string key : string) : string :=
  if String.eqb key_string "" then key else key_string +:+ "." +:+ key.

(** [pandas.io.json._normalize._normalise_json] *)
Fixpoint _normalise_json (data : value) (key_string : string)
  (normalized_dict : dict) {struct data} : dict :=
  match data with
  | VDict d =>
      (fix items (kvs : dict) (acc : dict) {struct kvs} : dict :=
         match kvs with
         | [] => acc
         | (key, v) :: rest =>
             items rest (_normalise_json v (new_key key_string key) acc)
         end) d normalized_dict
  | _ => dict_set key_string data normalized_dict
  end.

(** [_normalise_json_ordered]: the top-level entries that are not
    dictionaries first, then the flattened nested ones. *)
Definition _normalise_json_ordered (data : dict) : dict :=
  let top_dict_ := List.filter (fun kv => negb (is_dict (snd kv))) data in
  let nested_dict_ :=
    _normalise_json (VDict (List.filter (fun kv => is_dict (snd kv)) data)) "" [] in
  dict_update top_dict_ nested_dict_.

(** The columns of [DataFrame(records)]: the keys in order of first
    appearance. *)
Definition add_key (acc : list string) (k : string) : list string :=
  if existsb (String.eqb k) acc then acc else (acc ++ [k])%list.

Definition union_keys (records : list dict) : list string :=
  fold_left (fun acc r => fold_left add_key (dict_keys r) acc) records [].

(** A key missing from a record leaves [nan] in its row.  The cells are
    kept as the records hold them, which is what pandas does for a column
    of strings, of timestamps or of other objects; a column of numbers is
    moreover given one dtype by pandas (integers beside a missing row come
    out as floats), which the frame below does not show.  The statements
    about cell values are made for the columns of strings and of
    timestamps. *)
Definition cell (k : string) (r : dict) : value :=
  match dict_get k r with Some v => v | None => VNaN end.

Definition DataFrame_of_records (records : list dict) : DataFrame :=
  mkDataFrame (RangeIndex (length records))
              (map (fun k => (k, map (cell k) records)) (union_keys records)).

Definition as_dict (v : value) : result dict :=
  match v with VDict d => Ok d | _ => Raise TypeError end.

Fixpoint all_ok {A} (rs : list (result A)) : result (list A) :=
  match rs with
  | [] => Ok []
  | Ok a :: rs' =>
      match all_ok rs' with Ok l => Ok (a :: l) | Raise e => Raise e end
  | Raise e :: _ => Raise e
  end.

(** [pd.json_normalize(data)] with default arguments: the empty list gives
    [DataFrame()], otherwise [DataFrame(_simple_json_normalize(data))],
    one flattened record per element.  The elements that reach it in
    [items_to_geodataframe] are dictionaries (the copies just assigned to);
    other elements are outside the model and reported as [TypeError]. *)
Definition json_normalize (data : list value) : result DataFrame :=
  match data with
  | [] => Ok empty_frame
  | _ =>
      match all_ok (map as_dict data) with
      | Ok ds => Ok (DataFrame_of_records (map _normalise_json_ordered ds))
      | Raise e => Raise e
      end
  end.

(** [field in df] *)
Definition has_column (field : string) (df : DataFrame) : bool :=
  dict_has field (df_columns df).

(** [df[field]] *)
Definition get_column (field : string) (df : DataFrame) : result (list value) :=
  match dict_get field (df_columns df) with
  | Some c => Ok c
  | None => Raise (KeyError field)
  end.

(** [df[field] = col] *)
Definition set_column (field : string) (col : list value) (df : DataFrame)
  : DataFrame :=
  mkDataFrame (df_index df) (dict_set field col (df_columns df)).

(** [df.set_index(field, inplace=True)]: the column becomes the index and
    leaves the columns; for a missing column pandas raises
    [KeyError(f"None of {missing} are in the columns")], where [missing]
    is the list of the missing keys, here the one field name. *)
Definition none_in_columns (field : string) : string :=
  "None of ['" +:+ field +:+ "'] are in the columns".

Definition set_index (field : string) (df : DataFrame) : result DataFrame :=
  match dict_get field (df_columns df) with
  | Some c => Ok (mkDataFrame c (dict_pop field (df_columns df)))
  | None => Raise (KeyError (none_in_columns field))
  end.

(** The conversion of one cell by [conv]: a missing value becomes [NaT],
    a value [conv] does not take raises. *)
Definition to_datetime_scalar (conv : value -> option Timestamp) (v : value)
  : result value :=
  if isna v then Ok VNaT
  else match conv v with
       | Some t => Ok (VTimestamp t)
       | None => Raise DatetimeError
       end.

(** [pd.to_datetime(col)] on a column.  A value that pandas rejects on its
    own ([conv]) makes the call raise.  Beyond that the column is converted
    as a whole: pandas settles on one way of reading it (since pandas 2 the
    format is inferred from the first value, and values with different UTC
    offsets are refused by pandas 3), so the call may still raise on a
    column whose values convert one by one, and what a cell becomes is
    decided for the column.  [in_column col] is the conversion pandas
    applies to the cells of [col], when it converts the column. *)
Definition to_datetime (conv : value -> option Timestamp)
  (in_column : list value -> option (value -> option Timestamp))
  (col : list value) : result (list value) :=
  match all_ok (map (to_datetime_scalar conv) col) with
  | Raise e => Raise e
  | Ok _ =>
      match in_column col with
      | Some conv_col => all_ok (map (to_datetime_scalar conv_col) col)
      | None => Raise DatetimeError
      end
  end.

End Pandas.
Export Pandas.

(** [gpd.GeoDataFrame(df)]: the same index and columns; a column named
    [geometry] becomes the active geometry, and the constructor accepts a
    frame without one. *)
Definition GeoDataFrame (df : DataFrame) : DataFrame := df.

(** ** The notebooks *)

(** *** [items_to_geodataframe] (both notebooks)

    [shapely.geometry.shape] and [pd.to_datetime] are library code; the
    function is embedded for any behaviour of the two: [shapely_accepts ob]
    tells whether [shape(ob)] returns, [datetime_of_scalar v] is the
    timestamp pandas makes of a value on its own, if it makes one, and
    [datetime_in_column col] is the conversion pandas applies to the cells
    of the column [col], if it converts the column. *)

Section ItemNormalizer.

Variable shapely_accepts : value -> bool.
Variable datetime_of_scalar : value -> option Timestamp.
Variable datetime_in_column : list value -> option (value -> option Timestamp).

Definition shape (ob : value) : result value :=
  if shapely_accepts ob then Ok (VGeom ob) else Raise ShapeError.

Definition timestamp_fields : list string :=
  ["properties.datetime"; "properties.created"; "properties.updated"].

(** The body of [for i in items]. *)
Definition copy_with_shape (i : loc) : M loc :=
  _i <- deepcopy i ;;
  g <- getitem_at _i "geometry" ;;
  s <- lift (shape g) ;;
  setitem_at _i "geometry" s ;;
  ret _i.

(** The body of [for field in [...]]. *)
Definition parse_field (gdf : DataFrame) (field : string) : M DataFrame :=
  if has_column field gdf then
    col <- lift (get_column field gdf) ;;
    col' <- lift (to_datetime datetime_of_scalar datetime_in_column col) ;;
    ret (set_column field col' gdf)
  else ret gdf.

Definition items_to_geodataframe (items : list loc) : M DataFrame :=
  _items <- for_each copy_with_shape items ;;
  records <- for_each load _items ;;
  df <- lift (json_normalize records) ;;
  gdf <- for_fold parse_field timestamp_fields (GeoDataFrame df) ;;
  lift (set_index "properties.datetime" gdf).

End ItemNormalizer.

(** *** The asset loop of the Landsat notebook ("update URLs to use s3") *)

(** [v[k1][k2]...] *)
Fixpoint get_path (v : value) (path : list string) : result value :=
  match path with
  | [] => Ok v
  | k :: path' =>
      match getitem v k with
      | Ok x => get_path x path'
      | Raise e => Raise e
      end
  end.

(** [v[k1][k2]...[k] = x]: the dictionary reached by the path is updated
    where it sits in the record. *)
Fixpoint set_path (v : value) (path : list string) (k : string) (x : value)
  : result value :=
  match path with
  | [] => setitem v k x
  | p :: path' =>
      match getitem v p with
      | Ok sub =>
          match set_path sub path' k x with
          | Ok sub' => setitem v p sub'
          | Raise e => Raise e
          end
      | Raise e => Raise e
      end
  end.

Definition get_path_at (x : loc) (path : list string) : M value :=
  v <- load x ;; lift (get_path v path).

Definition set_path_at (x : loc) (path : list string) (k : string) (y : value)
  : M unit :=
  v <- load x ;; v' <- lift (set_path v path k y) ;; save x v'.

(** What [for a in v] runs through.  Item assets are a mapping from asset
    name to descriptor; an empty list or string gives no iteration, and for
    any other object the first subscript [item['assets'][a]] cannot succeed
    with a string [a], which the model reports at the head of the loop. *)
Definition iter_keys (v : value) : result (list string) :=
  match v with
  | VDict d => Ok (dict_keys d)
  | VList [] => Ok []
  | VStr EmptyString => Ok []
  | _ => Raise TypeError
  end.

(** The body of [for a in item['assets']]. *)
Definition update_asset_href (item : loc) (a : string) : M unit :=
  asset <- get_path_at item ["assets"; a] ;;
  has_alternate <- lift (contains "alternate" asset) ;;
  has_s3 <- (if has_alternate : bool
             then alt <- get_path_at item ["assets"; a; "alternate"] ;;
                  lift (contains "s3" alt)
             else ret false) ;;
  (if has_s3 : bool
   then href <- get_path_at item ["assets"; a; "alternate"; "s3"; "href"] ;;
        set_path_at item ["assets"; a] "href" href
   else ret tt) ;;
  href <- get_path_at item ["assets"; a; "href"] ;;
  href' <- lift (replace_method href "usgs-landsat-ard" "usgs-landsat") ;;
  set_path_at item ["assets"; a] "href" href'.

Definition update_urls_to_s3 (items_dict : list loc) : M unit :=
  for_ (fun item =>
          assets <- getitem_at item "assets" ;;
          names <- lift (iter_keys assets) ;;
          for_ (update_asset_href item) names)
       items_dict.

(** *** NDVI

    [stac_cfg] of the Sentinel-2 notebook declares every asset as [uint16],
    so the bands of the cube are arrays of 16-bit unsigned integers: their
    sum and difference wrap around, and [/] is numpy's [true_divide], which
    computes in binary64.  The expression is elementwise; [ndvi] is its
    value at one pixel. *)

Module Ndvi.

Definition uint16 (z : Z) : Prop := 0 <= z < 65536.

Definition uint16_add (a b : Z) : Z := (a + b) mod 65536.
Definition uint16_sub (a b : Z) : Z := (a - b) mod 65536.

Definition float64_of_Z (z : Z) : spec_float :=
  binary_normalize 53 1024 z 0 false.

Definition true_divide (x y : Z) : spec_float :=
  SFdiv 53 1024 (float64_of_Z x) (float64_of_Z y).

Definition isnan (x : spec_float) : bool :=
  match x with S754_nan => true | _ => false end.

(** [np.maximum] and [np.minimum]: [x] if it wins the comparison or is
    [nan], else [y]. *)
Definition np_maximum (x y : spec_float) : spec_float :=
  if SFleb y x || isnan x then x else y.

Definition np_minimum (x y : spec_float) : spec_float :=
  if SFleb x y || isnan x then x else y.

Definition clip (x lo hi : spec_float) : spec_float :=
  np_minimum (np_maximum x lo) hi.

Definition ndvi (nir red : Z) : spec_float :=
  clip (true_divide (uint16_sub nir red) (uint16_add nir red))
       (float64_of_Z 0) (float64_of_Z 1).

(** [0 <= x <= 1] on floats. *)
Definition in_unit_interval (x : spec_float) : bool :=
  SFleb (float64_of_Z 0) x && SFleb x (float64_of_Z 1).

End Ndvi.

(** ** Sample data

    A concrete reading of the library functions and a few records, used to
    run the embedding. *)

Module Sample.

(** A GeoJSON geometry object: a mapping with a [type] and [coordinates]. *)
Definition geojson_accepts (ob : value) : bool :=
  match ob with
  | VDict d => dict_has "type" d && dict_has "coordinates" d
  | _ => false
  end.

Definition digit (c : ascii) : option Z :=
  let n := Z.of_nat (nat_of_ascii c) in
  if Z.leb 48 n && Z.leb n 57 then Some (n - 48) else None.

(** Reads [n] decimal digits. *)
Fixpoint digits (n : nat) (acc : Z) (s : string) : option (Z * string) :=
  match n with
  | O => Some (acc, s)
  | S n' =>
      match s with
      | String c s' =>
          match digit c with
          | Some d => digits n' (10 * acc + d) s'
          | None => None
          end
      | EmptyString => None
      end
  end.

Definition expect (c : ascii) (s : string) : option string :=
  match s with
  | String c' s' => if Ascii.eqb c c' then Some s' else None
  | EmptyString => None
  end.

(** The designator after the seconds: nothing (a naive time), [Z], or
    [+HH:MM] / [-HH:MM]. *)
Definition utc_offset (s : string) : option (option Z) :=
  match s with
  | EmptyString => Some None
  | String "Z" EmptyString => Some (Some 0)
  | String sign s1 =>
      match digits 2 0 s1 with
      | Some (h, s2) =>
          match expect ":" s2 with
          | Some s3 =>
              match digits 2 0 s3 with
              | Some (m, EmptyString) =>
                  if Ascii.eqb sign "+" then Some (Some (60 * h + m))
                  else if Ascii.eqb sign "-" then Some (Some (- (60 * h + m)))
                  else None
              | _ => None
              end
          | None => None
          end
      | None => None
      end
  end.

(** The times of the sample records: [YYYY-MM-DDTHH:MM:SS] followed by
    the designator.  pandas reads more than that (fractional seconds, for
    one); the sample conversion is applied to the sample records only. *)
Definition iso8601 (s : string) : option Timestamp :=
  match digits 4 0 s with
  | Some (y, s) =>
  match expect "-" s with
  | Some s =>
  match digits 2 0 s with
  | Some (mo, s) =>
  match expect "-" s with
  | Some s =>
  match digits 2 0 s with
  | Some (d, s) =>
  match expect "T" s with
  | Some s =>
  match digits 2 0 s with
  | Some (h, s) =>
  match expect ":" s with
  | Some s =>
  match digits 2 0 s with
  | Some (mi, s) =>
  match expect ":" s with
  | Some s =>
  match digits 2 0 s with
  | Some (sec, s) =>
  match utc_offset s with
  | Some tz => Some (mkTimestamp y mo d h mi sec tz)
  | None => None
  end
  | None => None end
  | None => None end
  | None => None end
  | None => None end
  | None => None end
  | None => None end
  | None => None end
  | None => None end
  | None => None end
  | None => None end
  | None => None end.

Definition iso8601_scalar (v : value) : option Timestamp :=
  match v with
  | VStr s => iso8601 s
  | VTimestamp t => Some t
  | _ => None
  end.

(** The column as a whole, as pandas 3 takes it: the values that are not
    missing must agree on their UTC offset (or all have none). *)
Definition same_offset (a b : option Z) : bool :=
  match a, b with
  | Some x, Some y => Z.eqb x y
  | None, None => true
  | _, _ => false
  end.

Fixpoint offsets (col : list value) : list (option Z) :=
  match col with
  | [] => []
  | v :: col' =>
      if isna v then offsets col'
      else match iso8601_scalar v with
           | Some t => ts_tz t :: offsets col'
           | None => offsets col'
           end
  end.

Definition one_offset (col : list value)
  : option (value -> option Timestamp) :=
  match offsets col with
  | [] => Some iso8601_scalar
  | o :: os =>
      if forallb (same_offset o) os then Some iso8601_scalar else None
  end.

Definition point (x y : Z) : value :=
  VDict [("type", VStr "Point"); ("coordinates", VList [VInt x; VInt y])].

Definition asset_https : value :=
  VDict [("href", VStr "https://landsatlook.usgs.gov/data/B4.TIF");
         ("type", VStr "image/tiff")].

Definition asset_s3 : value :=
  VDict [("href", VStr "https://landsatlook.usgs.gov/data/B5.TIF");
         ("type", VStr "image/tiff");
         ("alternate",
          VDict [("s3", VDict [("href", VStr "s3://usgs-landsat-ard/data/B5.TIF")])])].

(** Two items as the catalog returns them; the second has no creation
    time. *)
Definition record1 : dict :=
  [("id", VStr "LC08_1");
   ("geometry", point 1 2);
   ("properties",
    VDict [("datetime", VStr "2021-10-01T15:30:00Z");
           ("created", VStr "2021-10-02T00:00:00Z");
           ("eo:cloud_cover", VInt 3)]);
   ("assets", VDict [("red", asset_https); ("nir08", asset_s3)])].

Definition record2 : dict :=
  [("id", VStr "LC08_2");
   ("geometry", point 3 4);
   ("properties", VDict [("datetime", VStr "2021-10-03T15:31:00Z")]);
   ("assets", VDict [("red", asset_https)])].

(** An item whose acquisition time carries no offset. *)
Definition record_naive : dict :=
  [("id", VStr "X_1");
   ("geometry", point 5 6);
   ("properties", VDict [("datetime", VStr "2021-10-01T15:30:00")]);
   ("assets", VDict [])].

(** An item without an acquisition time. *)
Definition record_undated : dict :=
  [("id", VStr "X_2");
   ("geometry", point 7 8);
   ("properties", VDict [("created", VStr "2021-10-02T00:00:00Z")]);
   ("assets", VDict [])].


Definition catalog : store := [VDict record1; VDict record2].

Definition normalize :=
  items_to_geodataframe geojson_accepts iso8601_scalar one_offset.

End Sample.

(** ** Vocabulary of the statements *)

(** A computation that leaves every record of the store as it is and may
    only allocate new ones. *)
Definition extends {A} (m : M A) : Prop :=
  forall h, exists fresh, snd (m h) = (h ++ fresh)%list.

(** A computation that allocates nothing and writes to the records at the
    locations [L] only. *)
Definition confined {A} (L : list loc) (m : M A) : Prop :=
  forall h, length (snd (m h)) = length h
            /\ forall l, l ∉ L -> snd (m h) !! l = h !! l.

(** A computation that does not touch the store. *)
Definition readonly {A} (m : M A) : Prop :=
  forall h, snd (m h) = h.

(** The record that [items_to_geodataframe] hands to [json_normalize] for
    the item [d] with geometry [g]. *)
Definition with_shape (d : dict) (g : value) : dict :=
  dict_set "geometry" (VGeom g) d.

(** The value of the dotted-path column [field] in the row of item [d]. *)
Definition attribute (field : string) (d : dict) : option value :=
  dict_get field (_normalise_json_ordered d).

(** The entries [_normalise_json] writes for [data] met under
    [key_string], in the order it writes them. *)
Fixpoint leaves (data : value) (key_string : string) {struct data}
  : list (string * value) :=
  match data with
  | VDict d =>
      (fix items (kvs : dict) : list (string * value) :=
         match kvs with
         | [] => []
         | (key, v) :: rest =>
             (leaves v (new_key key_string key) ++ items rest)%list
         end) d
  | _ => [(key_string, data)]
  end.

(** The records of the variables [items] in the store. *)
Definition holds (h : store) (items : list loc) (ds : list dict) : Prop :=
  Forall2 (fun l d => h !! l = Some (VDict d)) items ds.

(** The copy of an item after [_i['geometry'] = shape(_i['geometry'])]. *)
Definition shaped (d : dict) : dict :=
  match dict_get "geometry" d with
  | Some g => with_shape d g
  | None => d
  end.

(** [shape] returns on the geometry of the item. *)
Definition has_shape (shapely_accepts : value -> bool) (d : dict) : bool :=
  match dict_get "geometry" d with
  | Some g => shapely_accepts g
  | None => false
  end.

(** The conversion [conv] takes the cell [v]: it is missing, or [conv]
    makes a timestamp of it. *)
Definition convertible (conv : value -> option Timestamp) (v : value) : bool :=
  isna v || match conv v with Some _ => true | None => false end.

(** What the conversion [conv] makes of a cell it takes. *)
Definition parsed (conv : value -> option Timestamp) (v : value) : value :=
  if isna v then VNaT
  else match conv v with Some t => VTimestamp t | None => VNaT end.

(** [pd.to_datetime] returns on the column [col]: every value is taken on
    its own, and pandas converts the column as a whole, by a conversion
    that takes every value. *)
Definition converts (conv : value -> option Timestamp)
  (in_column : list value -> option (value -> option Timestamp))
  (col : list value) : Prop :=
  Forall (fun v => convertible conv v = true) col
  /\ exists conv_col,
       in_column col = Some conv_col
       /\ Forall (fun v => convertible conv_col v = true) col.

(** The column [pd.to_datetime] makes of [col], when it returns. *)
Definition converted
  (in_column : list value -> option (value -> option Timestamp))
  (col : list value) : list value :=
  match in_column col with
  | Some conv_col => map (parsed conv_col) col
  | None => col
  end.

(** [parse_field] when it returns. *)
Definition parse_column
  (in_column : list value -> option (value -> option Timestamp))
  (field : string) (df : DataFrame) : DataFrame :=
  match dict_get field (df_columns df) with
  | Some col => set_column field (converted in_column col) df
  | None => df
  end.

(** [pd.to_datetime] returns on the column [field], when the frame has
    it. *)
Definition column_convertible (conv : value -> option Timestamp)
  (in_column : list value -> option (value -> option Timestamp))
  (field : string) (df : DataFrame) : Prop :=
  forall col, dict_get field (df_columns df) = Some col ->
              converts conv in_column col.

(** An item as the data model has it: a footprint geometry that shapely
    reads, an acquisition time, and timestamps that pandas reads, each on
    its own, wherever one of the three timestamp attributes is present. *)
Definition well_formed (shapely_accepts : value -> bool)
  (conv : value -> option Timestamp) (d : dict) : bool :=
  has_shape shapely_accepts d
  && match attribute "properties.datetime" d with Some _ => true | None => false end
  && forallb (fun f => match attribute f d with
                       | Some v => convertible conv v
                       | None => true
                       end) timestamp_fields.

(** The conversion [conv] makes the timestamp [t] of the acquisition time
    of the item [d]. *)
Definition acquired (conv : value -> option Timestamp) (d : dict)
  (t : Timestamp) : Prop :=
  exists v, attribute "properties.datetime" d = Some v
            /\ isna v = false /\ conv v = Some t.

Definition is_aware_timestamp (v : value) : bool :=
  match v with VTimestamp t => tz_aware t | _ => false end.

(** The key [k] is [ks] or a dotted path below it. *)
Definition under (ks k : string) : Prop :=
  k = ks \/ exists rest, k = ks +:+ "." +:+ rest.

(** The entries of [_normalise_json_ordered]: the top-level ones and the
    writes made for the nested dictionaries. *)
Definition top_entries (d : dict) : dict :=
  List.filter (fun kv => negb (is_dict (snd kv))) d.

Definition nested_writes (d : dict) : list (string * value) :=
  leaves (VDict (List.filter (fun kv => is_dict (snd kv)) d)) "".

(** The last write to [k] in a sequence of writes. *)
Definition last_write {V} (k : string) (w : list (string * V)) : option V :=
  dict_get k (rev w).

(** The cell of the item [d] in the column [field] of the frame
    [json_normalize] makes, and the column over the items [ds]; the
    column exists when some item has the attribute. *)
Definition attribute_cell (field : string) (d : dict) : value :=
  match attribute field d with
  | Some v => v
  | None => VNaN
  end.

Definition column_of (field : string) (ds : list dict) : list value :=
  map (attribute_cell field) ds.

Definition any_has (field : string) (ds : list dict) : bool :=
  existsb (fun d => match attribute field d with Some _ => true | None => false end) ds.

(** pandas converts, as a whole, each of the three timestamp columns that
    the items give rise to. *)
Definition pandas_converts (conv : value -> option Timestamp)
  (in_column : list value -> option (value -> option Timestamp))
  (ds : list dict) : Prop :=
  forall f, f ∈ timestamp_fields -> any_has f ds = true ->
            converts conv in_column (column_of f ds).

(** The rows [json_normalize] makes of the copies, and the frame the
    function returns when nothing raises. *)
Definition rows_of (ds : list dict) : list dict :=
  map _normalise_json_ordered (map shaped ds).

Definition expected_frame
  (in_column : list value -> option (value -> option Timestamp))
  (ds : list dict) : DataFrame :=
  let df :=
    parse_column in_column "properties.updated"
      (parse_column in_column "properties.created"
         (parse_column in_column "properties.datetime"
            (DataFrame_of_records (rows_of ds)))) in
  mkDataFrame
    (converted in_column (map (cell "properties.datetime") (rows_of ds)))
    (dict_pop "properties.datetime" (df_columns df)).

(** *** The asset loop, as described

    What the loop is meant to leave in an asset descriptor: the [href] of
    the [s3] alternate when the descriptor has one, the original [href]
    otherwise, with the bucket renamed; nothing else is touched.  These
    definitions follow the description, not the code. *)

Definition string_at (k : string) (d : dict) : option string :=
  match dict_get k d with
  | Some (VStr s) => Some s
  | _ => None
  end.

(** The href the rewriting starts from; [None] when the descriptor does not
    have the shape of a STAC asset with the alternate-assets extension. *)
Definition chosen_href (asset : dict) : option string :=
  match dict_get "alternate" asset with
  | None => string_at "href" asset
  | Some (VDict alt) =>
      match dict_get "s3" alt with
      | None => string_at "href" asset
      | Some (VDict s3) => string_at "href" s3
      | Some _ => None
      end
  | Some _ => None
  end.

Definition rename_bucket (s : string) : string :=
  str_replace "usgs-landsat-ard" "usgs-landsat" s.

Definition rewrite_asset (v : value) : value :=
  match v with
  | VDict asset =>
      match chosen_href asset with
      | Some s => VDict (dict_set "href" (VStr (rename_bucket s)) asset)
      | None => v
      end
  | _ => v
  end.

Definition asset_ok (v : value) : bool :=
  match v with
  | VDict asset =>
      match chosen_href asset with Some _ => true | None => false end
  | _ => false
  end.

Definition rewrite_entry (kv : string * value) : string * value :=
  (fst kv, rewrite_asset (snd kv)).

Definition rewrite_assets (d : dict) : dict :=
  match dict_get "assets" d with
  | Some (VDict assets) => dict_set "assets" (VDict (map rewrite_entry assets)) d
  | _ => d
  end.

(** An item whose [assets] is a mapping of well-shaped descriptors. *)
Definition assets_ok (d : dict) : Prop :=
  exists assets,
    dict_get "assets" d = Some (VDict assets)
    /\ NoDup (dict_keys assets)
    /\ Forall (fun kv => asset_ok (snd kv) = true) assets.

(** A key without the separator. *)
Fixpoint dotfree (s : string) : bool :=
  match s with
  | EmptyString => true
  | String c s' => negb (Ascii.eqb c ".") && dotfree s'
  end.

(** An item whose top-level keys are plain names, as those of a STAC item
    are ([id], [geometry], [properties], [assets], ...). *)
Definition plain_keys (d : dict) : Prop :=
  Forall (fun kv => fst kv <> "" /\ dotfree (fst kv) = true) d.

(** A nested entry as a column value: a dictionary is flattened further and
    is no value itself. *)
Definition leaf (o : option value) : option value :=
  match o with
  | Some v => if is_dict v then None else Some v
  | None => None
  end.

(** An item in the shape the catalog returns: plain top-level keys, a
    geometry shapely reads, and [properties] holding an acquisition time
    and, optionally, creation and update times that pandas reads, each on
    its own. *)
Definition stac_item (shapely_accepts : value -> bool)
  (conv : value -> option Timestamp) (d : dict) : Prop :=
  plain_keys d /\ NoDup (dict_keys d)
  /\ has_shape shapely_accepts d = true
  /\ exists p,
       dict_get "properties" d = Some (VDict p)
       /\ NoDup (dict_keys p)
       /\ (exists v, dict_get "datetime" p = Some v /\ is_dict v = false)
       /\ forall x v, x ∈ ["datetime"; "created"; "updated"] ->
                      dict_get x p = Some v ->
                      is_dict v = true \/ convertible conv v = true.

(** ** [set_credentials] and the environment cells (Landsat notebook)

    [os.environ] is a mapping from names to strings.  The credentials file
    is read by [configparser]; what [cp.read(cfile)] leaves in the parser
    (nothing, when the file does not exist), the home directory behind
    [os.path.expanduser] and the interpolation of values that contain [%]
    are taken as they come. *)

Module Credentials.

Abbreviation environ := (list (string * string)).

Inductive error : Type :=
| EKeyError (k : string)
| EValueError
| ENoSection (s : string)
| ENoOption (s k : string)
| EOther (code : nat).

Abbreviation outcome A := (A + error)%type.

(** [s.upper()] and [s.lower()] on ASCII letters. *)
Definition upper_ascii (c : ascii) : ascii :=
  let n := nat_of_ascii c in
  if Nat.leb 97 n && Nat.leb n 122 then ascii_of_nat (n - 32) else c.

Definition lower_ascii (c : ascii) : ascii :=
  let n := nat_of_ascii c in
  if Nat.leb 65 n && Nat.leb n 90 then ascii_of_nat (n + 32) else c.

Fixpoint str_upper (s : string) : string :=
  match s with
  | EmptyString => EmptyString
  | String c s' => String (upper_ascii c) (str_upper s')
  end.

Fixpoint str_lower (s : string) : string :=
  match s with
  | EmptyString => EmptyString
  | String c s' => String (lower_ascii c) (str_lower s')
  end.

(** A [ConfigParser] after reading: the sections with their options, and
    the options of the default section.  Option names are stored in lower
    case. *)
Record ConfigParser := mkConfigParser {
  _sections : list (string * list (string * string));
  _defaults : list (string * string)
}.

Definition default_section : string := "DEFAULT".

Definition optionxform (option : string) : string := str_lower option.

Definition has_section (cp : ConfigParser) (section : string) : bool :=
  dict_has section (_sections cp).

Definition has_option (cp : ConfigParser) (section option : string) : bool :=
  if String.eqb section "" || String.eqb section default_section
  then dict_has (optionxform option) (_defaults cp)
  else match dict_get section (_sections cp) with
       | None => false
       | Some options =>
           dict_has (optionxform option) options
           || dict_has (optionxform option) (_defaults cp)
       end.

Section Library.

(** [cp.read(cfile)] on a fresh parser, [os.path.expanduser] and
    [BasicInterpolation] on a value with a [%]. *)
Variable read : string -> outcome ConfigParser.
Variable expanduser : environ -> string -> string.
Variable interpolate :
  ConfigParser -> string -> string -> string -> outcome string.

(** [BasicInterpolation.before_get]: a value without [%] is returned as it
    is. *)
Definition before_get (cp : ConfigParser) (section option value : string)
  : outcome string :=
  if str_contains "%" value then interpolate cp section option value
  else inl value.

(** [cp.get(section, option)]: the option of the section, or else of the
    defaults. *)
Definition get (cp : ConfigParser) (section option : string) : outcome string :=
  match
    match dict_get section (_sections cp) with
    | Some options => Some options
    | None => if String.eqb section default_section then Some [] else None
    end
  with
  | None => inr (ENoSection section)
  | Some options =>
      match dict_get (optionxform option) options with
      | Some value => before_get cp section option value
      | None =>
          match dict_get (optionxform option) (_defaults cp) with
          | Some value => before_get cp section option value
          | None => inr (ENoOption section option)
          end
      end
  end.

(** [cp[profile][key]] *)
Definition lookup (cp : ConfigParser) (profile key : string) : outcome string :=
  if negb (String.eqb profile default_section) && negb (has_section cp profile)
  then inr (EKeyError profile)
  else if has_option cp profile key then get cp profile key
  else inr (EKeyError key).

(** [os.environ[k] = v] *)
Definition has_nul (s : string) : bool :=
  str_contains (String zero EmptyString) s.

(** A value that reaches the environment as it stands in the file: no
    interpolation marker and no null byte. *)
Definition plain_value (v : string) : bool :=
  negb (str_contains "%" v) && negb (has_nul v).

Definition setenv (k v : string) (env : environ) : outcome environ :=
  if has_nul v then inr EValueError else inl (dict_set k v env).

(** [not x] for an argument that is [None] or a string. *)
Definition falsy (x : option string) : bool :=
  match x with
  | None | Some EmptyString => true
  | Some _ => false
  end.

Definition or_else (x : option string) (d : string) : string :=
  match x with
  | None | Some EmptyString => d
  | Some s => s
  end.

(** The result and the environment the call leaves behind. *)
Definition set_credentials (profile region : string)
  (endpoint cfile : option string) (env : environ)
  : outcome unit * environ :=
  let cfile := or_else cfile (expanduser env "~/.aws/credentials") in
  let endpoint := or_else endpoint ("s3." +:+ region +:+ ".amazonaws.com") in
  match read cfile with
  | inr e => (inr e, env)
  | inl cp =>
      match lookup cp profile "aws_access_key_id" with
      | inr e => (inr e, env)
      | inl key_id =>
          match setenv (str_upper "aws_access_key_id") key_id env with
          | inr e => (inr e, env)
          | inl env1 =>
              match lookup cp profile "aws_secret_access_key" with
              | inr e => (inr e, env1)
              | inl secret =>
                  match setenv (str_upper "aws_secret_access_key") secret env1 with
                  | inr e => (inr e, env1)
                  | inl env2 =>
                      match setenv (str_upper "aws_s3_endpoint") endpoint env2 with
                      | inr e => (inr e, env2)
                      | inl env3 => (inl tt, env3)
                      end
                  end
              end
          end
      end
  end.

(** The endpoint the call stores. *)
Definition endpoint_of (region : string) (endpoint : option string) : string :=
  or_else endpoint ("s3." +:+ region +:+ ".amazonaws.com").

(** The call of the notebook: [set_credentials()]. *)
Definition set_credentials_default (env : environ) : outcome unit * environ :=
  set_credentials "default" "us-west-2" None None env.

End Library.

(** The two cells [os.environ.update(env)]. *)
Definition gdal_env : environ :=
  [("GDAL_DISABLE_READDIR_ON_OPEN", "EMPTY_DIR");
   ("GDAL_MAX_RAW_BLOCK_CACHE_SIZE", "200000000");
   ("GDAL_SWATH_SIZE", "200000000");
   ("VSI_CURL_CACHE_SIZE", "200000000")].

Definition requester_pays_env : environ := [("AWS_REQUEST_PAYER", "requester")].

Definition environ_update (env new : environ) : environ := dict_update env new.

(** The environment handed to the workers
    ([options.environment_vars = dict(os.environ)]) after the two cells and
    [set_credentials()]. *)
Definition worker_environment
  (read : string -> outcome ConfigParser)
  (expanduser : environ -> string -> string)
  (interpolate : ConfigParser -> string -> string -> string -> outcome string)
  (env : environ) : outcome unit * environ :=
  set_credentials_default read expanduser interpolate
    (environ_update (environ_update env gdal_env) requester_pays_env).

(** A credentials file with one profile, for running the model. *)
Definition sample_file : ConfigParser :=
  mkConfigParser
    [("default", [("aws_access_key_id", "AKIDEXAMPLE");
                  ("aws_secret_access_key", "wJalrXUtnFEMI")]);
     ("other", [("aws_access_key_id", "AKIDOTHER")])]
    [].

Definition sample_read (path : string) : outcome ConfigParser :=
  if String.eqb path "/home/user/.aws/credentials" then inl sample_file
  else inl (mkConfigParser [] []).

Definition sample_expanduser (env : environ) (path : string) : string :=
  match path with
  | String "~" rest => "/home/user" +:+ rest
  | _ => path
  end.

Definition sample_interpolate (cp : ConfigParser) (section option value : string)
  : outcome string := inr (EOther 0).

Definition sample_set_credentials :=
  set_credentials sample_read sample_expanduser sample_interpolate.

End Credentials.

(** ** Vocabulary of the further statements *)

(** The cells of the returned frame for the item [d]. *)
Definition geometry_object (d : dict) : value :=
  match dict_get "geometry" d with
  | Some g => VGeom g
  | None => VNaN
  end.

Definition timestamp_cell (conv : value -> option Timestamp) (field : string)
  (d : dict) : value :=
  match attribute field d with
  | Some v => parsed conv v
  | None => VNaT
  end.


(** The asset loop on the store: what it leaves at [item], and after the
    whole list.  An item variable may occur more than once in the list. *)
Definition rewrite_record (h : store) (item : loc) : store :=
  match h !! item with
  | Some (VDict d) => <[item := VDict (rewrite_assets d)]> h
  | _ => h
  end.

Definition rewrite_store (items : list loc) (h : store) : store :=
  foldl rewrite_record h items.

(** Every variable of [items] holds a record with the property [P]. *)
Definition records_ok (P : dict -> Prop) (h : store) (items : list loc) : Prop :=
  Forall (fun item => exists d, h !! item = Some (VDict d) /\ P d) items.

(** An item whose [assets] is a mapping of descriptors that all pass [P]. *)
Definition assets_all (P : value -> bool) (d : dict) : Prop :=
  exists assets,
    dict_get "assets" d = Some (VDict assets)
    /\ NoDup (dict_keys assets)
    /\ Forall (fun kv => P (snd kv) = true) assets.

Definition names_ard (s : string) : bool := str_contains "usgs-landsat-ard" s.

(** A descriptor whose [href] already is what the loop would write. *)
Definition settled (v : value) : bool :=
  match v with
  | VDict asset =>
      match chosen_href asset, string_at "href" asset with
      | Some s, Some s' => String.eqb (rename_bucket s) s'
      | _, _ => false
      end
  | _ => false
  end.

(** A descriptor without alternates whose [href] does not name the ARD
    bucket. *)
Definition untouched (v : value) : bool :=
  match v with
  | VDict asset =>
      match dict_get "alternate" asset, string_at "href" asset with
      | None, Some s => negb (names_ard s)
      | _, _ => false
      end
  | _ => false
  end.

(** A well-shaped descriptor whose chosen href, once renamed, does not name
    the ARD bucket any more. *)
Definition renames_once (v : value) : bool :=
  match v with
  | VDict asset =>
      match chosen_href asset with
      | Some s => negb (names_ard (rename_bucket s))
      | None => false
      end
  | _ => false
  end.
(** * Properties *)

(** ** Dictionaries *)

Section DictFacts.
Context {V : Type}.
Implicit Types (k : string) (d e : list (string * V)).

Lemma dict_get_set_eq k (v : V) d : dict_get k (dict_set k v d) = Some v.
Proof.
  induction d as [|[k' v'] d IH]; simpl.
  - by rewrite String.eqb_refl.
  - destruct (String.eqb_spec k k'); simpl.
    + by rewrite String.eqb_refl.
    + destruct (String.eqb_spec k k'); [done | exact IH].
Qed.

Lemma dict_get_set_ne k k' (v : V) d :
  k ≠ k' → dict_get k' (dict_set k v d) = dict_get k' d.
Proof.
  intros Hne. induction d as [|[k0 v0] d IH]; simpl.
  - destruct (String.eqb_spec k' k); [congruence | done].
  - destruct (String.eqb_spec k k0) as [->|]; simpl.
    + destruct (String.eqb_spec k' k0); [congruence | done].
    + destruct (String.eqb_spec k' k0); [done | exact IH].
Qed.

Lemma dict_get_pop_eq k d : dict_get k (dict_pop k d) = None.
Proof.
  induction d as [|[k' v'] d IH]; simpl; [done|].
  destruct (String.eqb_spec k k') as [->|Hne]; simpl; [done|].
  destruct (String.eqb_spec k k'); [done | exact IH].
Qed.

Lemma dict_get_pop_ne k k' d :
  k ≠ k' → dict_get k' (dict_pop k d) = dict_get k' d.
Proof.
  intros Hne. induction d as [|[k0 v0] d IH]; simpl; [done|].
  destruct (String.eqb_spec k k0) as [->|]; simpl.
  - destruct (String.eqb_spec k' k0); [congruence | exact IH].
  - destruct (String.eqb_spec k' k0); [done | exact IH].
Qed.

Lemma dict_keys_set_present k (v : V) d :
  dict_has k d = true → dict_keys (dict_set k v d) = dict_keys d.
Proof.
  unfold dict_has, dict_keys.
  induction d as [|[k' v'] d IH]; simpl; [done|].
  destruct (String.eqb_spec k k') as [->|]; simpl; [done|].
  intros H. f_equal. by apply IH.
Qed.

Lemma dict_has_true k d : dict_has k d = true ↔ is_Some (dict_get k d).
Proof.
  unfold dict_has. destruct (dict_get k d); split; intros H; try done.
  all: try by eexists.
  all: by destruct H.
Qed.

Lemma dict_has_keys k d : dict_has k d = true ↔ k ∈ dict_keys d.
Proof.
  unfold dict_has, dict_keys.
  induction d as [|[k' v'] d IH]; simpl.
  - split; [done | intros H; inversion H].
  - destruct (String.eqb_spec k k') as [->|Hne].
    + split; [intros _; left | done].
    + rewrite IH. split; [by right | intros H].
      inversion H; subst; [done | assumption].
Qed.

(** Reading a key after a bulk update: the last write wins. *)
Lemma dict_get_update_snoc k d e k' (v : V) :
  dict_get k (dict_update d (e ++ [(k', v)])%list)
  = if String.eqb k' k then Some v else dict_get k (dict_update d e).
Proof.
  unfold dict_update. rewrite fold_left_app. simpl.
  destruct (String.eqb_spec k' k) as [->|Hne].
  - apply dict_get_set_eq.
  - by apply dict_get_set_ne.
Qed.

Lemma dict_get_update k d e :
  dict_get k (dict_update d e)
  = match dict_get k (rev e) with
    | Some v => Some v
    | None => dict_get k d
    end.
Proof.
  induction e as [|[k' v] e IH] using rev_ind; [done|].
  rewrite dict_get_update_snoc, rev_app_distr. simpl.
  rewrite (String.eqb_sym k k').
  destruct (String.eqb k' k); [done | exact IH].
Qed.

End DictFacts.

(** ** The store *)

Lemma extends_ret {A} (a : A) : extends (ret a).
Proof. intros h. exists []. simpl. by rewrite app_nil_r. Qed.

Lemma extends_lift {A} (r : result A) : extends (lift r).
Proof. intros h. exists []. simpl. by rewrite app_nil_r. Qed.

Lemma extends_load l : extends (load l).
Proof.
  intros h. exists []. unfold load.
  destruct (h !! l); simpl; by rewrite app_nil_r.
Qed.

Lemma extends_bind {A B} (m : M A) (f : A -> M B) :
  extends m -> (forall a, extends (f a)) -> extends (bind m f).
Proof.
  intros Hm Hf h. unfold bind.
  destruct (Hm h) as [fresh1 H1].
  destruct (m h) as [[a|e] h1]; simpl in *; subst h1.
  - destruct (Hf a (h ++ fresh1)%list) as [fresh2 H2].
    exists (fresh1 ++ fresh2)%list. by rewrite H2, app_assoc.
  - by exists fresh1.
Qed.

Lemma extends_for_each {A B} (body : A -> M B) xs :
  (forall x, extends (body x)) -> extends (for_each body xs).
Proof.
  intros Hbody. induction xs as [|x xs IH]; simpl.
  - apply extends_ret.
  - apply extends_bind; [apply Hbody|]. intros y.
    apply extends_bind; [exact IH|]. intros ys. apply extends_ret.
Qed.

Lemma extends_for_fold {A S} (body : S -> A -> M S) xs s :
  (forall s x, extends (body s x)) -> extends (for_fold body xs s).
Proof.
  intros Hbody. revert s. induction xs as [|x xs IH]; intros s; simpl.
  - apply extends_ret.
  - apply extends_bind; [apply Hbody | intros s'; apply IH].
Qed.

(** Reading and writing the record just allocated at the end of the
    store. *)
Lemma lookup_fresh (h : store) (v : value) : (h ++ [v])%list !! length h = Some v.
Proof. by rewrite list_lookup_middle. Qed.

Lemma insert_fresh (h : store) (v w : value) :
  <[length h := w]> (h ++ [v])%list = (h ++ [w])%list.
Proof.
  rewrite insert_app_r_alt by lia. by rewrite Nat.sub_diag.
Qed.

(** ** [items_to_geodataframe] *)

Section ItemNormalizerFacts.

Variable shapely_accepts : value -> bool.
Variable datetime_of_scalar : value -> option Timestamp.
Variable datetime_in_column : list value -> option (value -> option Timestamp).

Local Abbreviation copy_item := (copy_with_shape shapely_accepts).
Local Abbreviation parse := (parse_field datetime_of_scalar datetime_in_column).
Local Abbreviation normalizer :=
  (items_to_geodataframe shapely_accepts datetime_of_scalar datetime_in_column).

(** The loop body writes to the copy only. *)
Lemma copy_with_shape_extends i : extends (copy_item i).
Proof.
  intros h. unfold copy_with_shape, deepcopy, getitem_at, setitem_at,
    load, alloc, save, lift, ret, bind.
  destruct (h !! i) as [v|]; simpl; [|exists []; by rewrite app_nil_r].
  rewrite lookup_fresh.
  destruct (getitem v "geometry") as [g|e]; simpl; [|by exists [v]].
  unfold shape. destruct (shapely_accepts g); simpl; [|by exists [v]].
  rewrite lookup_fresh.
  destruct (setitem v "geometry" (VGeom g)) as [v'|e]; simpl; [|by exists [v]].
  rewrite lookup_fresh, insert_fresh. by exists [v'].
Qed.

Lemma parse_field_readonly gdf field : readonly (parse gdf field).
Proof.
  intros h. unfold parse_field, lift, ret, bind.
  destruct (has_column field gdf); [|done].
  destruct (get_column field gdf); [|done].
  by destruct (to_datetime datetime_of_scalar datetime_in_column a).
Qed.

Lemma readonly_extends {A} (m : M A) : readonly m -> extends m.
Proof. intros Hm h. exists []. by rewrite Hm, app_nil_r. Qed.

Lemma items_to_geodataframe_extends items : extends (normalizer items).
Proof.
  unfold items_to_geodataframe.
  apply extends_bind; [apply extends_for_each, copy_with_shape_extends|].
  intros _items.
  apply extends_bind; [apply extends_for_each, extends_load|].
  intros records. apply extends_bind; [apply extends_lift|].
  intros df. apply extends_bind; [|intros; apply extends_lift].
  apply extends_for_fold. intros gdf f.
  apply readonly_extends, parse_field_readonly.
Qed.

End ItemNormalizerFacts.

(** *** The copies and the frame built from them *)

Section NormalizerRuns.

Variable shapely_accepts : value -> bool.
Variable datetime_of_scalar : value -> option Timestamp.

Local Abbreviation copy_item := (copy_with_shape shapely_accepts).

Lemma copy_with_shape_ok h i d g :
  h !! i = Some (VDict d) ->
  dict_get "geometry" d = Some g ->
  shapely_accepts g = true ->
  copy_item i h = (Ok (length h), (h ++ [VDict (with_shape d g)])%list).
Proof.
  intros Hi Hg Hs.
  unfold copy_with_shape, deepcopy, getitem_at, setitem_at,
    load, alloc, save, lift, ret, bind.
  rewrite Hi. simpl. rewrite lookup_fresh. simpl. rewrite Hg.
  unfold shape. rewrite Hs. simpl.
  rewrite lookup_fresh. simpl. by rewrite lookup_fresh, insert_fresh.
Qed.

Lemma holds_app h fresh items ds :
  holds h items ds -> holds (h ++ fresh)%list items ds.
Proof.
  unfold holds. induction 1; constructor; [|assumption].
  by apply lookup_app_l_Some.
Qed.

Lemma for_each_copy items : forall ds h,
  holds h items ds ->
  Forall (fun d => has_shape shapely_accepts d = true) ds ->
  for_each copy_item items h
  = (Ok (seq (length h) (length items)),
     (h ++ map (fun d => VDict (shaped d)) ds)%list).
Proof.
  induction items as [|i items IH]; intros ds h Hh Hs.
  - inversion Hh; subst. simpl. unfold ret. by rewrite app_nil_r.
  - inversion Hh as [|? d ? ds' Hi Hrest]; subst.
    inversion Hs as [|? ? Hd Hs']; subst.
    unfold has_shape in Hd.
    destruct (dict_get "geometry" d) as [g|] eqn:Hg; [|done].
    cbn [for_each]. unfold bind at 1.
    rewrite (copy_with_shape_ok h i d g Hi Hg Hd).
    unfold bind at 1.
    rewrite (IH ds' (h ++ [VDict (with_shape d g)])%list).
    + unfold ret. rewrite length_app. simpl.
      replace (length h + 1)%nat with (S (length h)) by lia.
      unfold shaped at 2. rewrite Hg. by rewrite <- app_assoc.
    + by apply holds_app.
    + exact Hs'.
Qed.

Lemma for_each_load (vs : list value) : forall (h1 h2 : store),
  for_each load (seq (length h1) (length vs)) (h1 ++ vs ++ h2)%list
  = (Ok vs, (h1 ++ vs ++ h2)%list).
Proof.
  induction vs as [|v vs IH]; intros h1 h2; [done|].
  cbn [length seq for_each]. rewrite <- app_comm_cons.
  unfold bind at 1, load at 1.
  rewrite list_lookup_middle by done.
  unfold bind at 1.
  specialize (IH (h1 ++ [v])%list h2).
  rewrite length_app in IH. simpl in IH.
  replace (length h1 + 1)%nat with (S (length h1)) in IH by lia.
  rewrite <- app_assoc in IH. simpl in IH. by rewrite IH.
Qed.

Lemma all_ok_as_dict (ds : list dict) : all_ok (map as_dict (map VDict ds)) = Ok ds.
Proof. induction ds as [|d ds IH]; simpl; [done|]. by rewrite IH. Qed.

Lemma json_normalize_records (ds : list dict) :
  ds <> [] ->
  json_normalize (map VDict ds)
  = Ok (DataFrame_of_records (map _normalise_json_ordered ds)).
Proof.
  intros Hne. unfold json_normalize.
  destruct ds as [|d ds]; [done|].
  change (map VDict (d :: ds)) with (VDict d :: map VDict ds) at 1.
  cbv iota. by rewrite all_ok_as_dict.
Qed.

End NormalizerRuns.

(** ** Frames built from records *)

Lemma existsb_add_key f acc k :
  existsb (String.eqb f) (add_key acc k)
  = existsb (String.eqb f) acc || String.eqb f k.
Proof.
  unfold add_key. destruct (existsb (String.eqb k) acc) eqn:Hk.
  - destruct (String.eqb_spec f k) as [->|]; [|by rewrite orb_false_r].
    by rewrite Hk.
  - rewrite existsb_app. simpl. by rewrite orb_false_r.
Qed.

Lemma existsb_fold_add_key f ks : forall acc,
  existsb (String.eqb f) (fold_left add_key ks acc)
  = existsb (String.eqb f) acc || existsb (String.eqb f) ks.
Proof.
  induction ks as [|k ks IH]; intros acc; simpl.
  - by rewrite orb_false_r.
  - by rewrite IH, existsb_add_key, orb_assoc.
Qed.

Lemma existsb_dict_keys {V} f (r : list (string * V)) :
  existsb (String.eqb f) (dict_keys r) = dict_has f r.
Proof.
  unfold dict_has, dict_keys.
  induction r as [|[k v] r IH]; simpl; [done|].
  destruct (String.eqb f k); [done | exact IH].
Qed.

Lemma existsb_union_keys f (records : list dict) :
  existsb (String.eqb f) (union_keys records) = existsb (dict_has f) records.
Proof.
  unfold union_keys.
  assert (forall acc,
    existsb (String.eqb f)
      (fold_left (fun acc r => fold_left add_key (dict_keys r) acc) records acc)
    = existsb (String.eqb f) acc || existsb (dict_has f) records) as H.
  { induction records as [|r records IH]; intros acc; simpl.
    - by rewrite orb_false_r.
    - by rewrite IH, existsb_fold_add_key, existsb_dict_keys, orb_assoc. }
  by rewrite H.
Qed.

Lemma dict_get_tabulate {V} f (F : string -> V) keys :
  dict_get f (map (fun k => (k, F k)) keys)
  = if existsb (String.eqb f) keys then Some (F f) else None.
Proof.
  induction keys as [|k keys IH]; simpl; [done|].
  destruct (String.eqb_spec f k) as [->|]; [done | exact IH].
Qed.

(** A column exists when some record has the key, and then holds one cell
    per record. *)
Lemma column_of_records f (records : list dict) :
  dict_get f (df_columns (DataFrame_of_records records))
  = if existsb (dict_has f) records then Some (map (cell f) records) else None.
Proof.
  unfold DataFrame_of_records. simpl.
  by rewrite dict_get_tabulate, existsb_union_keys.
Qed.

Lemma aligned_of_records (records : list dict) :
  aligned (DataFrame_of_records records).
Proof.
  unfold aligned, nrows, DataFrame_of_records, RangeIndex. simpl.
  apply Forall_forall. intros [k col] Hin.
  apply in_map_iff in Hin as [k' [Heq _]]. inversion Heq; subst. simpl.
  by rewrite !length_map, length_seq.
Qed.

Lemma nrows_of_records (records : list dict) :
  nrows (DataFrame_of_records records) = length records.
Proof.
  unfold nrows, DataFrame_of_records, RangeIndex. simpl.
  by rewrite length_map, length_seq.
Qed.

(** ** Parsing the timestamp columns *)

Lemma to_datetime_scalar_ok conv v :
  convertible conv v = true ->
  to_datetime_scalar conv v = Ok (parsed conv v).
Proof.
  unfold convertible, to_datetime_scalar, parsed.
  destruct (isna v); [done|]. simpl. by destruct (conv v).
Qed.

Lemma all_ok_scalars conv col :
  Forall (fun v => convertible conv v = true) col ->
  all_ok (map (to_datetime_scalar conv) col) = Ok (map (parsed conv) col).
Proof.
  induction 1 as [|v col Hv _ IH]; simpl; [done|].
  by rewrite (to_datetime_scalar_ok conv v Hv), IH.
Qed.

Section ParseFacts.

Variable conv : value -> option Timestamp.
Variable in_column : list value -> option (value -> option Timestamp).

Lemma to_datetime_ok col :
  converts conv in_column col ->
  to_datetime conv in_column col = Ok (converted in_column col).
Proof.
  intros (Hscalar & conv_col & Hin & Hcol). unfold to_datetime, converted.
  by rewrite (all_ok_scalars conv col Hscalar), Hin, (all_ok_scalars conv_col col Hcol).
Qed.


Lemma parse_field_ok df field h :
  column_convertible conv in_column field df ->
  parse_field conv in_column df field h
  = (Ok (parse_column in_column field df), h).
Proof.
  intros Hcol. unfold parse_field, parse_column, has_column, dict_has,
    get_column, lift, ret, bind.
  destruct (dict_get field (df_columns df)) as [col|] eqn:Hc; [|done].
  by rewrite (to_datetime_ok col (Hcol col Hc)).
Qed.

(** A field that is not a column is skipped. *)
Lemma parse_field_absent df field h :
  has_column field df = false ->
  parse_field conv in_column df field h = (Ok df, h).
Proof. intros H. unfold parse_field. by rewrite H. Qed.

Lemma parse_column_other f g df :
  f <> g ->
  dict_get g (df_columns (parse_column in_column f df))
  = dict_get g (df_columns df).
Proof.
  intros Hne. unfold parse_column.
  destruct (dict_get f (df_columns df)); [|done].
  simpl. by apply dict_get_set_ne.
Qed.

Lemma parse_column_same f df :
  dict_get f (df_columns (parse_column in_column f df))
  = option_map (converted in_column) (dict_get f (df_columns df)).
Proof.
  unfold parse_column.
  destruct (dict_get f (df_columns df)) as [col|] eqn:Hc; simpl.
  - apply dict_get_set_eq.
  - exact Hc.
Qed.


Lemma Forall_dict_set {V} (P : string * V -> Prop) k v (d : list (string * V)) :
  P (k, v) -> Forall P d -> Forall P (dict_set k v d).
Proof.
  intros Hkv. induction 1 as [|[k' v'] d Hx Hd IH]; simpl.
  - by constructor.
  - destruct (String.eqb k k'); constructor; assumption.
Qed.

Lemma Forall_dict_pop {V} (P : string * V -> Prop) k (d : list (string * V)) :
  Forall P d -> Forall P (dict_pop k d).
Proof.
  induction 1 as [|[k' v'] d Hx _ IH]; simpl; [constructor|].
  destruct (String.eqb k k'); [assumption | by constructor].
Qed.

Lemma dict_get_Forall {V} (P : string * V -> Prop) k v (d : list (string * V)) :
  Forall P d -> dict_get k d = Some v -> P (k, v).
Proof.
  induction 1 as [|[k' v'] d Hx _ IH]; simpl; [done|].
  destruct (String.eqb_spec k k') as [->|]; [|exact IH].
  intros [= <-]. exact Hx.
Qed.


End ParseFacts.

(** ** Flattening *)

Lemma value_ind (P : value -> Prop) :
  P VNone ->
  (forall b, P (VBool b)) ->
  (forall n, P (VInt n)) ->
  (forall x, P (VFloat x)) ->
  (forall s, P (VStr s)) ->
  (forall l, Forall P l -> P (VList l)) ->
  (forall d, Forall (fun kv => P (snd kv)) d -> P (VDict d)) ->
  (forall ob, P ob -> P (VGeom ob)) ->
  (forall t, P (VTimestamp t)) ->
  P VNaT ->
  forall v, P v.
Proof.
  intros HNone HBool HInt HFloat HStr HList HDict HGeom HTs HNaT.
  fix IH 1. intros [ |b|n|x|s|l|d|ob|t| ].
  - exact HNone.
  - apply HBool.
  - apply HInt.
  - apply HFloat.
  - apply HStr.
  - apply HList. induction l as [|v l IHl]; constructor; [apply IH | exact IHl].
  - apply HDict. induction d as [|[k v] d IHd]; constructor; [apply IH | exact IHd].
  - apply HGeom, IH.
  - apply HTs.
  - exact HNaT.
Qed.

Lemma dict_update_app {V} (d e1 e2 : list (string * V)) :
  dict_update d (e1 ++ e2)%list = dict_update (dict_update d e1) e2.
Proof. unfold dict_update. apply fold_left_app. Qed.

(** [_normalise_json] performs the writes listed by [leaves]. *)
Lemma normalise_json_leaves v : forall ks acc,
  _normalise_json v ks acc = dict_update acc (leaves v ks).
Proof.
  induction v as [ | | | | | |d IHd| | | ] using value_ind; intros ks acc;
    try reflexivity.
  simpl. revert acc.
  induction IHd as [|[k v] d Hv _ IHloop]; intros acc; [done|].
  simpl in Hv. rewrite dict_update_app, <- Hv. apply IHloop.
Qed.

Lemma dict_get_app {V} k (a b : list (string * V)) :
  dict_get k (a ++ b)%list
  = match dict_get k a with Some v => Some v | None => dict_get k b end.
Proof.
  induction a as [|[k' v'] a IH]; simpl; [done|].
  destruct (String.eqb k k'); [done | exact IH].
Qed.

Lemma dict_get_None_keys {V} k (d : list (string * V)) :
  k ∉ dict_keys d -> dict_get k d = None.
Proof.
  intros Hk. destruct (dict_get k d) eqn:H; [|done].
  exfalso. apply Hk, dict_has_keys, dict_has_true. by eexists.
Qed.

Lemma dict_get_rev {V} k (d : list (string * V)) :
  NoDup (dict_keys d) -> dict_get k (rev d) = dict_get k d.
Proof.
  induction d as [|[k' v'] d IH]; simpl; [done|].
  intros Hnd.
  pose proof (NoDup_cons_1_1 _ _ Hnd) as Hk'.
  apply NoDup_cons_1_2 in Hnd.
  rewrite dict_get_app, (IH Hnd). simpl.
  destruct (String.eqb_spec k k') as [->|].
  - by rewrite (dict_get_None_keys k' d Hk').
  - by destruct (dict_get k d).
Qed.

Lemma dict_keys_set {V} k (v : V) (d : list (string * V)) :
  dict_keys (dict_set k v d)
  = if dict_has k d then dict_keys d else (dict_keys d ++ [k])%list.
Proof.
  unfold dict_has, dict_keys.
  induction d as [|[k' v'] d IH]; simpl; [done|].
  destruct (String.eqb_spec k k') as [->|]; simpl; [done|].
  rewrite IH. by destruct (dict_get k d).
Qed.

Lemma NoDup_dict_set {V} k (v : V) (d : list (string * V)) :
  NoDup (dict_keys d) -> NoDup (dict_keys (dict_set k v d)).
Proof.
  intros Hnd. rewrite dict_keys_set.
  destruct (dict_has k d) eqn:Hk; [done|].
  apply list.NoDup_app. split; [done|]. split.
  - intros x Hx Hx'. apply list_elem_of_singleton in Hx'. subst x.
    apply dict_has_keys in Hx. congruence.
  - apply NoDup_singleton.
Qed.

Lemma NoDup_dict_update {V} (d e : list (string * V)) :
  NoDup (dict_keys d) -> NoDup (dict_keys (dict_update d e)).
Proof.
  revert d. induction e as [|[k v] e IH]; intros d Hd; [done|].
  apply (IH (dict_set k v d)). by apply NoDup_dict_set.
Qed.

(** The row of an item, attribute by attribute: the last nested write to
    the key, or else the top-level entry. *)
Lemma attribute_split f d :
  attribute f d
  = match last_write f (nested_writes d) with
    | Some v => Some v
    | None => dict_get f (top_entries d)
    end.
Proof.
  unfold attribute, _normalise_json_ordered, last_write, nested_writes.
  fold (top_entries d). rewrite normalise_json_leaves.
  set (w := leaves _ _).
  rewrite dict_get_update, dict_get_rev, dict_get_update.
  - simpl. by destruct (dict_get f (rev w)).
  - apply NoDup_dict_update. constructor.
Qed.

Lemma append_assoc (a b c : string) : (a +:+ b) +:+ c = a +:+ (b +:+ c).
Proof.
  induction a as [|x a IH]; [done|].
  change (String x ((a +:+ b) +:+ c) = String x (a +:+ (b +:+ c))).
  by rewrite IH.
Qed.

Lemma new_key_below ks key : ks <> "" -> new_key ks key = ks +:+ "." +:+ key.
Proof. intros Hks. unfold new_key. by destruct ks. Qed.

Lemma under_below ks key k : under (ks +:+ "." +:+ key) k -> under ks k.
Proof.
  intros [->|[rest ->]]; right.
  - by exists key.
  - exists (key +:+ "." +:+ rest). by rewrite !append_assoc.
Qed.

(** Every key written for a value filed under [ks] is [ks] or a path
    below it. *)
Lemma leaves_under v : forall ks k y,
  ks <> "" -> In (k, y) (leaves v ks) -> under ks k.
Proof.
  induction v as [ | | | | | |d IHd| | | ] using value_ind; intros ks k y Hks;
    try (simpl; intros [[= <- <-]|[]]; by left).
  simpl. induction IHd as [|[key v] d Hv _ IHloop]; [done|].
  intros Hin. apply in_app_or in Hin as [Hin|Hin]; [|by apply IHloop].
  simpl in Hv. rewrite (new_key_below ks key Hks) in Hin.
  apply (under_below ks key). apply (Hv _ _ y); [|exact Hin].
  by destruct ks.
Qed.

Lemma dict_get_In {V} k (v : V) (d : list (string * V)) :
  dict_get k d = Some v -> In (k, v) d.
Proof.
  induction d as [|[k' v'] d IH]; simpl; [done|].
  destruct (String.eqb_spec k k') as [->|].
  - intros [= ->]. by left.
  - intros H. right. by apply IH.
Qed.

Lemma last_write_app {V} k (a b : list (string * V)) :
  last_write k (a ++ b)%list
  = match last_write k b with Some v => Some v | None => last_write k a end.
Proof. unfold last_write. by rewrite rev_app_distr, dict_get_app. Qed.

Lemma last_write_absent {V} k (w : list (string * V)) :
  (forall x, ~ In (k, x) w) -> last_write k w = None.
Proof.
  intros Hw. unfold last_write. destruct (dict_get k (rev w)) as [x|] eqn:H; [|done].
  exfalso. apply (Hw x). apply in_rev. by apply dict_get_In.
Qed.

Lemma last_write_not_under v ks f :
  ks <> "" -> ~ under ks f -> last_write f (leaves v ks) = None.
Proof.
  intros Hks Hf. apply last_write_absent. intros x Hin.
  apply Hf. by apply (leaves_under v ks f x).
Qed.

Lemma nested_writes_cons k v d :
  nested_writes ((k, v) :: d)
  = ((if is_dict v then leaves v k else []) ++ nested_writes d)%list.
Proof. unfold nested_writes. simpl. by destruct (is_dict v). Qed.

(** Replacing the value under [k] by an object that is not a dictionary
    leaves every attribute outside [k] as it was. *)
Lemma attribute_dict_set f k G d :
  k <> "" -> ~ under k f -> is_dict G = false ->
  attribute f (dict_set k G d) = attribute f d.
Proof.
  intros Hk Hf HG.
  assert (f <> k) as Hne by (intros ->; apply Hf; by left).
  rewrite !attribute_split.
  assert (last_write f (nested_writes (dict_set k G d))
          = last_write f (nested_writes d)) as ->.
  { induction d as [|[k0 v0] d IH]; simpl.
    - rewrite nested_writes_cons, HG. done.
    - destruct (String.eqb_spec k k0) as [<-|].
      + rewrite !nested_writes_cons, HG, !last_write_app. simpl.
        destruct (is_dict v0); [|done].
        by rewrite (last_write_not_under v0 k f Hk Hf).
      + by rewrite !nested_writes_cons, !last_write_app, IH. }
  assert (dict_get f (top_entries (dict_set k G d))
          = dict_get f (top_entries d)) as ->; [|done].
  unfold top_entries.
  induction d as [|[k0 v0] d IH]; simpl.
  - rewrite HG. simpl. by destruct (String.eqb_spec f k).
  - destruct (String.eqb_spec k k0) as [<-|]; simpl.
    + rewrite HG. simpl. destruct (String.eqb_spec f k); [done|].
      destruct (is_dict v0); simpl; [done|].
      by destruct (String.eqb_spec f k).
    + destruct (is_dict v0); simpl; [exact IH|].
      destruct (String.eqb f k0); [done | exact IH].
Qed.

Lemma not_under_geometry f :
  f ∈ timestamp_fields -> ~ under "geometry" f.
Proof.
  unfold timestamp_fields. intros Hf Hu.
  repeat (apply elem_of_cons in Hf as [->|Hf]);
    try (by inversion Hf);
    destruct Hu as [Heq|[rest Heq]]; cbv in Heq; discriminate.
Qed.

(** The timestamp attributes of the copy are those of the item. *)
Lemma attribute_shaped f d :
  f ∈ timestamp_fields -> attribute f (shaped d) = attribute f d.
Proof.
  intros Hf. unfold shaped, with_shape.
  destruct (dict_get "geometry" d); [|done].
  apply attribute_dict_set; [done | by apply not_under_geometry | done].
Qed.

(** ** What [items_to_geodataframe] returns on well-formed items *)

Lemma cell_attribute f d :
  cell f (_normalise_json_ordered d)
  = match attribute f d with Some v => v | None => VNaN end.
Proof. reflexivity. Qed.

(** The column of an attribute that the geometry assignment leaves alone:
    it exists when some item has the attribute, and holds one cell per
    item. *)
Lemma column_of_rows f (cellf : dict -> option value) ds :
  (forall d, d ∈ ds -> attribute f (shaped d) = cellf d) ->
  dict_get f (df_columns (DataFrame_of_records (rows_of ds)))
  = if existsb (fun d => match cellf d with Some _ => true | None => false end) ds
    then Some (map (fun d => match cellf d with Some v => v | None => VNaN end) ds)
    else None.
Proof.
  intros Hf. rewrite column_of_records. unfold rows_of.
  assert (Hex : existsb (dict_has f) (map _normalise_json_ordered (map shaped ds))
                = existsb (fun d => match cellf d with Some _ => true | None => false end) ds).
  { induction ds as [|d ds IH]; [done|]. simpl. f_equal.
    - unfold dict_has. fold (attribute f (shaped d)).
      rewrite Hf by apply list_elem_of_here. done.
    - apply IH. intros d' Hd'. apply Hf. by apply list_elem_of_further. }
  rewrite Hex. destruct (existsb _ ds); [|done]. f_equal.
  clear Hex. induction ds as [|d ds IH]; [done|]. simpl. f_equal.
  - rewrite cell_attribute, Hf by apply list_elem_of_here. done.
  - apply IH. intros d' Hd'. apply Hf. by apply list_elem_of_further.
Qed.

Lemma timestamp_column f ds :
  f ∈ timestamp_fields ->
  dict_get f (df_columns (DataFrame_of_records (rows_of ds)))
  = if any_has f ds then Some (column_of f ds) else None.
Proof.
  intros Hf. apply (column_of_rows f (attribute f)).
  intros d _. by apply attribute_shaped.
Qed.

Section NormalizerResult.

Variable shapely_accepts : value -> bool.
Variable datetime_of_scalar : value -> option Timestamp.
Variable datetime_in_column : list value -> option (value -> option Timestamp).

Local Abbreviation conv := datetime_of_scalar.
Local Abbreviation in_column := datetime_in_column.
Local Abbreviation wf := (well_formed shapely_accepts datetime_of_scalar).

Lemma well_formed_inv d :
  wf d = true ->
  has_shape shapely_accepts d = true
  /\ is_Some (attribute "properties.datetime" d)
  /\ forall f v, f ∈ timestamp_fields -> attribute f d = Some v ->
                 convertible conv v = true.
Proof.
  unfold well_formed. intros H.
  apply andb_prop in H as [H Htimes]. apply andb_prop in H as [Hshape Hdt].
  split; [exact Hshape|]. split.
  - destruct (attribute "properties.datetime" d); [by eexists | done].
  - intros f v Hf Hv. rewrite forallb_forall in Htimes.
    specialize (Htimes f). rewrite Hv in Htimes.
    apply Htimes. by apply list_elem_of_In.
Qed.

Lemma cell_convertible f d :
  wf d = true -> f ∈ timestamp_fields ->
  convertible conv (cell f (_normalise_json_ordered (shaped d))) = true.
Proof.
  intros Hwf Hf. rewrite cell_attribute, (attribute_shaped f d Hf).
  destruct (well_formed_inv d Hwf) as (_ & _ & Htimes).
  destruct (attribute f d) as [v|] eqn:Hv; [by apply (Htimes f)|done].
Qed.

Lemma records_convertible f ds :
  pandas_converts conv in_column ds -> f ∈ timestamp_fields ->
  column_convertible conv in_column f (DataFrame_of_records (rows_of ds)).
Proof.
  intros Hpd Hf col. rewrite (timestamp_column f ds Hf).
  destruct (any_has f ds) eqn:Hany; [|done]. intros [= <-].
  by apply Hpd.
Qed.

Lemma any_has_acquisition ds :
  ds <> [] -> Forall (fun d => wf d = true) ds ->
  any_has "properties.datetime" ds = true.
Proof.
  intros Hne Hwf. destruct ds as [|d ds]; [done|].
  inversion Hwf as [|? ? Hd _]; subst.
  destruct (well_formed_inv d Hd) as (_ & [v Hv] & _).
  unfold any_has. simpl. by rewrite Hv.
Qed.

Lemma acquisition_column ds :
  ds <> [] -> Forall (fun d => wf d = true) ds ->
  dict_get "properties.datetime" (df_columns (DataFrame_of_records (rows_of ds)))
  = Some (map (cell "properties.datetime") (rows_of ds)).
Proof.
  intros Hne Hwf. rewrite column_of_records.
  destruct ds as [|d ds]; [done|]. inversion Hwf as [|? ? Hd _]; subst.
  destruct (well_formed_inv d Hd) as (_ & [v Hv] & _).
  simpl. unfold dict_has at 1.
  fold (attribute "properties.datetime" (shaped d)).
  rewrite attribute_shaped by (apply list_elem_of_here).
  by rewrite Hv.
Qed.

(** The cells of the acquisition column, item by item. *)
Lemma acquisition_cells ds :
  map (cell "properties.datetime") (rows_of ds)
  = column_of "properties.datetime" ds.
Proof.
  unfold rows_of, column_of. rewrite !map_map. apply map_ext. intros d.
  rewrite cell_attribute. unfold attribute_cell.
  by rewrite attribute_shaped by apply list_elem_of_here.
Qed.

Lemma items_to_geodataframe_ok h items ds :
  items <> [] ->
  holds h items ds ->
  Forall (fun d => wf d = true) ds ->
  pandas_converts conv in_column ds ->
  items_to_geodataframe shapely_accepts conv in_column items h
  = (Ok (expected_frame in_column ds),
     (h ++ map (fun d => VDict (shaped d)) ds)%list).
Proof.
  intros Hne Hh Hwf Hpd.
  assert (length items = length ds) as Hlen by (eapply Forall2_length; exact Hh).
  assert (ds <> []) as Hds by (intros ->; destruct items; done).
  assert (Forall (fun d => has_shape shapely_accepts d = true) ds) as Hshape.
  { eapply Forall_impl; [|exact Hwf]. intros d Hd.
    by destruct (well_formed_inv d Hd). }
  unfold items_to_geodataframe.
  unfold bind at 1. rewrite (for_each_copy shapely_accepts items ds h Hh Hshape).
  unfold bind at 1.
  pose proof (for_each_load (map (fun d => VDict (shaped d)) ds) h []) as Hload.
  rewrite length_map, app_nil_r in Hload. rewrite Hlen, Hload.
  unfold bind at 1, lift at 1.
  rewrite <- (map_map shaped VDict), json_normalize_records
    by (destruct ds; done).
  fold (rows_of ds). unfold GeoDataFrame.
  set (df0 := DataFrame_of_records (rows_of ds)).
  cbn [for_fold timestamp_fields].
  unfold bind at 1. unfold bind at 1.
  rewrite parse_field_ok
    by (apply records_convertible; [done | apply list_elem_of_here]).
  unfold bind at 1.
  rewrite parse_field_ok.
  2:{ intros col. rewrite parse_column_other by done.
      apply records_convertible; [done|].
      apply list_elem_of_further, list_elem_of_here. }
  unfold bind at 1.
  rewrite parse_field_ok.
  2:{ intros col. rewrite !parse_column_other by done.
      apply records_convertible; [done|].
      do 2 apply list_elem_of_further. apply list_elem_of_here. }
  unfold ret, lift, set_index.
  rewrite !parse_column_other by done.
  rewrite parse_column_same. unfold df0.
  rewrite (acquisition_column ds Hds Hwf). reflexivity.
Qed.

End NormalizerResult.

(** ** Attributes of plain items

    For an item with plain top-level keys, the column [properties.x] holds
    what the item has at [d["properties"]["x"]]. *)

Lemma append_cons c (a b : string) : String c a +:+ b = String c (a +:+ b).
Proof. reflexivity. Qed.

Lemma append_inj_l (a b c : string) : a +:+ b = a +:+ c -> b = c.
Proof.
  induction a as [|x a IH]; [done|].
  rewrite !append_cons. intros [= H]. by apply IH.
Qed.

Lemma dotfree_no_dot b c e : dotfree b = true -> b <> c +:+ "." +:+ e.
Proof.
  revert b. induction c as [|x c IH]; intros b Hb Heq; subst b.
  - discriminate Hb.
  - rewrite append_cons in Hb. simpl in Hb.
    apply andb_prop in Hb as [_ Hb]. by apply (IH _ Hb).
Qed.

Lemma dotted_prefix_unique a b c e :
  dotfree a = true -> dotfree b = true ->
  a +:+ "." +:+ b = c +:+ "." +:+ e -> c = a.
Proof.
  revert c. induction a as [|x a IH]; intros c Ha Hb Heq.
  - destruct c as [|y c]; [done|].
    rewrite append_cons in Heq. injection Heq as _ Heq.
    by apply dotfree_no_dot in Heq.
  - simpl in Ha. apply andb_prop in Ha as [Hx Ha].
    destruct c as [|y c].
    + injection Heq as -> _. discriminate Hx.
    + rewrite !append_cons in Heq. injection Heq as -> Heq.
      f_equal. by apply IH.
Qed.

Lemma append_dot_neq (ks rest : string) : ks <> ks +:+ "." +:+ rest.
Proof.
  induction ks as [|x ks IH]; [done|].
  rewrite append_cons. intros [= H]. by apply IH.
Qed.

(** The keys written for a dictionary lie strictly below its own key. *)
Lemma leaves_dict_below sub ks k y :
  ks <> "" -> In (k, y) (leaves (VDict sub) ks) ->
  exists rest, k = ks +:+ "." +:+ rest.
Proof.
  intros Hks. simpl. induction sub as [|[key v] sub IH]; [done|].
  intros Hin. apply in_app_or in Hin as [Hin|Hin]; [|by apply IH].
  rewrite (new_key_below ks key Hks) in Hin.
  apply leaves_under in Hin as [->|[rest ->]]; [| |by destruct ks].
  - by exists key.
  - exists (key +:+ "." +:+ rest). by rewrite !append_assoc.
Qed.

Lemma dict_get_split {V} k (v : V) (d : list (string * V)) :
  dict_get k d = Some v ->
  exists pre post, d = (pre ++ (k, v) :: post)%list /\ k ∉ dict_keys pre.
Proof.
  induction d as [|[k' v'] d IH]; simpl; [done|].
  destruct (String.eqb_spec k k') as [<-|Hne].
  - intros [= ->]. exists [], d. split; [done|]. apply not_elem_of_nil.
  - intros H. destruct (IH H) as (pre & post & -> & Hpre).
    exists ((k', v') :: pre), post. split; [done|].
    simpl. by apply not_elem_of_cons.
Qed.

Lemma leaves_dict_app pre post ks :
  leaves (VDict (pre ++ post)%list) ks
  = (leaves (VDict pre) ks ++ leaves (VDict post) ks)%list.
Proof.
  simpl. induction pre as [|[k v] pre IH]; [done|].
  simpl. by rewrite IH, app_assoc.
Qed.

Lemma leaves_dict_cons k v d ks :
  leaves (VDict ((k, v) :: d)) ks
  = (leaves v (new_key ks k) ++ leaves (VDict d) ks)%list.
Proof. reflexivity. Qed.

Section Properties.

Variable x : string.
Hypothesis Hx : dotfree x = true.

Local Abbreviation f := ("properties" +:+ "." +:+ x).

(** Among the entries of [properties], only the one named [x] writes to
    the column. *)
Lemma other_property_silent k v :
  k <> x -> last_write f (leaves v (new_key "properties" k)) = None.
Proof.
  intros Hk. apply last_write_absent. intros y Hin.
  change (new_key "properties" k) with ("properties" +:+ "." +:+ k) in Hin.
  apply leaves_under in Hin as [Heq|[rest Heq]]; [| |done].
  - do 2 apply append_inj_l in Heq. congruence.
  - rewrite !append_assoc in Heq. do 2 apply append_inj_l in Heq.
    by apply dotfree_no_dot in Heq.
Qed.

Lemma properties_without p :
  x ∉ dict_keys p -> last_write f (leaves (VDict p) "properties") = None.
Proof.
  induction p as [|[k v] p IH]; [done|].
  simpl dict_keys. intros Hp. apply not_elem_of_cons in Hp as [Hne Hp].
  rewrite leaves_dict_cons, last_write_app, (IH Hp).
  apply other_property_silent. congruence.
Qed.

Lemma property_entry v :
  last_write f (leaves v (new_key "properties" x)) = leaf (Some v).
Proof.
  change (new_key "properties" x) with f. unfold leaf.
  destruct v as [ | | | | | |sub| | | ]; cbn [is_dict leaves last_write rev app dict_get];
    try (by rewrite String.eqb_refl).
  apply last_write_absent. intros y Hin.
  apply leaves_dict_below in Hin as [rest Heq]; [|done].
  by apply append_dot_neq in Heq.
Qed.

Lemma properties_column p :
  NoDup (dict_keys p) ->
  last_write f (leaves (VDict p) "properties") = leaf (dict_get x p).
Proof.
  intros Hnd. destruct (dict_get x p) as [v|] eqn:Hv.
  - destruct (dict_get_split x v p Hv) as (pre & post & -> & Hpre).
    unfold dict_keys in Hnd. rewrite map_app in Hnd.
    apply list.NoDup_app in Hnd as (_ & _ & Hpost).
    apply NoDup_cons_1_1 in Hpost.
    rewrite leaves_dict_app, leaves_dict_cons, !last_write_app.
    rewrite (properties_without post Hpost), property_entry,
      (properties_without pre Hpre).
    by destruct (leaf (Some v)).
  - apply properties_without. intros Hin.
    apply dict_has_keys, dict_has_true in Hin as [v Hv']. congruence.
Qed.

(** The entries of the item other than [properties] do not write to the
    column either. *)
Lemma other_entry_silent k v :
  k <> "" -> dotfree k = true -> k <> "properties" ->
  last_write f (leaves v k) = None.
Proof.
  intros Hk Hdot Hne. apply last_write_absent. intros y Hin.
  apply leaves_under in Hin as [Heq|[rest Heq]]; [| |done].
  - subst k. by apply (dotfree_no_dot _ "properties" x) in Hdot.
  - by apply dotted_prefix_unique in Heq.
Qed.

Lemma nested_writes_without d :
  plain_keys d -> "properties" ∉ dict_keys d ->
  last_write f (nested_writes d) = None.
Proof.
  induction 1 as [|[k v] d [Hk Hdot] _ IH]; [done|].
  simpl dict_keys. intros Hp. apply not_elem_of_cons in Hp as [Hne Hp].
  rewrite nested_writes_cons, last_write_app, (IH Hp).
  destruct (is_dict v); [|done].
  apply other_entry_silent; [done | done | congruence].
Qed.

Lemma top_entries_plain d :
  plain_keys d -> dict_get f (top_entries d) = None.
Proof.
  unfold top_entries.
  induction 1 as [|[k v] d [Hk Hdot] _ IH]; [done|].
  cbn [List.filter snd]. destruct (is_dict v); cbn [negb]; [exact IH|].
  cbn [dict_get]. destruct (String.eqb_spec f k) as [Heq|]; [|exact IH].
  simpl in Hdot. subst k. by apply (dotfree_no_dot _ "properties" x) in Hdot.
Qed.

Lemma nested_writes_app d1 d2 :
  nested_writes (d1 ++ d2)%list = (nested_writes d1 ++ nested_writes d2)%list.
Proof.
  induction d1 as [|[k v] d1 IH]; [done|].
  rewrite <- app_comm_cons, !nested_writes_cons, IH. by rewrite app_assoc.
Qed.

(** The column [properties.x] of a plain item is the entry [x] of its
    [properties]. *)
Lemma attribute_properties d p :
  plain_keys d -> NoDup (dict_keys d) ->
  dict_get "properties" d = Some (VDict p) -> NoDup (dict_keys p) ->
  attribute f d = leaf (dict_get x p).
Proof.
  intros Hplain Hnd Hp Hndp.
  rewrite attribute_split, (top_entries_plain d Hplain).
  destruct (dict_get_split _ _ d Hp) as (pre & post & -> & Hpre).
  unfold dict_keys in Hnd. rewrite map_app in Hnd.
  apply list.NoDup_app in Hnd as (_ & _ & Hpost).
  apply NoDup_cons_1_1 in Hpost.
  unfold plain_keys in Hplain. rewrite Forall_app in Hplain.
  destruct Hplain as [Hplain_pre Hplain].
  inversion Hplain as [|? ? _ Hplain_post]; subst.
  rewrite nested_writes_app, nested_writes_cons, !last_write_app.
  rewrite (nested_writes_without post Hplain_post Hpost). simpl is_dict. cbv iota.
  rewrite (properties_column p Hndp), (nested_writes_without pre Hplain_pre Hpre).
  by destruct (leaf (dict_get x p)).
Qed.

End Properties.

(** ** Items in the shape of the catalog are well-formed *)

Section StacItems.

Variable shapely_accepts : value -> bool.
Variable conv : value -> option Timestamp.

Lemma stac_item_well_formed d :
  stac_item shapely_accepts conv d -> well_formed shapely_accepts conv d = true.
Proof.
  intros (Hplain & Hnd & Hshape & p & Hp & Hndp & (v & Hv & Hleaf) & Htimes).
  assert (forall x, dotfree x = true ->
            attribute ("properties" +:+ "." +:+ x) d = leaf (dict_get x p)) as Hattr
    by (intros x Hx; by apply attribute_properties).
  unfold well_formed. rewrite Hshape. cbn [andb].
  apply andb_true_intro. split.
  - change "properties.datetime" with ("properties" +:+ "." +:+ "datetime").
    rewrite Hattr by done. rewrite Hv. simpl. by rewrite Hleaf.
  - unfold timestamp_fields. cbn [forallb].
    change "properties.datetime" with ("properties" +:+ "." +:+ "datetime").
    change "properties.created" with ("properties" +:+ "." +:+ "created").
    change "properties.updated" with ("properties" +:+ "." +:+ "updated").
    rewrite !Hattr by done.
    assert (forall x, x ∈ ["datetime"; "created"; "updated"] ->
              match leaf (dict_get x p) with
              | Some v => convertible conv v
              | None => true
              end = true) as Hok.
    { intros x Hx. destruct (dict_get x p) as [w|] eqn:Hw; [|done].
      simpl. destruct (is_dict w) eqn:Hd; [done|].
      destruct (Htimes x w Hx Hw); congruence. }
    rewrite !Hok; [done | | |].
    + do 2 apply list_elem_of_further. apply list_elem_of_here.
    + apply list_elem_of_further, list_elem_of_here.
    + apply list_elem_of_here.
Qed.

Lemma stac_item_acquired d p s t :
  plain_keys d -> NoDup (dict_keys d) ->
  dict_get "properties" d = Some (VDict p) -> NoDup (dict_keys p) ->
  dict_get "datetime" p = Some (VStr s) -> conv (VStr s) = Some t ->
  acquired conv d t.
Proof.
  intros Hplain Hnd Hp Hndp Hs Ht. exists (VStr s). split; [|done].
  change "properties.datetime" with ("properties" +:+ "." +:+ "datetime").
  rewrite (attribute_properties "datetime" eq_refl d p) by done.
  by rewrite Hs.
Qed.

End StacItems.
(** ** The claims about [items_to_geodataframe] *)

(** The sample conversion takes the timestamp columns of sample records:
    one goal per timestamp field. *)
Ltac sample_converts :=
  let f := fresh "f" in
  let Hf := fresh "Hf" in
  let Hany := fresh "Hany" in
  intros f Hf Hany; unfold timestamp_fields in Hf;
  rewrite !elem_of_cons in Hf;
  destruct Hf as [->|[->|[->|Hf]]];
    [ | | | by apply elem_of_nil in Hf ];
    first [ discriminate Hany
          | split;
            [ repeat constructor
            | exists Sample.iso8601_scalar;
              split; [reflexivity | repeat constructor] ] ].

Section NormalizerClaims.

Variable shapely_accepts : value -> bool.
Variable datetime_of_scalar : value -> option Timestamp.
Variable datetime_in_column : list value -> option (value -> option Timestamp).

Local Abbreviation conv := datetime_of_scalar.
Local Abbreviation in_column := datetime_in_column.
Local Abbreviation wf := (well_formed shapely_accepts datetime_of_scalar).




(** C2. On the empty list [json_normalize] gives a frame without columns,
    no timestamp column is parsed, and [set_index] raises [KeyError] for
    the missing acquisition column: no frame is returned. *)
Theorem items_to_geodataframe_empty_raises h :
  items_to_geodataframe shapely_accepts conv in_column [] h
  = (Raise (KeyError "None of ['properties.datetime'] are in the columns"), h).
Proof. reflexivity. Qed.

Lemma index_of_acquired conv_col ds ts :
  Forall2 (acquired conv_col) ds ts ->
  map (parsed conv_col) (column_of "properties.datetime" ds)
  = map VTimestamp ts.
Proof.
  unfold column_of.
  induction 1 as [|d t ds ts (v & Hv & Hna & Hc) _ IH]; [done|].
  simpl. rewrite IH. f_equal.
  unfold attribute_cell. rewrite Hv. unfold parsed. by rewrite Hna, Hc.
Qed.

(** C6. When pandas converts the timestamp columns and makes a
    timezone-aware timestamp of the acquisition time of every item, the
    index of the returned frame consists of exactly these timestamps, in
    the order of the items, and each is timezone-aware. *)
Theorem items_to_geodataframe_index_aware h items ds conv_col ts :
  items <> [] ->
  holds h items ds ->
  Forall (fun d => wf d = true) ds ->
  pandas_converts conv in_column ds ->
  in_column (column_of "properties.datetime" ds) = Some conv_col ->
  Forall2 (acquired conv_col) ds ts ->
  Forall (fun t => tz_aware t = true) ts ->
  exists gdf h',
    items_to_geodataframe shapely_accepts conv in_column items h = (Ok gdf, h')
    /\ df_index gdf = map VTimestamp ts
    /\ Forall (fun v => is_aware_timestamp v = true) (df_index gdf).
Proof.
  intros Hne Hh Hwf Hpd Hcol Hacq Haware.
  exists (expected_frame in_column ds). eexists. split.
  - by apply items_to_geodataframe_ok.
  - unfold expected_frame. cbn [df_index].
    rewrite acquisition_cells. unfold converted. rewrite Hcol.
    rewrite (index_of_acquired conv_col ds ts Hacq).
    split; [done|]. by rewrite Forall_map.
Qed.

End NormalizerClaims.



(** The two sample items carry times with the designator [Z]. *)
Lemma index_aware_witness :
  exists gdf h',
    Sample.normalize [0; 1]%nat Sample.catalog = (Ok gdf, h')
    /\ df_index gdf
       = map VTimestamp [mkTimestamp 2021 10 1 15 30 0 (Some 0);
                         mkTimestamp 2021 10 3 15 31 0 (Some 0)]
    /\ Forall (fun v => is_aware_timestamp v = true) (df_index gdf).
Proof.
  apply (items_to_geodataframe_index_aware
           Sample.geojson_accepts Sample.iso8601_scalar Sample.one_offset
           Sample.catalog [0; 1]%nat [Sample.record1; Sample.record2]
           Sample.iso8601_scalar).
  - discriminate.
  - repeat constructor.
  - repeat constructor.
  - sample_converts.
  - reflexivity.
  - repeat constructor.
    + by exists (VStr "2021-10-01T15:30:00Z").
    + by exists (VStr "2021-10-03T15:31:00Z").
  - repeat constructor.
Defined.

(** C6, as stated, fails: an acquisition time without an offset is read by
    pandas as a naive timestamp, and the index then holds that naive
    timestamp. *)
Lemma naive_time_gives_naive_index :
  ~ (forall sa conv in_column h items ds ts,
       items <> [] ->
       holds h items ds ->
       Forall (fun d => well_formed sa conv d = true) ds ->
       Forall2 (acquired conv) ds ts ->
       forall gdf h',
         items_to_geodataframe sa conv in_column items h = (Ok gdf, h') ->
         Forall (fun v => is_aware_timestamp v = true) (df_index gdf)).
Proof.
  intros H.
  specialize (H Sample.geojson_accepts Sample.iso8601_scalar Sample.one_offset
                [VDict Sample.record_naive] [0%nat] [Sample.record_naive]
                [mkTimestamp 2021 10 1 15 30 0 None]).
  assert (Forall2 (acquired Sample.iso8601_scalar) [Sample.record_naive]
            [mkTimestamp 2021 10 1 15 30 0 None]) as Hacq.
  { repeat constructor. by exists (VStr "2021-10-01T15:30:00"). }
  assert (Forall (fun d => well_formed Sample.geojson_accepts
                             Sample.iso8601_scalar d = true)
            [Sample.record_naive]) as Hwf by (repeat constructor).
  assert (holds [VDict Sample.record_naive] [0%nat] [Sample.record_naive])
    as Hh by (repeat constructor).
  assert ([0%nat] <> []) as Hne by discriminate.
  assert (pandas_converts Sample.iso8601_scalar Sample.one_offset
            [Sample.record_naive]) as Hpd by sample_converts.
  pose proof (items_to_geodataframe_ok Sample.geojson_accepts
                Sample.iso8601_scalar Sample.one_offset _ _ _ Hne Hh Hwf Hpd)
    as Hrun.
  pose proof (H Hne Hh Hwf Hacq _ _ Hrun) as Hbad.
  vm_compute in Hbad.
  inversion Hbad as [|? ? Hx _]. discriminate Hx.
Qed.

(** C5. An item set without acquisition times: the parsing of the absent
    column is skipped, but [set_index] then raises [KeyError]. *)
Theorem items_to_geodataframe_undated_raises :
  has_column "properties.datetime"
    (DataFrame_of_records (rows_of [Sample.record_undated])) = false
  /\ fst (Sample.normalize [0%nat] [VDict Sample.record_undated])
     = Raise (KeyError "None of ['properties.datetime'] are in the columns").
Proof. split; reflexivity. Qed.

(** ** The asset loop *)

Lemma dict_set_set {V} k (v w : V) (d : list (string * V)) :
  dict_set k v (dict_set k w d) = dict_set k v d.
Proof.
  induction d as [|[k' v'] d IH]; simpl.
  - by rewrite String.eqb_refl.
  - destruct (String.eqb_spec k k') as [->|Hne]; simpl.
    + by rewrite String.eqb_refl.
    + destruct (String.eqb_spec k k'); [done | by rewrite IH].
Qed.

Lemma dict_set_same {V} k (v : V) (d : list (string * V)) :
  dict_get k d = Some v -> dict_set k v d = d.
Proof.
  induction d as [|[k' v'] d IH]; simpl; [done|].
  destruct (String.eqb_spec k k') as [->|Hne].
  - by intros [= ->].
  - intros H. by rewrite IH.
Qed.

Lemma dict_get_middle {V} k (v : V) (pre post : list (string * V)) :
  k ∉ dict_keys pre ->
  dict_get k (pre ++ (k, v) :: post)%list = Some v.
Proof.
  intros Hk. rewrite dict_get_app, (dict_get_None_keys k pre Hk). simpl.
  by rewrite String.eqb_refl.
Qed.

Lemma dict_set_middle {V} k (v w : V) (pre post : list (string * V)) :
  k ∉ dict_keys pre ->
  dict_set k w (pre ++ (k, v) :: post)%list = (pre ++ (k, w) :: post)%list.
Proof.
  induction pre as [|[k' v'] pre IH]; simpl; intros Hk.
  - by rewrite String.eqb_refl.
  - apply not_elem_of_cons in Hk as [Hne Hk].
    destruct (String.eqb_spec k k'); [done | by rewrite IH].
Qed.

(** Running one statement on a store. *)
Lemma bind_ok {A B} (m : M A) (f : A -> M B) h a h' :
  m h = (Ok a, h') -> bind m f h = f a h'.
Proof. intros H. unfold bind. by rewrite H. Qed.

Lemma get_path_at_run h x v path :
  h !! x = Some v -> get_path_at x path h = (get_path v path, h).
Proof. intros H. unfold get_path_at, bind, load, lift. by rewrite H. Qed.

Lemma set_path_at_run h x v v' path k y :
  h !! x = Some v -> set_path v path k y = Ok v' ->
  set_path_at x path k y h = (Ok tt, <[x := v']> h).
Proof.
  intros H Hset. unfold set_path_at, bind, load, lift, save.
  by rewrite H, Hset, H.
Qed.

Lemma get_path_step d k v path :
  dict_get k d = Some v -> get_path (VDict d) (k :: path) = get_path v path.
Proof. intros H. cbn [get_path getitem]. by rewrite H. Qed.

Section AssetStep.

Variables (d assets asset : dict) (a : string).
Hypothesis Hassets : dict_get "assets" d = Some (VDict assets).
Hypothesis Hasset : dict_get a assets = Some (VDict asset).

Lemma get_asset path :
  get_path (VDict d) ("assets" :: a :: path) = get_path (VDict asset) path.
Proof.
  cbn [get_path getitem]. rewrite Hassets.
  cbn [get_path getitem]. by rewrite Hasset.
Qed.

Lemma set_asset_href y :
  set_path (VDict d) ["assets"; a] "href" y
  = Ok (VDict (dict_set "assets"
                 (VDict (dict_set a (VDict (dict_set "href" y asset)) assets)) d)).
Proof.
  cbn [set_path getitem setitem]. rewrite Hassets.
  cbn [set_path getitem setitem]. by rewrite Hasset.
Qed.

End AssetStep.

(** One pass of the loop body over a well-shaped descriptor. *)
Lemma update_asset_href_ok h item d assets asset a :
  h !! item = Some (VDict d) ->
  dict_get "assets" d = Some (VDict assets) ->
  dict_get a assets = Some (VDict asset) ->
  asset_ok (VDict asset) = true ->
  update_asset_href item a h
  = (Ok tt,
     <[item := VDict (dict_set "assets"
                        (VDict (dict_set a (rewrite_asset (VDict asset)) assets)) d)]> h).
Proof.
  intros Hitem Hassets Hasset Hok.
  assert (item < length h)%nat as Hlt by (by eapply lookup_lt_Some).
  unfold update_asset_href.
  rewrite (bind_ok _ _ h (VDict asset) h)
    by (rewrite (get_path_at_run h item _ _ Hitem);
        by rewrite (get_asset d assets asset a Hassets Hasset)).
  simpl in Hok. unfold rewrite_asset.
  destruct (chosen_href asset) as [s|] eqn:Hs; [clear Hok|done].
  unfold chosen_href in Hs. unfold bind at 1, lift at 1, contains at 1, dict_has at 1.
  destruct (dict_get "alternate" asset) as [alt|] eqn:Halt.
  - destruct alt as [ | | | | | |alt| | | ]; try done.
    rewrite (bind_ok _ _ h (dict_has "s3" alt) h).
    2:{ rewrite (bind_ok _ _ h (VDict alt) h); [done|].
        rewrite (get_path_at_run h item _ _ Hitem).
        rewrite (get_asset d assets asset a Hassets Hasset).
        by rewrite (get_path_step _ _ _ _ Halt). }
    unfold dict_has.
    destruct (dict_get "s3" alt) as [s3|] eqn:Hs3.
    + destruct s3 as [ | | | | | |s3| | | ]; try done.
      unfold string_at in Hs.
      destruct (dict_get "href" s3) as [hv|] eqn:Hh; [|done].
      destruct hv as [ | | | |hs| | | | | ]; try done.
      injection Hs as ->.
      set (d1 := dict_set "assets"
                   (VDict (dict_set a (VDict (dict_set "href" (VStr s) asset)) assets)) d).
      rewrite (bind_ok _ _ h tt (<[item := VDict d1]> h)).
      2:{ rewrite (bind_ok _ _ h (VStr s) h).
          - apply (set_path_at_run h item (VDict d)); [done|].
            apply (set_asset_href d assets asset a Hassets Hasset).
          - rewrite (get_path_at_run h item _ _ Hitem).
            rewrite (get_asset d assets asset a Hassets Hasset).
            by rewrite (get_path_step _ _ _ _ Halt), (get_path_step _ _ _ _ Hs3),
              (get_path_step _ _ _ _ Hh). }
      assert (<[item := VDict d1]> h !! item = Some (VDict d1)) as Hitem1
        by (by apply list_lookup_insert_eq).
      assert (dict_get "assets" d1
              = Some (VDict (dict_set a (VDict (dict_set "href" (VStr s) asset)) assets)))
        as Hassets1 by apply dict_get_set_eq.
      assert (dict_get a (dict_set a (VDict (dict_set "href" (VStr s) asset)) assets)
              = Some (VDict (dict_set "href" (VStr s) asset)))
        as Hasset1 by apply dict_get_set_eq.
      rewrite (bind_ok _ _ _ (VStr s) (<[item := VDict d1]> h)).
      2:{ rewrite (get_path_at_run _ item _ _ Hitem1).
          rewrite (get_asset d1 _ _ a Hassets1 Hasset1).
          by rewrite (get_path_step _ "href" (VStr s)) by apply dict_get_set_eq. }
      rewrite (bind_ok _ _ _ (VStr (rename_bucket s)) (<[item := VDict d1]> h))
        by done.
      rewrite (set_path_at_run _ item (VDict d1) _ _ _ _ Hitem1
                 (set_asset_href d1 _ _ a Hassets1 Hasset1 _)).
      rewrite list_insert_insert_eq. unfold d1.
      by rewrite !dict_set_set.
    + rewrite (bind_ok _ _ h tt h) by done.
      unfold string_at in Hs.
      destruct (dict_get "href" asset) as [hv|] eqn:Hh; [|done].
      destruct hv as [ | | | |hs| | | | | ]; try done.
      injection Hs as ->.
      rewrite (bind_ok _ _ h (VStr s) h).
      2:{ rewrite (get_path_at_run h item _ _ Hitem).
          rewrite (get_asset d assets asset a Hassets Hasset).
          by rewrite (get_path_step _ _ _ _ Hh). }
      rewrite (bind_ok _ _ h (VStr (rename_bucket s)) h) by done.
      by rewrite (set_path_at_run h item (VDict d) _ _ _ _ Hitem
                    (set_asset_href d assets asset a Hassets Hasset _)).
  - rewrite (bind_ok _ _ h false h) by done.
    rewrite (bind_ok _ _ h tt h) by done.
    unfold string_at in Hs.
    destruct (dict_get "href" asset) as [hv|] eqn:Hh; [|done].
    destruct hv as [ | | | |hs| | | | | ]; try done.
    injection Hs as ->.
    rewrite (bind_ok _ _ h (VStr s) h).
    2:{ rewrite (get_path_at_run h item _ _ Hitem).
        rewrite (get_asset d assets asset a Hassets Hasset).
        by rewrite (get_path_step _ _ _ _ Hh). }
    rewrite (bind_ok _ _ h (VStr (rename_bucket s)) h) by done.
    by rewrite (set_path_at_run h item (VDict d) _ _ _ _ Hitem
                  (set_asset_href d assets asset a Hassets Hasset _)).
Qed.

Lemma dict_keys_rewrite (assets : dict) :
  dict_keys (map rewrite_entry assets) = dict_keys assets.
Proof. unfold dict_keys. rewrite map_map. by apply map_ext. Qed.

(** The loop over the assets of one item: the descriptors already visited
    are rewritten, the others are still to come. *)
Lemma assets_loop item : forall post pre h d,
  h !! item = Some (VDict d) ->
  dict_get "assets" d = Some (VDict (map rewrite_entry pre ++ post)%list) ->
  NoDup (dict_keys (pre ++ post)%list) ->
  Forall (fun kv => asset_ok (snd kv) = true) post ->
  for_ (update_asset_href item) (dict_keys post) h
  = (Ok tt,
     <[item := VDict (dict_set "assets"
                        (VDict (map rewrite_entry (pre ++ post)%list)) d)]> h).
Proof.
  induction post as [|[a v] post IH]; intros pre h d Hitem Hassets Hnd Hok.
  - simpl. unfold ret. rewrite app_nil_r in *.
    by rewrite (dict_set_same _ _ _ Hassets), list_insert_id.
  - inversion Hok as [|? ? Hv Hpost]; subst. simpl in Hv.
    destruct v as [ | | | | | |asset| | | ]; try done.
    assert (a ∉ dict_keys (map rewrite_entry pre)) as Ha.
    { rewrite dict_keys_rewrite. unfold dict_keys in *.
      rewrite map_app in Hnd. apply list.NoDup_app in Hnd as (_ & Hdis & _).
      intros Hin. apply (Hdis a Hin). simpl. apply list_elem_of_here. }
    cbn [dict_keys map fst for_].
    rewrite (bind_ok _ _ h tt _
               (update_asset_href_ok h item d _ asset a Hitem Hassets
                  (dict_get_middle a _ _ _ Ha) Hv)).
    rewrite (dict_set_middle a _ _ _ _ Ha).
    set (d1 := dict_set "assets" _ d).
    change (map fst post) with (dict_keys post).
    rewrite (IH (pre ++ [(a, VDict asset)])%list (<[item := VDict d1]> h) d1).
    + rewrite list_insert_insert_eq. unfold d1.
      by rewrite dict_set_set, <- app_assoc.
    + apply list_lookup_insert_eq. by eapply lookup_lt_Some.
    + unfold d1. rewrite dict_get_set_eq, map_app, <- app_assoc. done.
    + by rewrite <- app_assoc.
    + exact Hpost.
Qed.

(** The body of the loop over the items. *)
Lemma item_loop_body h item d :
  h !! item = Some (VDict d) ->
  assets_ok d ->
  bind (getitem_at item "assets")
       (fun assets => bind (lift (iter_keys assets))
                           (fun names => for_ (update_asset_href item) names)) h
  = (Ok tt, <[item := VDict (rewrite_assets d)]> h).
Proof.
  intros Hitem (assets & Hassets & Hnd & Hok).
  rewrite (bind_ok _ _ h (VDict assets) h).
  2:{ unfold getitem_at, bind, load, lift, getitem. by rewrite Hitem, Hassets. }
  rewrite (bind_ok _ _ h (dict_keys assets) h) by done.
  rewrite (assets_loop item assets [] h d); try done.
  unfold rewrite_assets. by rewrite Hassets.
Qed.


(** The rewritten descriptor, field by field. *)
Lemma rewrite_asset_href asset s :
  chosen_href asset = Some s ->
  exists asset',
    rewrite_asset (VDict asset) = VDict asset'
    /\ dict_get "href" asset' = Some (VStr (rename_bucket s))
    /\ forall k, k <> "href" -> dict_get k asset' = dict_get k asset.
Proof.
  intros Hs. unfold rewrite_asset. rewrite Hs. eexists. split; [done|].
  split; [apply dict_get_set_eq|]. intros k Hk. by apply dict_get_set_ne.
Qed.


(** C4, as stated, fails for the asset loop: it writes the new [href] into
    the item it was given. *)
Lemma update_urls_to_s3_mutates_items :
  ~ (forall items h l,
       l ∈ items -> snd (update_urls_to_s3 items h) !! l = h !! l).
Proof.
  intros H.
  specialize (H [0%nat] [VDict Sample.record1] 0%nat (list_elem_of_here _ _)).
  vm_compute in H. discriminate H.
Qed.

(** ** The asset loop writes to the items it is given only *)

Lemma confined_readonly {A} L (m : M A) : readonly m -> confined L m.
Proof.
  intros Hm h. split; [by rewrite Hm | intros l _; by rewrite Hm].
Qed.

Lemma confined_bind {A B} L (m : M A) (f : A -> M B) :
  confined L m -> (forall a, confined L (f a)) -> confined L (bind m f).
Proof.
  intros Hm Hf h. unfold bind. destruct (Hm h) as [Hlen Hfr].
  destruct (m h) as [[a|e] h1]; simpl in *; [|done].
  destruct (Hf a h1) as [Hlen' Hfr']. split.
  - by rewrite Hlen'.
  - intros l Hl. by rewrite Hfr', Hfr.
Qed.

Lemma confined_save L x v : x ∈ L -> confined L (save x v).
Proof.
  intros Hx h. unfold save. destruct (h !! x); simpl; [|done]. split.
  - apply length_insert.
  - intros l Hl. apply list_lookup_insert_ne. intros ->. by apply Hl.
Qed.

Lemma confined_for_ {A} L (body : A -> M unit) xs :
  (forall x, x ∈ xs -> confined L (body x)) -> confined L (for_ body xs).
Proof.
  induction xs as [|x xs IH]; intros Hbody.
  - by apply confined_readonly.
  - cbn [for_]. apply confined_bind.
    + apply Hbody, list_elem_of_here.
    + intros _. apply IH. intros y Hy. by apply Hbody, list_elem_of_further.
Qed.

Lemma readonly_load x : readonly (load x).
Proof. intros h. unfold load. by destruct (h !! x). Qed.

Lemma readonly_lift {A} (r : result A) : readonly (lift r).
Proof. by intros h. Qed.

Lemma readonly_bind {A B} (m : M A) (f : A -> M B) :
  readonly m -> (forall a, readonly (f a)) -> readonly (bind m f).
Proof.
  intros Hm Hf h. unfold bind. specialize (Hm h).
  destruct (m h) as [[a|e] h1]; simpl in *; subst h1; [apply Hf | done].
Qed.

Lemma readonly_get_path_at x path : readonly (get_path_at x path).
Proof.
  apply readonly_bind; [apply readonly_load | intros v; apply readonly_lift].
Qed.

Lemma confined_set_path_at L x path k y :
  x ∈ L -> confined L (set_path_at x path k y).
Proof.
  intros Hx. apply confined_bind; [apply confined_readonly, readonly_load|].
  intros v. apply confined_bind; [apply confined_readonly, readonly_lift|].
  intros v'. by apply confined_save.
Qed.

Lemma confined_update_asset_href L item a :
  item ∈ L -> confined L (update_asset_href item a).
Proof.
  intros Hitem. unfold update_asset_href.
  apply confined_bind; [apply confined_readonly, readonly_get_path_at|].
  intros asset. apply confined_bind; [apply confined_readonly, readonly_lift|].
  intros has_alternate. apply confined_bind.
  { apply confined_readonly. destruct has_alternate; [|done].
    apply readonly_bind; [apply readonly_get_path_at|].
    intros alt. apply readonly_lift. }
  intros has_s3. apply confined_bind.
  { destruct has_s3; [|by apply confined_readonly].
    apply confined_bind; [apply confined_readonly, readonly_get_path_at|].
    intros href. by apply confined_set_path_at. }
  intros _. apply confined_bind; [apply confined_readonly, readonly_get_path_at|].
  intros href. apply confined_bind; [apply confined_readonly, readonly_lift|].
  intros href'. by apply confined_set_path_at.
Qed.

Lemma update_urls_to_s3_confined items : confined items (update_urls_to_s3 items).
Proof.
  unfold update_urls_to_s3. apply confined_for_. intros item Hitem.
  apply confined_bind.
  { apply confined_readonly.
    apply readonly_bind; [apply readonly_load | intros v; apply readonly_lift]. }
  intros assets. apply confined_bind; [apply confined_readonly, readonly_lift|].
  intros names. apply confined_for_. intros a _.
  by apply confined_update_asset_href.
Qed.

(** ** [str.replace] *)

Lemma replace_from_skip old new (a t : string) :
  replace_from old new (String.length a) (a +:+ t) = replace_from old new 0 t.
Proof.
  induction a as [|c a IH]; [by destruct t|].
  rewrite append_cons. exact IH.
Qed.

Lemma prefix_append (a t : string) : String.prefix a (a +:+ t) = true.
Proof.
  induction a as [|c a IH]; [by destruct t|].
  rewrite append_cons. simpl. by destruct (ascii_dec c c).
Qed.

(** The three equations of a left-to-right replacement without overlap. *)
Lemma str_replace_empty old new : str_replace old new "" = "".
Proof. reflexivity. Qed.

Lemma str_replace_match old new t :
  old <> "" ->
  str_replace old new (old +:+ t) = new +:+ str_replace old new t.
Proof.
  intros Hold. destruct old as [|c old]; [done|].
  unfold str_replace. rewrite append_cons. cbn [replace_from].
  rewrite <- append_cons, prefix_append. cbn [String.length].
  rewrite Nat.sub_1_r. cbn [Nat.pred]. by rewrite replace_from_skip.
Qed.

Lemma str_replace_skip old new c t :
  String.prefix old (String c t) = false ->
  str_replace old new (String c t) = String c (str_replace old new t).
Proof. intros H. unfold str_replace. cbn [replace_from]. by rewrite H. Qed.

(** C4. [items_to_geodataframe] only adds records to the store: whatever it
    returns or raises, every record that existed before the call is
    unchanged, the input items among them.  The asset loop works in place:
    it allocates nothing and writes to the items it is given and to no
    other record. *)
Theorem source_records_after_each_stage :
  (forall shapely_accepts datetime_of_scalar datetime_in_column items h,
     exists fresh,
       snd (items_to_geodataframe shapely_accepts datetime_of_scalar
              datetime_in_column items h)
       = (h ++ fresh)%list)
  /\ (forall items h,
        length (snd (update_urls_to_s3 items h)) = length h
        /\ forall l, l ∉ items -> snd (update_urls_to_s3 items h) !! l = h !! l).
Proof.
  split.
  - intros sa conv in_column items h. apply items_to_geodataframe_extends.
  - intros items h. apply update_urls_to_s3_confined.
Qed.

(** ** NDVI *)

Module NdviFacts.
Import Ndvi.

Local Abbreviation prec := 53.
Local Abbreviation emax := 1024.

(** *** Rounding never produces [nan] from a non-negative mantissa *)

Lemma shr_1_nonneg mrs : 0 <= shr_m mrs -> 0 <= shr_m (shr_1 mrs).
Proof.
  destruct mrs as [m r s]. simpl.
  destruct m as [|[p|p|]|[p|p|]]; simpl; lia.
Qed.

Lemma iter_shr_1_nonneg p : forall mrs,
  0 <= shr_m mrs -> 0 <= shr_m (SpecFloat.iter_pos shr_1 p mrs).
Proof.
  induction p as [p IH|p IH|]; intros mrs H; simpl.
  - apply IH, IH. by apply shr_1_nonneg.
  - by apply IH, IH.
  - by apply shr_1_nonneg.
Qed.

Lemma shr_fexp_nonneg m e l :
  0 <= m -> 0 <= shr_m (fst (shr_fexp prec emax m e l)).
Proof.
  intros Hm. unfold shr_fexp, shr.
  assert (0 <= shr_m (shr_record_of_loc m l)) as H0
    by (destruct l as [|[]]; exact Hm).
  destruct (_ - e) as [|p|p]; simpl; try exact H0.
  by apply iter_shr_1_nonneg.
Qed.

Lemma round_nearest_even_nonneg m l :
  0 <= m -> 0 <= round_nearest_even m l.
Proof.
  intros Hm. unfold round_nearest_even.
  destruct l as [|[]]; try lia. destruct (Z.even m); lia.
Qed.

Lemma binary_round_aux_not_nan sx mx ex lx :
  0 <= mx -> binary_round_aux prec emax sx mx ex lx <> S754_nan.
Proof.
  intros Hm. unfold binary_round_aux.
  pose proof (shr_fexp_nonneg mx ex lx Hm) as H1.
  destruct (shr_fexp prec emax mx ex lx) as [mrs' e']. simpl in H1.
  pose proof (shr_fexp_nonneg _ e' loc_Exact
                (round_nearest_even_nonneg _ (loc_of_shr_record mrs') H1)) as H2.
  destruct (shr_fexp prec emax _ e' loc_Exact) as [mrs'' e'']. simpl in H2.
  destruct (shr_m mrs'') as [|m|m]; [done | | lia].
  by destruct (e'' <=? emax - prec)%Z.
Qed.

(** *** Small integers are exact in binary64 *)

Lemma digits2_pos_shift p k :
  digits2_pos (Pos.iter xO p k) = (digits2_pos p + k)%positive.
Proof.
  induction k as [|k IH] using Pos.peano_ind.
  - simpl. lia.
  - rewrite Pos.iter_succ. simpl. rewrite IH. lia.
Qed.

Lemma digits2_pos_lower p : 2 ^ (Zpos (digits2_pos p) - 1) <= Zpos p.
Proof.
  induction p as [p IH|p IH|]; simpl digits2_pos; [| |done].
  - rewrite Pos2Z.inj_succ.
    replace (Z.succ (Zpos (digits2_pos p)) - 1)
      with (Z.succ (Zpos (digits2_pos p) - 1)) by lia.
    rewrite Z.pow_succ_r by lia. lia.
  - rewrite Pos2Z.inj_succ.
    replace (Z.succ (Zpos (digits2_pos p)) - 1)
      with (Z.succ (Zpos (digits2_pos p) - 1)) by lia.
    rewrite Z.pow_succ_r by lia. lia.
Qed.

Lemma digits2_pos_uint16 p : Zpos p < 65536 -> Zpos (digits2_pos p) <= 16.
Proof.
  intros Hp. pose proof (digits2_pos_lower p) as Hlow.
  destruct (Z_le_gt_dec (Zpos (digits2_pos p)) 16) as [|Hgt]; [done|].
  exfalso.
  assert (2 ^ 16 <= 2 ^ (Zpos (digits2_pos p) - 1)) as Hpow
    by (apply Z.pow_le_mono_r; lia).
  change (2 ^ 16) with 65536 in Hpow. lia.
Qed.

Lemma binary_round_aux_canonical sx m e :
  Zpos (digits2_pos m) = prec -> -1074 <= e <= 971 ->
  binary_round_aux prec emax sx (Zpos m) e loc_Exact = S754_finite sx m e.
Proof.
  intros Hd He.
  assert (fexp prec emax (Zpos (digits2_pos m) + e) - e = 0) as Hshift.
  { unfold fexp, emin. rewrite Hd. lia. }
  unfold binary_round_aux, shr_fexp. simpl Zdigits2. rewrite Hshift. simpl.
  rewrite Hshift. simpl.
  destruct (Z.leb_spec e (emax - prec)); [done | lia].
Qed.

(** A positive 16-bit integer converts to a positive finite float. *)
Lemma float64_of_pos p :
  Zpos p < 65536 ->
  exists m e, float64_of_Z (Zpos p) = S754_finite false m e.
Proof.
  intros Hp. pose proof (digits2_pos_uint16 p Hp) as Hd.
  unfold float64_of_Z, binary_normalize, binary_round, shl_align.
  assert (fexp prec emax (Zpos (digits2_pos p) + 0) = Zpos (digits2_pos p) - 53)
    as -> by (unfold fexp, emin; lia).
  destruct (Zpos (digits2_pos p) - 53 - 0) as [|k|k] eqn:Hk; [lia | lia |].
  eexists _, _. apply binary_round_aux_canonical.
  - rewrite digits2_pos_shift. lia.
  - lia.
Qed.

Lemma float64_of_zero : float64_of_Z 0 = S754_zero false.
Proof. reflexivity. Qed.

Lemma float64_of_one : float64_of_Z 1 = S754_finite false 4503599627370496 (-52).
Proof. reflexivity. Qed.

(** *** The quotient and the clipped result *)

Lemma SFdiv_finite_not_nan sx mx ex sy my ey :
  SFdiv prec emax (S754_finite sx mx ex) (S754_finite sy my ey) <> S754_nan.
Proof.
  unfold SFdiv, SFdiv_core_binary.
  set (m' := match _ - _ with Z0 => _ | Zpos _ => _ | Zneg _ => _ end).
  assert (0 <= m') as Hm'.
  { unfold m'. destruct (_ - _); [lia | | lia]. apply Z.shiftl_nonneg. lia. }
  pose proof (Z_div_mod m' (Zpos my) ltac:(lia)) as Hdiv.
  destruct (Z.div_eucl m' (Zpos my)) as [q r].
  apply binary_round_aux_not_nan. nia.
Qed.

Lemma clip_unit x :
  x <> S754_nan ->
  in_unit_interval (clip x (float64_of_Z 0) (float64_of_Z 1)) = true.
Proof.
  intros Hx. unfold in_unit_interval, clip, np_maximum, np_minimum.
  rewrite float64_of_zero, float64_of_one.
  destruct x as [s|[|]| |[|] m e]; try done.
  set (one := S754_finite false 4503599627370496 (-52)).
  change (SFleb (S754_zero false) (S754_finite false m e) || isnan (S754_finite false m e))
    with true.
  cbv iota.
  change (isnan (S754_finite false m e)) with false. rewrite orb_false_r.
  destruct (SFleb (S754_finite false m e) one) eqn:Hle.
  - by rewrite Hle.
  - reflexivity.
Qed.

Lemma uint16_add_range a b : 0 <= uint16_add a b < 65536.
Proof. unfold uint16_add. apply Z.mod_pos_bound. lia. Qed.

Lemma uint16_sub_range a b : 0 <= uint16_sub a b < 65536.
Proof. unfold uint16_sub. apply Z.mod_pos_bound. lia. Qed.

(** Wherever the 16-bit sum is not zero the index lies in [[0, 1]]. *)
Lemma ndvi_in_unit_interval nir red :
  uint16_add nir red <> 0 -> in_unit_interval (ndvi nir red) = true.
Proof.
  intros Hden. unfold ndvi. apply clip_unit. unfold true_divide.
  pose proof (uint16_add_range nir red) as Hd.
  pose proof (uint16_sub_range nir red) as Hn.
  destruct (uint16_add nir red) as [|pd|pd]; [done | | lia].
  destruct (float64_of_pos pd) as (my & ey & ->); [lia|].
  destruct (uint16_sub nir red) as [|pn|pn]; [done | | lia].
  destruct (float64_of_pos pn) as (mx & ex & ->); [lia|].
  apply SFdiv_finite_not_nan.
Qed.

(** The index is [nan] exactly where both the 16-bit difference and the
    16-bit sum are zero. *)
Lemma ndvi_nan_iff nir red :
  ndvi nir red = S754_nan
  <-> uint16_sub nir red = 0 /\ uint16_add nir red = 0.
Proof.
  split.
  - intros Hnan.
    destruct (Z.eq_dec (uint16_add nir red) 0) as [Hden|Hden].
    + split; [|done]. unfold ndvi, true_divide in Hnan. rewrite Hden in Hnan.
      pose proof (uint16_sub_range nir red) as Hn.
      destruct (uint16_sub nir red) as [|pn|pn]; [done | | lia].
      destruct (float64_of_pos pn) as (mx & ex & Hx); [lia|].
      rewrite Hx in Hnan. discriminate Hnan.
    + pose proof (ndvi_in_unit_interval nir red Hden) as Hunit.
      rewrite Hnan in Hunit. discriminate Hunit.
  - intros [Hn Hd]. unfold ndvi, true_divide. by rewrite Hn, Hd.
Qed.

Lemma wrap_to_zero nir red :
  uint16 nir -> uint16 red ->
  (uint16_sub nir red = 0 /\ uint16_add nir red = 0)
  <-> nir = red /\ (nir = 0 \/ nir = 32768).
Proof.
  unfold uint16, uint16_sub, uint16_add. intros Hn Hr. split.
  - intros [Hs Ha].
    apply Z.mod_divide in Hs as [q Hq]; [|lia].
    apply Z.mod_divide in Ha as [p Hp]; [|lia]. lia.
  - intros [-> [->| ->]]; by vm_compute.
Qed.

(** On 16-bit bands the index is [nan] where both are [0] and also where
    both are [32768]. *)
Lemma ndvi_nan_pixels nir red :
  uint16 nir -> uint16 red ->
  ndvi nir red = S754_nan <-> nir = red /\ (nir = 0 \/ nir = 32768).
Proof. intros Hn Hr. rewrite ndvi_nan_iff. by apply wrap_to_zero. Qed.

End NdviFacts.

(** C3. At a pixel where both bands hold [32768] the 16-bit sum wraps to
    [0], the difference is [0], and the index is [nan] although neither
    band is zero. *)
Theorem ndvi_nan_where_sum_wraps :
  Ndvi.uint16 32768
  /\ Ndvi.uint16_add 32768 32768 = 0
  /\ Ndvi.ndvi 32768 32768 = S754_nan.
Proof. repeat split; done. Qed.

(** ** Examples *)

Example str_replace_bucket :
  str_replace "usgs-landsat-ard" "usgs-landsat"
    "s3://usgs-landsat-ard/collection02/usgs-landsat-ard.TIF"
  = "s3://usgs-landsat/collection02/usgs-landsat.TIF".
Proof. reflexivity. Qed.

Example str_replace_once :
  str_replace "usgs-landsat-ard" "usgs-landsat" "usgs-landsat-ard-ard"
  = "usgs-landsat-ard".
Proof. reflexivity. Qed.

Example attribute_datetime :
  attribute "properties.datetime" Sample.record1
  = Some (VStr "2021-10-01T15:30:00Z").
Proof. reflexivity. Qed.

Example attribute_updated_absent :
  attribute "properties.updated" Sample.record1 = None.
Proof. reflexivity. Qed.

Example flattened_columns :
  dict_keys (_normalise_json_ordered (shaped Sample.record2))
  = ["id"; "geometry"; "properties.datetime";
     "assets.red.href"; "assets.red.type"].
Proof. reflexivity. Qed.

Example rewritten_s3_asset :
  rewrite_asset Sample.asset_s3
  = VDict [("href", VStr "s3://usgs-landsat/data/B5.TIF");
           ("type", VStr "image/tiff");
           ("alternate",
            VDict [("s3", VDict [("href", VStr "s3://usgs-landsat-ard/data/B5.TIF")])])].
Proof. reflexivity. Qed.

Example ndvi_half : Ndvi.ndvi 3000 1000 = S754_finite false 4503599627370496 (-53).
Proof. reflexivity. Qed.

Example ndvi_zero_bands : Ndvi.ndvi 0 0 = S754_nan.
Proof. reflexivity. Qed.

(** Two acquisition times that convert one by one but carry different
    offsets: the sample conversion, like pandas 3, refuses the column. *)
Example column_with_two_offsets :
  fst (Sample.normalize [0; 1]%nat
         [VDict Sample.record1;
          VDict [("geometry", Sample.point 3 4);
                 ("properties",
                  VDict [("datetime", VStr "2021-10-03T17:31:00+02:00")])]])
  = Raise DatetimeError.
Proof. reflexivity. Qed.

(** ** Further properties of [items_to_geodataframe] *)

Lemma bind_inv {A B} (m : M A) (f : A -> M B) h b h' :
  bind m f h = (Ok b, h') ->
  exists a h1, m h = (Ok a, h1) /\ f a h1 = (Ok b, h').
Proof.
  unfold bind. destruct (m h) as [[a|e] h1]; [|done].
  intros H. by exists a, h1.
Qed.

Lemma for_each_length {A B} (body : A -> M B) xs : forall h ys h',
  for_each body xs h = (Ok ys, h') -> length ys = length xs.
Proof.
  induction xs as [|x xs IH]; intros h ys h' H.
  - injection H as <- _. done.
  - cbn [for_each] in H.
    apply bind_inv in H as (y & h1 & _ & H).
    apply bind_inv in H as (ys' & h2 & Hrest & H).
    injection H as <- _. simpl. f_equal. by eapply IH.
Qed.

Lemma all_ok_length {A} (rs : list (result A)) l :
  all_ok rs = Ok l -> length l = length rs.
Proof.
  revert l. induction rs as [|[a|e] rs IH]; intros l H; simpl in H.
  - by injection H as <-.
  - destruct (all_ok rs) as [l'|]; [|done]. injection H as <-.
    simpl. f_equal. by apply IH.
  - done.
Qed.

Lemma json_normalize_shape records df :
  json_normalize records = Ok df ->
  nrows df = length records /\ aligned df.
Proof.
  unfold json_normalize. destruct records as [|r records].
  - intros [= <-]. split; [done | constructor].
  - destruct (all_ok _) as [ds|] eqn:Hds; [|done]. intros [= <-].
    apply all_ok_length in Hds. rewrite length_map in Hds.
    split; [|apply aligned_of_records].
    by rewrite nrows_of_records, length_map.
Qed.

Section Returns.

Variable shapely_accepts : value -> bool.
Variable conv : value -> option Timestamp.
Variable in_column : list value -> option (value -> option Timestamp).

Lemma to_datetime_length col col' :
  to_datetime conv in_column col = Ok col' -> length col' = length col.
Proof.
  unfold to_datetime.
  destruct (all_ok (map (to_datetime_scalar conv) col)); [|done].
  destruct (in_column col) as [conv_col|]; [|done].
  intros H. apply all_ok_length in H. by rewrite length_map in H.
Qed.

Lemma parse_field_shape gdf field h gdf' h' :
  parse_field conv in_column gdf field h = (Ok gdf', h') ->
  nrows gdf' = nrows gdf /\ (aligned gdf -> aligned gdf').
Proof.
  unfold parse_field. destruct (has_column field gdf); [|by intros [= <- _]].
  intros H. apply bind_inv in H as (col & h1 & Hcol & H).
  apply bind_inv in H as (col' & h2 & Hcol' & H).
  injection H as <- _. split; [done|].
  unfold lift, get_column in Hcol.
  destruct (dict_get field (df_columns gdf)) as [c|] eqn:Hc; [|done].
  injection Hcol as <- _. unfold lift in Hcol'. injection Hcol' as Hcol' _.
  apply to_datetime_length in Hcol'.
  intros Hal. unfold aligned, set_column, nrows in *. simpl.
  apply Forall_dict_set; [|done]. simpl. rewrite Hcol'.
  exact (dict_get_Forall _ _ _ _ Hal Hc).
Qed.

Lemma for_fold_parse_shape fields : forall gdf h gdf' h',
  for_fold (parse_field conv in_column) fields gdf h = (Ok gdf', h') ->
  nrows gdf' = nrows gdf /\ (aligned gdf -> aligned gdf').
Proof.
  induction fields as [|f fields IH]; intros gdf h gdf' h' H.
  - injection H as <- _. done.
  - cbn [for_fold] in H. apply bind_inv in H as (gdf1 & h1 & H1 & H).
    apply parse_field_shape in H1 as [Hn1 Hal1].
    apply IH in H as [Hn Hal]. split; [congruence | tauto].
Qed.

(** X1. Whenever the call returns, whatever shapely and pandas accept, the
    frame has one row per item and every column has that length. *)
Theorem items_to_geodataframe_returns_aligned items h gdf h' :
  items_to_geodataframe shapely_accepts conv in_column items h = (Ok gdf, h') ->
  nrows gdf = length items /\ aligned gdf.
Proof.
  unfold items_to_geodataframe. intros H.
  apply bind_inv in H as (_items & h1 & Hcopy & H).
  apply bind_inv in H as (records & h2 & Hload & H).
  apply bind_inv in H as (df & h3 & Hnorm & H).
  apply bind_inv in H as (gdf0 & h4 & Hparse & H).
  apply for_each_length in Hcopy. apply for_each_length in Hload.
  unfold lift in Hnorm. injection Hnorm as Hnorm _.
  apply json_normalize_shape in Hnorm as [Hn Hal].
  apply for_fold_parse_shape in Hparse as [Hn0 Hal0].
  unfold GeoDataFrame in *. specialize (Hal0 Hal).
  unfold lift, set_index in H.
  destruct (dict_get "properties.datetime" (df_columns gdf0)) as [c|] eqn:Hc;
    [|done].
  injection H as <- _.
  pose proof (dict_get_Forall _ _ _ _ Hal0 Hc) as Hlen. simpl in Hlen.
  split.
  - unfold nrows at 1. simpl. congruence.
  - unfold aligned, nrows. simpl. rewrite Hlen. by apply Forall_dict_pop.
Qed.

(** X2. Whenever the call returns, the acquisition time is the index and no
    longer a column. *)
Theorem items_to_geodataframe_index_not_column items h gdf h' :
  items_to_geodataframe shapely_accepts conv in_column items h = (Ok gdf, h') ->
  has_column "properties.datetime" gdf = false /\ items <> [].
Proof.
  unfold items_to_geodataframe. intros H.
  destruct items as [|i items]; [discriminate H|]. split; [|done].
  apply bind_inv in H as (_items & h1 & _ & H).
  apply bind_inv in H as (records & h2 & _ & H).
  apply bind_inv in H as (df & h3 & _ & H).
  apply bind_inv in H as (gdf0 & h4 & _ & H).
  unfold lift, set_index in H.
  destruct (dict_get "properties.datetime" (df_columns gdf0)); [|done].
  injection H as <- _. unfold has_column, dict_has. simpl.
  by rewrite dict_get_pop_eq.
Qed.

End Returns.

Lemma returns_aligned_witness :
  nrows (expected_frame Sample.one_offset [Sample.record1; Sample.record2])
  = length [0; 1]%nat
  /\ aligned (expected_frame Sample.one_offset [Sample.record1; Sample.record2]).
Proof.
  apply (items_to_geodataframe_returns_aligned
           Sample.geojson_accepts Sample.iso8601_scalar Sample.one_offset
           [0; 1]%nat Sample.catalog _
           (Sample.catalog
            ++ [VDict (shaped Sample.record1); VDict (shaped Sample.record2)])%list).
  reflexivity.
Defined.

Lemma index_not_column_witness :
  has_column "properties.datetime"
    (expected_frame Sample.one_offset [Sample.record1; Sample.record2]) = false
  /\ [0; 1]%nat <> [].
Proof.
  apply (items_to_geodataframe_index_not_column
           Sample.geojson_accepts Sample.iso8601_scalar Sample.one_offset
           [0; 1]%nat Sample.catalog _
           (Sample.catalog
            ++ [VDict (shaped Sample.record1); VDict (shaped Sample.record2)])%list).
  reflexivity.
Defined.

(** ** The columns of the returned frame *)

Lemma attribute_shaped_outside f d :
  ~ under "geometry" f -> attribute f (shaped d) = attribute f d.
Proof.
  intros Hf. unfold shaped, with_shape.
  destruct (dict_get "geometry" d); [|done].
  by apply attribute_dict_set.
Qed.

Lemma nested_writes_dotted d k y :
  plain_keys d -> In (k, y) (nested_writes d) ->
  exists a rest, k = a +:+ "." +:+ rest.
Proof.
  induction 1 as [|[a v] d [Ha _] _ IH]; [done|].
  rewrite nested_writes_cons. intros Hin. apply in_app_or in Hin as [Hin|Hin].
  - destruct v; try done. simpl in Hin, Ha.
    exists a. by eapply leaves_dict_below.
  - by apply IH.
Qed.

Lemma top_entries_set k G d :
  is_dict G = false -> dict_get k (top_entries (dict_set k G d)) = Some G.
Proof.
  intros HG. unfold top_entries.
  induction d as [|[a v] d IH]; simpl.
  - rewrite HG. simpl. by rewrite String.eqb_refl.
  - destruct (String.eqb_spec k a) as [->|Hne]; simpl.
    + rewrite HG. simpl. by rewrite String.eqb_refl.
    + destruct (is_dict v); simpl; [exact IH|].
      destruct (String.eqb_spec k a); [done | exact IH].
Qed.

Lemma plain_keys_shaped d : plain_keys d -> plain_keys (shaped d).
Proof.
  intros H. unfold shaped, with_shape. destruct (dict_get "geometry" d); [|done].
  by apply Forall_dict_set.
Qed.

Lemma attribute_geometry d g :
  plain_keys d -> dict_get "geometry" d = Some g ->
  attribute "geometry" (shaped d) = Some (VGeom g).
Proof.
  intros Hplain Hg. rewrite attribute_split.
  rewrite last_write_absent.
  - unfold shaped. rewrite Hg. unfold with_shape. by apply top_entries_set.
  - intros y Hin.
    apply (nested_writes_dotted _ _ _ (plain_keys_shaped d Hplain)) in Hin
      as (a & rest & Heq).
    by apply (dotfree_no_dot "geometry" a rest) in Heq.
Qed.

Section Columns.

Variable shapely_accepts : value -> bool.
Variable conv : value -> option Timestamp.
Variable in_column : list value -> option (value -> option Timestamp).

Local Abbreviation run :=
  (items_to_geodataframe shapely_accepts conv in_column).

Lemma expected_column f ds :
  f <> "properties.datetime" ->
  dict_get f (df_columns (expected_frame in_column ds))
  = dict_get f
      (df_columns
         (parse_column in_column "properties.updated"
            (parse_column in_column "properties.created"
               (DataFrame_of_records (rows_of ds))))).
Proof.
  intros Hf. unfold expected_frame. cbn [df_columns].
  rewrite dict_get_pop_ne by done.
  destruct (String.eqb_spec f "properties.updated") as [->|Hu].
  - rewrite !parse_column_same. f_equal.
    rewrite !(parse_column_other _ _ "properties.updated") by done. done.
  - rewrite !(parse_column_other _ "properties.updated") by done.
    destruct (String.eqb_spec f "properties.created") as [->|Hc].
    + rewrite !parse_column_same. f_equal. by rewrite parse_column_other.
    + rewrite !(parse_column_other _ "properties.created") by done.
      by rewrite parse_column_other.
Qed.

(** X3. An attribute that the items carry as a string, and that is neither
    a timestamp field nor the geometry, comes out as it is in the items:
    the column exists when some item has the attribute, and holds the
    strings in the order of the items, with NaN for the items without the
    attribute.  (pandas keeps a column of strings as it is.) *)
Theorem items_to_geodataframe_passes_strings h items ds f :
  items <> [] ->
  holds h items ds ->
  Forall (fun d => well_formed shapely_accepts conv d = true) ds ->
  pandas_converts conv in_column ds ->
  f ∉ timestamp_fields ->
  ~ under "geometry" f ->
  Forall (fun d => forall v, attribute f d = Some v -> exists s, v = VStr s) ds ->
  exists gdf h',
    run items h = (Ok gdf, h')
    /\ dict_get f (df_columns gdf)
       = if any_has f ds then Some (column_of f ds) else None.
Proof.
  intros Hne Hholds Hwf Hpd Hf Hgeom _.
  eexists _, _. split; [by apply items_to_geodataframe_ok|].
  assert (f <> "properties.datetime" /\ f <> "properties.created"
          /\ f <> "properties.updated") as (H1 & H2 & H3).
  { unfold timestamp_fields in Hf. rewrite !not_elem_of_cons in Hf. tauto. }
  rewrite expected_column by done.
  rewrite !parse_column_other by done.
  apply (column_of_rows f (attribute f)).
  intros d _. by apply attribute_shaped_outside.
Qed.

(** X4. When pandas converts the timestamp columns, the columns of the
    creation and update times exist when some item has the attribute, and
    hold what pandas makes of each item's value in that column, with NaT
    for the items that have none. *)
Theorem items_to_geodataframe_parses_timestamps h items ds f :
  items <> [] ->
  holds h items ds ->
  Forall (fun d => well_formed shapely_accepts conv d = true) ds ->
  pandas_converts conv in_column ds ->
  f ∈ ["properties.created"; "properties.updated"] ->
  exists gdf h',
    run items h = (Ok gdf, h')
    /\ (any_has f ds = false -> dict_get f (df_columns gdf) = None)
    /\ (any_has f ds = true ->
        exists conv_col,
          in_column (column_of f ds) = Some conv_col
          /\ dict_get f (df_columns gdf)
             = Some (map (timestamp_cell conv_col f) ds)).
Proof.
  intros Hne Hholds Hwf Hpd Hf.
  assert (f ∈ timestamp_fields) as Hts
    by (unfold timestamp_fields; by apply list_elem_of_further).
  eexists _, _. split; [by apply items_to_geodataframe_ok|].
  assert (Hcolumn :
    dict_get f (df_columns (expected_frame in_column ds))
    = option_map (converted in_column)
        (dict_get f (df_columns (DataFrame_of_records (rows_of ds))))).
  { rewrite expected_column.
    - rewrite !elem_of_cons in Hf. destruct Hf as [->|[->|Hf]].
      + by rewrite parse_column_other, parse_column_same.
      + by rewrite parse_column_same, parse_column_other.
      + by apply elem_of_nil in Hf.
    - intros ->. rewrite !elem_of_cons in Hf.
      destruct Hf as [Hf|[Hf|Hf]]; try discriminate Hf.
      by apply elem_of_nil in Hf. }
  rewrite Hcolumn, (timestamp_column f ds Hts). split.
  - by intros ->.
  - intros Hany. rewrite Hany.
    destruct (Hpd f Hts Hany) as (_ & conv_col & Hin & _).
    exists conv_col. split; [done|]. cbn [option_map].
    unfold converted. rewrite Hin. f_equal.
    unfold column_of. rewrite map_map. apply map_ext. intros d.
    unfold timestamp_cell, attribute_cell. by destruct (attribute f d).
Qed.

(** X5. The geometry column holds the shapely object made of each item's
    geometry, in the order of the items. *)
Theorem items_to_geodataframe_geometry_column h items ds :
  items <> [] ->
  holds h items ds ->
  Forall (fun d => well_formed shapely_accepts conv d = true) ds ->
  pandas_converts conv in_column ds ->
  Forall plain_keys ds ->
  exists gdf h',
    run items h = (Ok gdf, h')
    /\ dict_get "geometry" (df_columns gdf) = Some (map geometry_object ds).
Proof.
  intros Hne Hholds Hwf Hpd Hplain.
  eexists _, _. split; [by apply items_to_geodataframe_ok|].
  rewrite expected_column by done.
  rewrite !parse_column_other by done.
  assert (Hg : forall d, d ∈ ds ->
                 attribute "geometry" (shaped d) = Some (geometry_object d)).
  { intros d Hd.
    rewrite List.Forall_forall in Hwf, Hplain.
    apply list_elem_of_In in Hd.
    specialize (Hwf d Hd). specialize (Hplain d Hd).
    unfold well_formed, has_shape in Hwf.
    unfold geometry_object.
    destruct (dict_get "geometry" d) as [g|] eqn:Hgd; [|done].
    by apply attribute_geometry. }
  rewrite (column_of_rows "geometry" (fun d => Some (geometry_object d)) ds Hg).
  destruct ds as [|d ds].
  - inversion Hholds; subst. done.
  - simpl. f_equal.
Qed.

End Columns.

(** ** Where [items_to_geodataframe] raises *)

Section Raises.

Variable shapely_accepts : value -> bool.
Variable conv : value -> option Timestamp.
Variable in_column : list value -> option (value -> option Timestamp).

Local Abbreviation run :=
  (items_to_geodataframe shapely_accepts conv in_column).

(** What [shape(_i['geometry'])] raises on an item it does not take. *)
Lemma copy_with_shape_raises h i d :
  h !! i = Some (VDict d) ->
  has_shape shapely_accepts d = false ->
  copy_with_shape shapely_accepts i h
  = (Raise (match dict_get "geometry" d with
            | Some _ => ShapeError
            | None => KeyError "geometry"
            end),
     (h ++ [VDict d])%list).
Proof.
  intros Hi Hs.
  unfold copy_with_shape, deepcopy, getitem_at, load, alloc, lift, bind.
  rewrite Hi. simpl. rewrite lookup_fresh. simpl.
  unfold has_shape in Hs. destruct (dict_get "geometry" d) as [g|]; [|done].
  unfold shape. by rewrite Hs.
Qed.

Lemma for_each_copy_raises pre : forall items h d post,
  holds h items (pre ++ d :: post)%list ->
  Forall (fun d => has_shape shapely_accepts d = true) pre ->
  has_shape shapely_accepts d = false ->
  for_each (copy_with_shape shapely_accepts) items h
  = (Raise (match dict_get "geometry" d with
            | Some _ => ShapeError
            | None => KeyError "geometry"
            end),
     (h ++ map (fun d => VDict (shaped d)) pre ++ [VDict d])%list).
Proof.
  induction pre as [|d0 pre IH]; intros items h d post Hh Hpre Hd.
  - simpl in Hh. inversion Hh as [|i ? items' ? Hi _]; subst.
    cbn [for_each]. unfold bind at 1.
    by rewrite (copy_with_shape_raises h i d Hi Hd).
  - rewrite <- app_comm_cons in Hh.
    inversion Hh as [|i ? items' ? Hi Hrest]; subst.
    inversion Hpre as [|? ? Hd0 Hpre']; subst.
    unfold has_shape in Hd0.
    destruct (dict_get "geometry" d0) as [g|] eqn:Hg; [|done].
    cbn [for_each]. unfold bind at 1.
    rewrite (copy_with_shape_ok shapely_accepts h i d0 g Hi Hg Hd0).
    unfold bind at 1.
    rewrite (IH items' _ d post (holds_app _ _ _ _ Hrest) Hpre' Hd).
    assert (Hsh : shaped d0 = with_shape d0 g) by (unfold shaped; by rewrite Hg).
    f_equal. cbn [map]. rewrite Hsh. by rewrite <- app_assoc.
Qed.

(** X6. The call stops at the first item whose geometry is missing or is not
    taken by shapely: with [KeyError('geometry')] in the first case and
    shapely's error in the second.  The items before it have been copied
    and converted, the item itself has been copied, and no source record
    has been written to. *)
Theorem items_to_geodataframe_bad_geometry h items pre d post :
  holds h items (pre ++ d :: post)%list ->
  Forall (fun d => has_shape shapely_accepts d = true) pre ->
  has_shape shapely_accepts d = false ->
  run items h
  = (Raise (match dict_get "geometry" d with
            | Some _ => ShapeError
            | None => KeyError "geometry"
            end),
     (h ++ map (fun d => VDict (shaped d)) pre ++ [VDict d])%list).
Proof.
  intros Hh Hpre Hd. unfold items_to_geodataframe, bind at 1.
  by rewrite (for_each_copy_raises pre items h d post Hh Hpre Hd).
Qed.









Lemma parse_column_absent f g df :
  dict_get g (df_columns df) = None ->
  dict_get g (df_columns (parse_column in_column f df)) = None.
Proof.
  intros Hg. destruct (String.eqb_spec f g) as [->|Hne].
  - by rewrite parse_column_same, Hg.
  - by rewrite parse_column_other.
Qed.

Lemma for_fold_parse_ok fields : forall gdf h,
  (forall f col, f ∈ fields -> dict_get f (df_columns gdf) = Some col ->
                 converts conv in_column col) ->
  NoDup fields ->
  exists gdf',
    for_fold (parse_field conv in_column) fields gdf h = (Ok gdf', h)
    /\ forall g, dict_get g (df_columns gdf) = None ->
                 dict_get g (df_columns gdf') = None.
Proof.
  induction fields as [|f fields IH]; intros gdf h Hcols Hnd.
  - exists gdf. by split.
  - pose proof (NoDup_cons_1_1 _ _ Hnd) as Hfresh.
    apply NoDup_cons_1_2 in Hnd.
    cbn [for_fold]. unfold bind at 1.
    rewrite parse_field_ok
      by (intros col Hcol; apply (Hcols f col); [apply list_elem_of_here | done]).
    destruct (IH (parse_column in_column f gdf) h) as (gdf' & Hrun & Hframe);
      [|done|].
    + intros f' col Hf' Hcol. apply (Hcols f' col); [by apply list_elem_of_further|].
      rewrite parse_column_other in Hcol; [done|].
      intros ->. by apply Hfresh.
    + exists gdf'. split; [done|]. intros g Hg.
      by apply Hframe, parse_column_absent.
Qed.

(** X8. When every geometry is taken by shapely, pandas converts the
    timestamp columns that the items give rise to, and no item has an
    acquisition time, the call raises [KeyError] at [set_index], after the
    copies have been made; the empty item list is the case without
    items. *)
Theorem items_to_geodataframe_undated_key_error h items ds :
  holds h items ds ->
  Forall (fun d => has_shape shapely_accepts d = true) ds ->
  Forall (fun d => attribute "properties.datetime" d = None) ds ->
  pandas_converts conv in_column ds ->
  run items h
  = (Raise (KeyError "None of ['properties.datetime'] are in the columns"),
     (h ++ map (fun d => VDict (shaped d)) ds)%list).
Proof.
  intros Hh Hshape Hnone Hpd.
  assert (length items = length ds) as Hlen by (eapply Forall2_length; exact Hh).
  destruct ds as [|d0 ds0].
  { destruct items; [|discriminate Hlen]. simpl. by rewrite app_nil_r. }
  assert (d0 :: ds0 <> []) as Hne by done.
  revert Hne Hh Hshape Hnone Hpd Hlen. generalize (d0 :: ds0). clear d0 ds0.
  intros ds Hne Hh Hshape Hnone Hpd Hlen.
  unfold items_to_geodataframe.
  rewrite (bind_ok _ _ _ _ _ (for_each_copy shapely_accepts items ds h Hh Hshape)).
  pose proof (for_each_load (map (fun d => VDict (shaped d)) ds) h []) as Hload.
  rewrite length_map, app_nil_r in Hload. rewrite <- Hlen in Hload.
  rewrite (bind_ok _ _ _ _ _ Hload).
  rewrite <- (map_map shaped VDict).
  unfold lift at 1, bind at 1.
  rewrite (json_normalize_records (map shaped ds)) by (by destruct ds).
  fold (rows_of ds). unfold GeoDataFrame.
  set (df0 := DataFrame_of_records (rows_of ds)).
  assert (Hnocol : dict_get "properties.datetime" (df_columns df0) = None).
  { unfold df0. rewrite timestamp_column by apply list_elem_of_here.
    assert (any_has "properties.datetime" ds = false) as ->; [|done].
    clear -Hnone. induction Hnone as [|d ds' Hd _ IH]; [done|].
    unfold any_has in *. simpl. by rewrite Hd, IH. }
  destruct (for_fold_parse_ok timestamp_fields df0
              (h ++ map VDict (map shaped ds))%list)
    as (gdf' & Hrun & Hframe).
  { intros f col Hf Hcol. unfold df0 in Hcol.
    rewrite (timestamp_column f ds Hf) in Hcol.
    destruct (any_has f ds) eqn:Hany; [|done].
    injection Hcol as <-. by apply Hpd. }
  { apply (bool_decide_unpack _). vm_compute. reflexivity. }
  unfold bind at 1. rewrite Hrun. unfold lift, set_index.
  by rewrite (Hframe _ Hnocol).
Qed.

End Raises.

(** ** The properties above on the sample items *)

(** The [href] of the asset [nir08], which the second item does not
    have. *)
Lemma passes_strings_witness :
  exists gdf h',
    Sample.normalize [0; 1]%nat Sample.catalog = (Ok gdf, h')
    /\ dict_get "assets.nir08.href" (df_columns gdf)
       = Some [VStr "https://landsatlook.usgs.gov/data/B5.TIF"; VNaN].
Proof.
  apply (items_to_geodataframe_passes_strings
           Sample.geojson_accepts Sample.iso8601_scalar Sample.one_offset
           Sample.catalog [0; 1]%nat [Sample.record1; Sample.record2]
           "assets.nir08.href").
  - discriminate.
  - repeat constructor.
  - repeat constructor.
  - sample_converts.
  - unfold timestamp_fields. rewrite !not_elem_of_cons.
    repeat split; try discriminate. apply not_elem_of_nil.
  - intros [H|[rest H]]; [discriminate H | cbv in H; discriminate H].
  - repeat constructor; intros v Hv; vm_compute in Hv;
      first [discriminate Hv | injection Hv as <-; by eexists].
Defined.

Lemma parses_timestamps_witness :
  exists gdf h',
    Sample.normalize [0; 1]%nat Sample.catalog = (Ok gdf, h')
    /\ dict_get "properties.created" (df_columns gdf)
       = Some [VTimestamp (mkTimestamp 2021 10 2 0 0 0 (Some 0)); VNaT].
Proof.
  destruct (items_to_geodataframe_parses_timestamps
              Sample.geojson_accepts Sample.iso8601_scalar Sample.one_offset
              Sample.catalog [0; 1]%nat [Sample.record1; Sample.record2]
              "properties.created")
    as (gdf & h' & Hrun & _ & Hcol).
  - discriminate.
  - repeat constructor.
  - repeat constructor.
  - sample_converts.
  - apply list_elem_of_here.
  - destruct (Hcol eq_refl) as (conv_col & Hin & Hc).
    assert (Sample.one_offset
              (column_of "properties.created" [Sample.record1; Sample.record2])
            = Some Sample.iso8601_scalar) as Hone by reflexivity.
    rewrite Hone in Hin. injection Hin as <-.
    exists gdf, h'. split; [exact Hrun|]. rewrite Hc. reflexivity.
Defined.

Lemma geometry_column_witness :
  exists gdf h',
    Sample.normalize [0; 1]%nat Sample.catalog = (Ok gdf, h')
    /\ dict_get "geometry" (df_columns gdf)
       = Some [VGeom (Sample.point 1 2); VGeom (Sample.point 3 4)].
Proof.
  apply (items_to_geodataframe_geometry_column
           Sample.geojson_accepts Sample.iso8601_scalar Sample.one_offset
           Sample.catalog [0; 1]%nat [Sample.record1; Sample.record2]).
  - discriminate.
  - repeat constructor.
  - repeat constructor.
  - sample_converts.
  - repeat constructor; discriminate.
Defined.

(** The second record has no geometry. *)
Lemma bad_geometry_witness :
  Sample.normalize [0; 1]%nat
    [VDict Sample.record1; VDict [("id", VStr "X_3")]]
  = (Raise (KeyError "geometry"),
     [VDict Sample.record1; VDict [("id", VStr "X_3")];
      VDict (shaped Sample.record1); VDict [("id", VStr "X_3")]]).
Proof.
  apply (items_to_geodataframe_bad_geometry
           Sample.geojson_accepts Sample.iso8601_scalar Sample.one_offset
           [VDict Sample.record1; VDict [("id", VStr "X_3")]]
           [0; 1]%nat [Sample.record1] [("id", VStr "X_3")] []).
  - repeat constructor.
  - repeat constructor.
  - reflexivity.
Defined.


(** The same undated record behind two item variables. *)
Lemma undated_key_error_witness :
  Sample.normalize [0; 0]%nat [VDict Sample.record_undated]
  = (Raise (KeyError "None of ['properties.datetime'] are in the columns"),
     [VDict Sample.record_undated;
      VDict (shaped Sample.record_undated); VDict (shaped Sample.record_undated)]).
Proof.
  apply (items_to_geodataframe_undated_key_error
           Sample.geojson_accepts Sample.iso8601_scalar Sample.one_offset
           [VDict Sample.record_undated] [0; 0]%nat
           [Sample.record_undated; Sample.record_undated]).
  - repeat constructor.
  - repeat constructor.
  - repeat constructor.
  - sample_converts.
Defined.

(** ** Further properties of the asset loop *)

(** A string without an occurrence of [old] is returned as it is. *)
Lemma str_replace_absent old new s :
  str_contains old s = false -> str_replace old new s = s.
Proof.
  unfold str_replace. induction s as [|c s IH]; [done|].
  cbn [str_contains replace_from]. intros H.
  apply orb_false_elim in H as [Hp Hs]. rewrite Hp. f_equal. by apply IH.
Qed.

Lemma settled_fixed v : settled v = true -> rewrite_asset v = v.
Proof.
  destruct v as [ | | | | | |asset| | | ]; try done.
  unfold settled, rewrite_asset, string_at.
  destruct (chosen_href asset) as [s|]; [|done].
  destruct (dict_get "href" asset) as [[ | | | |s'| | | | | ]|] eqn:Hh; try done.
  intros Heq. apply String.eqb_eq in Heq. rewrite Heq.
  f_equal. by apply dict_set_same.
Qed.

Lemma settled_ok v : settled v = true -> asset_ok v = true.
Proof.
  destruct v as [ | | | | | |asset| | | ]; try done.
  unfold settled, asset_ok. by destruct (chosen_href asset).
Qed.

Lemma renames_once_ok v : renames_once v = true -> asset_ok v = true.
Proof.
  destruct v as [ | | | | | |asset| | | ]; try done.
  unfold renames_once, asset_ok. by destruct (chosen_href asset).
Qed.

Lemma untouched_settled v : untouched v = true -> settled v = true.
Proof.
  destruct v as [ | | | | | |asset| | | ]; try done.
  unfold untouched, settled, chosen_href.
  destruct (dict_get "alternate" asset); [done|].
  destruct (string_at "href" asset) as [s|]; [|done].
  intros H. apply negb_true_iff in H.
  unfold rename_bucket. rewrite (str_replace_absent _ _ s H).
  apply String.eqb_refl.
Qed.

Lemma chosen_href_set asset r s :
  chosen_href asset = Some s ->
  chosen_href (dict_set "href" (VStr r) asset)
  = Some (match dict_get "alternate" asset with
          | Some (VDict alt) =>
              match dict_get "s3" alt with Some _ => s | None => r end
          | _ => r
          end).
Proof.
  unfold chosen_href, string_at.
  rewrite (dict_get_set_ne "href" "alternate") by done.
  rewrite dict_get_set_eq.
  destruct (dict_get "alternate" asset) as [[ | | | | | |alt| | | ]|]; try done.
  destruct (dict_get "s3" alt) as [[ | | | | | |s3| | | ]|]; try done.
Qed.

Lemma renames_once_settles v :
  renames_once v = true -> settled (rewrite_asset v) = true.
Proof.
  destruct v as [ | | | | | |asset| | | ]; try done.
  unfold renames_once, rewrite_asset.
  destruct (chosen_href asset) as [s|] eqn:Hs; [|done].
  intros Hclean. apply negb_true_iff in Hclean.
  unfold settled. rewrite (chosen_href_set asset _ s Hs).
  unfold string_at at 1. rewrite dict_get_set_eq.
  destruct (dict_get "alternate" asset) as [[ | | | | | |alt| | | ]|];
    try (unfold rename_bucket at 1;
         rewrite (str_replace_absent _ _ _ Hclean); apply String.eqb_refl).
  destruct (dict_get "s3" alt); [apply String.eqb_refl|].
  unfold rename_bucket at 1.
  rewrite (str_replace_absent _ _ _ Hclean). apply String.eqb_refl.
Qed.

Lemma assets_all_impl (P Q : value -> bool) d :
  (forall v, P v = true -> Q v = true) -> assets_all P d -> assets_all Q d.
Proof.
  intros HPQ (assets & Ha & Hnd & Hall). exists assets. split; [done|].
  split; [done|]. eapply Forall_impl; [|exact Hall]. intros kv. apply HPQ.
Qed.

Lemma assets_all_rewrite (P Q : value -> bool) d :
  (forall v, P v = true -> Q (rewrite_asset v) = true) ->
  assets_all P d -> assets_all Q (rewrite_assets d).
Proof.
  intros HPQ (assets & Ha & Hnd & Hall). unfold rewrite_assets. rewrite Ha.
  exists (map rewrite_entry assets). split; [apply dict_get_set_eq|].
  split; [by rewrite dict_keys_rewrite|].
  clear Ha Hnd. induction Hall as [|kv assets Hkv _ IH]; constructor; [|done].
  simpl. by apply HPQ.
Qed.

Lemma settled_assets_fixed d : assets_all settled d -> rewrite_assets d = d.
Proof.
  intros (assets & Ha & _ & Hall). unfold rewrite_assets. rewrite Ha.
  assert (map rewrite_entry assets = assets) as ->.
  { clear Ha. induction Hall as [|[k v] assets Hkv _ IH]; [done|].
    simpl in *. rewrite IH. unfold rewrite_entry. simpl.
    by rewrite (settled_fixed v Hkv). }
  by apply dict_set_same.
Qed.

Lemma records_ok_impl (P Q : dict -> Prop) h items :
  (forall d, P d -> Q d) -> records_ok P h items -> records_ok Q h items.
Proof.
  intros HPQ H. eapply Forall_impl; [|exact H].
  intros item (d & Hd & HP). exists d. split; [done | by apply HPQ].
Qed.

Lemma rewrite_record_lookup h item l :
  l <> item -> rewrite_record h item !! l = h !! l.
Proof.
  intros Hne. unfold rewrite_record.
  destruct (h !! item) as [[ | | | | | |d| | | ]|]; try done.
  by apply list_lookup_insert_ne.
Qed.

Lemma rewrite_record_at h item d :
  h !! item = Some (VDict d) ->
  rewrite_record h item !! item = Some (VDict (rewrite_assets d)).
Proof.
  intros Hd. unfold rewrite_record. rewrite Hd.
  apply list_lookup_insert_eq. by eapply lookup_lt_Some.
Qed.

Lemma rewrite_record_ok (P : dict -> Prop) h item items :
  (forall d, P d -> P (rewrite_assets d)) ->
  records_ok P h items -> records_ok P (rewrite_record h item) items.
Proof.
  intros HP H. eapply Forall_impl; [|exact H].
  intros l (d & Hd & Hdp).
  destruct (decide (l = item)) as [->|Hne].
  - exists (rewrite_assets d). split; [by apply rewrite_record_at | by apply HP].
  - exists d. by rewrite rewrite_record_lookup.
Qed.

(** The loop on well-shaped items, also when a variable occurs twice. *)
Lemma update_urls_to_s3_run items : forall h,
  records_ok assets_ok h items ->
  update_urls_to_s3 items h = (Ok tt, rewrite_store items h).
Proof.
  unfold update_urls_to_s3.
  induction items as [|item items IH]; intros h Hok; [done|].
  inversion Hok as [|? ? (d & Hd & Hdok) Hrest]; subst.
  cbn [for_ rewrite_store foldl].
  rewrite (bind_ok _ _ h tt (rewrite_record h item)).
  - apply IH. apply rewrite_record_ok; [|done].
    intros d'. apply (assets_all_rewrite asset_ok asset_ok).
    intros [ | | | | | |asset| | | ]; try done.
    unfold asset_ok, rewrite_asset.
    destruct (chosen_href asset) as [s|] eqn:Hs; [|done].
    by rewrite (chosen_href_set asset _ s Hs).
  - unfold rewrite_record. rewrite Hd. by apply item_loop_body.
Qed.

Lemma rewrite_store_fixed items : forall h,
  records_ok (fun d => rewrite_assets d = d) h items ->
  rewrite_store items h = h.
Proof.
  induction items as [|item items IH]; intros h Hok; [done|].
  inversion Hok as [|? ? (d & Hd & Hfix) Hrest]; subst.
  cbn [rewrite_store foldl].
  assert (rewrite_record h item = h) as ->.
  { unfold rewrite_record. rewrite Hd, Hfix. by apply list_insert_id. }
  by apply IH.
Qed.

Lemma rewrite_store_keeps items : forall h l d,
  h !! l = Some (VDict d) -> rewrite_assets d = d ->
  rewrite_store items h !! l = Some (VDict d).
Proof.
  induction items as [|item items IH]; intros h l d Hd Hfix; [done|].
  cbn [rewrite_store foldl]. apply IH; [|done].
  destruct (decide (l = item)) as [->|Hne].
  - by rewrite (rewrite_record_at h item d Hd), Hfix.
  - by rewrite rewrite_record_lookup.
Qed.

Lemma rewrite_store_lookup items : forall h l,
  l ∉ items -> rewrite_store items h !! l = h !! l.
Proof.
  induction items as [|item items IH]; intros h l Hl; [done|].
  apply not_elem_of_cons in Hl as [Hne Hl].
  cbn [rewrite_store foldl]. fold (rewrite_store items (rewrite_record h item)).
  rewrite (IH _ _ Hl). by apply rewrite_record_lookup.
Qed.

Lemma rewrite_store_settles items : forall h,
  records_ok (fun d => assets_all renames_once d \/ assets_all settled d) h items ->
  records_ok (assets_all settled) (rewrite_store items h) items.
Proof.
  induction items as [|item items IH]; intros h Hok; [constructor|].
  assert (Hstep : forall d,
            assets_all renames_once d \/ assets_all settled d ->
            assets_all settled (rewrite_assets d)).
  { intros d [Hd|Hd].
    - by apply (assets_all_rewrite renames_once settled _ renames_once_settles).
    - by rewrite (settled_assets_fixed d Hd). }
  pose proof (rewrite_record_ok _ h item (item :: items)
                (fun d Hd => or_intror (Hstep d Hd)) Hok) as Hok1.
  inversion Hok as [|? ? (d & Hd & Hdok) _]; subst.
  inversion Hok1 as [|? ? _ Hrest1]; subst.
  cbn [rewrite_store foldl]. fold (rewrite_store items (rewrite_record h item)).
  constructor; [|by apply IH].
  exists (rewrite_assets d). split; [|by apply Hstep].
  apply rewrite_store_keeps; [by apply rewrite_record_at|].
  apply settled_assets_fixed. by apply Hstep.
Qed.

(** X9. Items whose descriptors have no alternates and do not name the ARD
    bucket are left exactly as they are: the loop writes each [href] back
    unchanged. *)
Theorem update_urls_to_s3_untouched items h :
  records_ok (assets_all untouched) h items ->
  update_urls_to_s3 items h = (Ok tt, h).
Proof.
  intros Hok.
  assert (records_ok (assets_all settled) h items) as Hset.
  { eapply records_ok_impl; [|exact Hok].
    intros d. apply assets_all_impl, untouched_settled. }
  rewrite update_urls_to_s3_run.
  - f_equal. apply rewrite_store_fixed.
    eapply records_ok_impl; [|exact Hset]. apply settled_assets_fixed.
  - eapply records_ok_impl; [|exact Hset].
    intros d. apply (assets_all_impl settled asset_ok), settled_ok.
Qed.

(** X10. Running the loop a second time changes nothing, as long as a renamed
    href does not name the ARD bucket again. *)
Theorem update_urls_to_s3_rerun items h :
  records_ok (assets_all renames_once) h items ->
  exists h',
    update_urls_to_s3 items h = (Ok tt, h')
    /\ update_urls_to_s3 items h' = (Ok tt, h').
Proof.
  intros Hok. exists (rewrite_store items h). split.
  - apply update_urls_to_s3_run. eapply records_ok_impl; [|exact Hok].
    intros d. apply (assets_all_impl renames_once asset_ok), renames_once_ok.
  - assert (records_ok (assets_all settled) (rewrite_store items h) items) as Hset.
    { apply rewrite_store_settles. eapply records_ok_impl; [|exact Hok]. tauto. }
    rewrite update_urls_to_s3_run.
    + f_equal. apply rewrite_store_fixed.
      eapply records_ok_impl; [|exact Hset]. apply settled_assets_fixed.
    + eapply records_ok_impl; [|exact Hset].
      intros d. apply (assets_all_impl settled asset_ok), settled_ok.
Qed.

(** X11. The loop is not atomic: it stops with [KeyError('assets')] at the first
    item without assets, and the items before it stay rewritten. *)
Theorem update_urls_to_s3_no_assets pre : forall h item d post,
  records_ok assets_ok h pre ->
  h !! item = Some (VDict d) ->
  dict_get "assets" d = None ->
  update_urls_to_s3 (pre ++ item :: post)%list h
  = (Raise (KeyError "assets"), rewrite_store pre h).
Proof.
  unfold update_urls_to_s3.
  induction pre as [|p pre IH]; intros h item d post Hok Hd Hnone.
  - cbn [app for_ rewrite_store foldl]. unfold bind at 1.
    unfold getitem_at, bind, load, lift, getitem. by rewrite Hd, Hnone.
  - inversion Hok as [|? ? (dp & Hp & Hpok) Hrest]; subst.
    rewrite <- app_comm_cons. cbn [for_ rewrite_store foldl].
    fold (rewrite_store pre (rewrite_record h p)).
    assert (item <> p) as Hne.
    { intros ->. rewrite Hp in Hd. injection Hd as ->.
      destruct Hpok as (assets & Ha & _). congruence. }
    rewrite (bind_ok _ _ h tt (rewrite_record h p)).
    + apply (IH _ item d post); [|by rewrite rewrite_record_lookup | done].
      apply rewrite_record_ok; [|done].
      intros d'. apply (assets_all_rewrite asset_ok asset_ok).
      intros [ | | | | | |asset| | | ]; try done.
      unfold asset_ok, rewrite_asset.
      destruct (chosen_href asset) as [s|] eqn:Hs; [|done].
      by rewrite (chosen_href_set asset _ s Hs).
    + unfold rewrite_record. rewrite Hp. by apply item_loop_body.
Qed.

(** X12. A descriptor with neither an alternate nor an [href] stops the loop
    body with [KeyError('href')]; nothing has been written. *)
Theorem update_asset_href_no_href h item d assets asset a :
  h !! item = Some (VDict d) ->
  dict_get "assets" d = Some (VDict assets) ->
  dict_get a assets = Some (VDict asset) ->
  dict_get "alternate" asset = None ->
  dict_get "href" asset = None ->
  update_asset_href item a h = (Raise (KeyError "href"), h).
Proof.
  intros Hitem Hassets Hasset Halt Hhref.
  unfold update_asset_href.
  rewrite (bind_ok _ _ h (VDict asset) h)
    by (rewrite (get_path_at_run h item _ _ Hitem);
        by rewrite (get_asset d assets asset a Hassets Hasset)).
  unfold contains, dict_has at 1. rewrite Halt.
  unfold lift at 1, bind at 1. unfold ret at 1, bind at 1.
  unfold ret at 1, bind at 1.
  unfold bind at 1. rewrite (get_path_at_run h item _ _ Hitem).
  rewrite (get_asset d assets asset a Hassets Hasset).
  cbn [get_path getitem]. by rewrite Hhref.
Qed.

Lemma untouched_witness :
  update_urls_to_s3 [1%nat] Sample.catalog = (Ok tt, Sample.catalog).
Proof.
  apply (update_urls_to_s3_untouched [1%nat] Sample.catalog).
  repeat constructor. exists Sample.record2. split; [reflexivity|].
  eexists. split; [reflexivity|]. split.
  - apply (bool_decide_unpack _). vm_compute. reflexivity.
  - repeat constructor.
Defined.

Lemma rerun_witness :
  exists h',
    update_urls_to_s3 [0; 1]%nat Sample.catalog = (Ok tt, h')
    /\ update_urls_to_s3 [0; 1]%nat h' = (Ok tt, h').
Proof.
  apply (update_urls_to_s3_rerun [0; 1]%nat Sample.catalog).
  repeat constructor.
  - exists Sample.record1. split; [reflexivity|].
    eexists. split; [reflexivity|]. split.
    + apply (bool_decide_unpack _). vm_compute. reflexivity.
    + repeat constructor.
  - exists Sample.record2. split; [reflexivity|].
    eexists. split; [reflexivity|]. split.
    + apply (bool_decide_unpack _). vm_compute. reflexivity.
    + repeat constructor.
Defined.

(** The second record has no assets; the first one has been rewritten when
    the loop stops. *)
Lemma no_assets_witness :
  update_urls_to_s3 ([0%nat] ++ [1%nat])%list
    [VDict Sample.record1; VDict [("id", VStr "X_3")]]
  = (Raise (KeyError "assets"),
     rewrite_store [0%nat] [VDict Sample.record1; VDict [("id", VStr "X_3")]]).
Proof.
  apply (update_urls_to_s3_no_assets [0%nat]
           [VDict Sample.record1; VDict [("id", VStr "X_3")]]
           1%nat [("id", VStr "X_3")] []).
  - repeat constructor. exists Sample.record1. split; [reflexivity|].
    eexists. split; [reflexivity|]. split.
    + apply (bool_decide_unpack _). vm_compute. reflexivity.
    + repeat constructor.
  - reflexivity.
  - reflexivity.
Defined.

Lemma no_href_witness :
  update_asset_href 0%nat "thumbnail"
    [VDict [("assets", VDict [("thumbnail", VDict [("type", VStr "image/png")])])]]
  = (Raise (KeyError "href"),
     [VDict [("assets", VDict [("thumbnail", VDict [("type", VStr "image/png")])])]]).
Proof.
  apply (update_asset_href_no_href
           [VDict [("assets", VDict [("thumbnail", VDict [("type", VStr "image/png")])])]]
           0%nat
           [("assets", VDict [("thumbnail", VDict [("type", VStr "image/png")])])]
           [("thumbnail", VDict [("type", VStr "image/png")])]
           [("type", VStr "image/png")] "thumbnail"); reflexivity.
Defined.

(** ** The asset loop followed by [items_to_geodataframe] *)

(** Replacing a nested dictionary by another one changes no attribute
    outside its key. *)
Lemma attribute_set_dict k (A A' pre post : dict) f :
  k <> "" -> ~ under k f ->
  attribute f (pre ++ (k, VDict A) :: post)%list
  = attribute f (pre ++ (k, VDict A') :: post)%list.
Proof.
  intros Hk Hf. rewrite !attribute_split.
  rewrite !nested_writes_app, !nested_writes_cons, !last_write_app.
  cbn [is_dict]. rewrite !(last_write_not_under _ k f) by done.
  unfold top_entries. by rewrite !filter_app.
Qed.

Lemma attribute_rewrite_assets f d :
  ~ under "assets" f -> attribute f (rewrite_assets d) = attribute f d.
Proof.
  intros Hf. unfold rewrite_assets.
  destruct (dict_get "assets" d) as [[ | | | | | |A| | | ]|] eqn:Ha; try done.
  destruct (dict_get_split _ _ d Ha) as (pre & post & -> & Hpre).
  rewrite dict_set_middle by done. symmetry. by apply attribute_set_dict.
Qed.

Lemma dict_set_comm {V} k k' (v v' : V) (d : list (string * V)) :
  k <> k' -> dict_has k d = true ->
  dict_set k v (dict_set k' v' d) = dict_set k' v' (dict_set k v d).
Proof.
  intros Hne. unfold dict_has.
  induction d as [|[a x] d IH]; [done|]. cbn [dict_set dict_get].
  destruct (String.eqb_spec k a) as [->|Hka].
  - intros _. destruct (String.eqb_spec k' a) as [->|Hk'a]; [done|].
    cbn [dict_set]. rewrite String.eqb_refl.
    by destruct (String.eqb_spec k' a).
  - intros H. destruct (String.eqb_spec k' a) as [->|Hk'a]; cbn [dict_set].
    + destruct (String.eqb_spec k a); [done|]. by rewrite String.eqb_refl.
    + destruct (String.eqb_spec k a); [done|].
      destruct (String.eqb_spec k' a); [done|]. by rewrite IH.
Qed.

Lemma shaped_rewrite_assets d :
  shaped (rewrite_assets d) = rewrite_assets (shaped d).
Proof.
  unfold shaped, with_shape, rewrite_assets.
  destruct (dict_get "assets" d) as [[ | | | | | |A| | | ]|] eqn:Ha;
    destruct (dict_get "geometry" d) as [g|] eqn:Hg;
    rewrite ?(dict_get_set_ne "geometry" "assets") by done;
    rewrite ?(dict_get_set_ne "assets" "geometry") by done;
    rewrite ?Ha, ?Hg; try done.
  apply dict_set_comm; [done|]. unfold dict_has.
  by rewrite Hg.
Qed.

Lemma has_shape_rewrite_assets shapely_accepts d :
  has_shape shapely_accepts (rewrite_assets d) = has_shape shapely_accepts d.
Proof.
  unfold has_shape, rewrite_assets.
  destruct (dict_get "assets" d) as [[ | | | | | |A| | | ]|]; try done.
  by rewrite (dict_get_set_ne "assets" "geometry").
Qed.

Lemma not_under_assets f : f ∈ timestamp_fields -> ~ under "assets" f.
Proof.
  unfold timestamp_fields. intros Hf Hu.
  repeat (apply elem_of_cons in Hf as [->|Hf]);
    try (by inversion Hf);
    destruct Hu as [Heq|[rest Heq]]; cbv in Heq; discriminate.
Qed.

Lemma well_formed_rewrite_assets shapely_accepts conv d :
  well_formed shapely_accepts conv (rewrite_assets d)
  = well_formed shapely_accepts conv d.
Proof.
  unfold well_formed. rewrite has_shape_rewrite_assets.
  rewrite (attribute_rewrite_assets "properties.datetime")
    by (apply not_under_assets, list_elem_of_here).
  f_equal. unfold timestamp_fields. cbn [forallb].
  rewrite !attribute_rewrite_assets; [done | | |].
  - apply not_under_assets. do 2 apply list_elem_of_further. apply list_elem_of_here.
  - apply not_under_assets. apply list_elem_of_further, list_elem_of_here.
  - apply not_under_assets, list_elem_of_here.
Qed.

Lemma rewrite_store_holds items : forall h ds,
  NoDup items -> holds h items ds ->
  holds (rewrite_store items h) items (map rewrite_assets ds).
Proof.
  induction items as [|item items IH]; intros h ds Hnd Hh.
  - inversion Hh; subst. constructor.
  - inversion Hh as [|? d ? ds' Hitem Hrest]; subst.
    pose proof (NoDup_cons_1_1 _ _ Hnd) as Hfresh.
    apply NoDup_cons_1_2 in Hnd.
    cbn [rewrite_store foldl map].
    fold (rewrite_store items (rewrite_record h item)).
    constructor.
    + rewrite rewrite_store_lookup by done. by apply rewrite_record_at.
    + apply IH; [done|]. clear -Hrest Hfresh. unfold holds in *.
      induction Hrest as [|l d' items ds' Hl _ IHr]; constructor.
      * rewrite rewrite_record_lookup; [done|].
        intros ->. apply Hfresh, list_elem_of_here.
      * apply IHr. intros Hin. by apply Hfresh, list_elem_of_further.
Qed.

Lemma column_of_rows_ext f ds ds' :
  Forall2 (fun d d' => attribute f (shaped d) = attribute f (shaped d')) ds ds' ->
  dict_get f (df_columns (DataFrame_of_records (rows_of ds)))
  = dict_get f (df_columns (DataFrame_of_records (rows_of ds'))).
Proof.
  intros H.
  rewrite (column_of_rows f (fun d => attribute f (shaped d)) ds) by done.
  rewrite (column_of_rows f (fun d => attribute f (shaped d)) ds') by done.
  assert (map (fun d => match attribute f (shaped d) with
                          | Some v => v | None => VNaN end) ds
          = map (fun d => match attribute f (shaped d) with
                          | Some v => v | None => VNaN end) ds') as ->.
  { induction H as [|d d' ds ds' Hd _ IH]; [done|].
    cbn [map]. by rewrite Hd, IH. }
  assert (existsb (fun d => match attribute f (shaped d) with
                            | Some _ => true | None => false end) ds
          = existsb (fun d => match attribute f (shaped d) with
                              | Some _ => true | None => false end) ds') as ->.
  { induction H as [|d d' ds ds' Hd _ IH]; [done|].
    cbn [existsb]. by rewrite Hd, IH. }
  done.
Qed.

Lemma rewritten_rows f ds :
  ~ under "assets" f ->
  Forall2 (fun d d' => attribute f (shaped d) = attribute f (shaped d'))
    (map rewrite_assets ds) ds.
Proof.
  intros Hf. induction ds as [|d ds IH]; constructor; [|done].
  by rewrite shaped_rewrite_assets, attribute_rewrite_assets.
Qed.

Lemma column_of_rewrite_assets f ds :
  ~ under "assets" f -> column_of f (map rewrite_assets ds) = column_of f ds.
Proof.
  intros Hf. unfold column_of. rewrite map_map. apply map_ext. intros d.
  unfold attribute_cell. by rewrite attribute_rewrite_assets.
Qed.

Lemma any_has_rewrite_assets f ds :
  ~ under "assets" f -> any_has f (map rewrite_assets ds) = any_has f ds.
Proof.
  intros Hf. unfold any_has. induction ds as [|d ds IH]; [done|].
  cbn [map existsb]. by rewrite attribute_rewrite_assets, IH.
Qed.

Section Pipeline.

Variable shapely_accepts : value -> bool.
Variable conv : value -> option Timestamp.
Variable in_column : list value -> option (value -> option Timestamp).

Local Abbreviation run :=
  (items_to_geodataframe shapely_accepts conv in_column).

Lemma pandas_converts_rewrite_assets ds :
  pandas_converts conv in_column ds ->
  pandas_converts conv in_column (map rewrite_assets ds).
Proof.
  intros Hpd f Hf.
  rewrite any_has_rewrite_assets, column_of_rewrite_assets
    by (by apply not_under_assets).
  by apply Hpd.
Qed.

Lemma expected_frame_column_ext f ds ds' :
  dict_get f (df_columns (DataFrame_of_records (rows_of ds)))
  = dict_get f (df_columns (DataFrame_of_records (rows_of ds'))) ->
  dict_get f (df_columns (expected_frame in_column ds))
  = dict_get f (df_columns (expected_frame in_column ds')).
Proof.
  intros H.
  destruct (String.eqb_spec f "properties.datetime") as [->|Hd].
  { unfold expected_frame. cbn [df_columns]. by rewrite !dict_get_pop_eq. }
  rewrite !expected_column by done.
  destruct (String.eqb_spec f "properties.updated") as [->|Hu].
  { rewrite !parse_column_same. f_equal.
    by rewrite !(parse_column_other _ _ "properties.updated"). }
  rewrite !(parse_column_other _ "properties.updated") by done.
  destruct (String.eqb_spec f "properties.created") as [->|Hc].
  { rewrite !parse_column_same. by f_equal. }
  by rewrite !(parse_column_other _ "properties.created").
Qed.

Lemma expected_frame_index_ext ds ds' :
  column_of "properties.datetime" ds = column_of "properties.datetime" ds' ->
  df_index (expected_frame in_column ds) = df_index (expected_frame in_column ds').
Proof.
  intros H. unfold expected_frame. cbn [df_index].
  by rewrite !acquisition_cells, H.
Qed.

(** X13. The cell "update URLs to use s3 ... items_to_geodataframe(items_dict)":
    on well-formed items with well-shaped assets whose timestamp columns
    pandas converts, both steps run to their end, and the footprint table
    is the one the unrewritten items give in its index and in every column
    outside [assets]. *)
Theorem update_urls_then_geodataframe h items ds :
  NoDup items ->
  items <> [] ->
  holds h items ds ->
  Forall assets_ok ds ->
  Forall (fun d => well_formed shapely_accepts conv d = true) ds ->
  pandas_converts conv in_column ds ->
  exists gdf0 h0 h1 gdf h2,
    run items h = (Ok gdf0, h0)
    /\ update_urls_to_s3 items h = (Ok tt, h1)
    /\ run items h1 = (Ok gdf, h2)
    /\ df_index gdf = df_index gdf0
    /\ forall f, ~ under "assets" f ->
                 dict_get f (df_columns gdf) = dict_get f (df_columns gdf0).
Proof.
  intros Hnd Hne Hh Hassets Hwf Hpd.
  assert (records_ok assets_ok h items) as Hrec.
  { clear -Hh Hassets. revert Hassets.
    induction Hh as [|item d items ds Hd _ IH]; intros Hassets; constructor;
      inversion Hassets; subst; [by exists d | by apply IH]. }
  assert (Forall (fun d => well_formed shapely_accepts conv d = true)
            (map rewrite_assets ds)) as Hwf'.
  { rewrite Forall_map. eapply Forall_impl; [|exact Hwf].
    intros d Hd. simpl. by rewrite well_formed_rewrite_assets. }
  eexists _, _, _, _, _.
  split; [by apply items_to_geodataframe_ok|].
  split; [by apply update_urls_to_s3_run|].
  split.
  { apply items_to_geodataframe_ok; [done | | exact Hwf' |].
    - by apply rewrite_store_holds.
    - by apply pandas_converts_rewrite_assets. }
  split.
  - apply expected_frame_index_ext, column_of_rewrite_assets, not_under_assets,
      list_elem_of_here.
  - intros f Hf. by apply expected_frame_column_ext, column_of_rows_ext,
      rewritten_rows.
Qed.

End Pipeline.

Lemma update_urls_then_geodataframe_witness :
  exists gdf0 h0 h1 gdf h2,
    Sample.normalize [0; 1]%nat Sample.catalog = (Ok gdf0, h0)
    /\ update_urls_to_s3 [0; 1]%nat Sample.catalog = (Ok tt, h1)
    /\ Sample.normalize [0; 1]%nat h1 = (Ok gdf, h2)
    /\ df_index gdf = df_index gdf0
    /\ forall f, ~ under "assets" f ->
                 dict_get f (df_columns gdf) = dict_get f (df_columns gdf0).
Proof.
  apply (update_urls_then_geodataframe
           Sample.geojson_accepts Sample.iso8601_scalar Sample.one_offset
           Sample.catalog [0; 1]%nat [Sample.record1; Sample.record2]).
  - apply (bool_decide_unpack _). vm_compute. reflexivity.
  - discriminate.
  - repeat constructor.
  - repeat constructor.
    + eexists. split; [reflexivity|]. split.
      * apply (bool_decide_unpack _). vm_compute. reflexivity.
      * repeat constructor.
    + eexists. split; [reflexivity|]. split.
      * apply (bool_decide_unpack _). vm_compute. reflexivity.
      * repeat constructor.
  - repeat constructor.
  - sample_converts.
Defined.

(** ** NDVI where the 16-bit difference wraps *)

Module NdviWrap.
Import Ndvi.

Local Abbreviation prec := 53.
Local Abbreviation emax := 1024.

(** *** The number of binary digits *)

Lemma digits2_pos_upper p : Zpos p < 2 ^ Zpos (digits2_pos p).
Proof.
  induction p as [p IH|p IH|]; simpl digits2_pos; [| |done].
  - rewrite Pos2Z.inj_succ, Z.pow_succ_r by lia. lia.
  - rewrite Pos2Z.inj_succ, Z.pow_succ_r by lia. lia.
Qed.

Lemma digits2_pos_eq p d :
  2 ^ (d - 1) <= Zpos p < 2 ^ d -> Zpos (digits2_pos p) = d.
Proof.
  intros [Hlo Hhi].
  pose proof (NdviFacts.digits2_pos_lower p) as Hl.
  pose proof (digits2_pos_upper p) as Hu.
  set (D := Zpos (digits2_pos p)) in *.
  destruct (Z.lt_trichotomy D d) as [Hlt|[Heq|Hgt]]; [|done|].
  - assert (2 ^ D <= 2 ^ (d - 1)) by (apply Z.pow_le_mono_r; lia). lia.
  - assert (2 ^ d <= 2 ^ (D - 1)) by (apply Z.pow_le_mono_r; lia). lia.
Qed.

Lemma digits2_pos_bounds p d :
  Zpos (digits2_pos p) = d -> 2 ^ (d - 1) <= Zpos p < 2 ^ d.
Proof.
  intros <-. split; [apply NdviFacts.digits2_pos_lower | apply digits2_pos_upper].
Qed.

Lemma iter_xO p k : Zpos (Pos.iter xO p k) = Zpos p * 2 ^ Zpos k.
Proof.
  induction k as [|k IH] using Pos.peano_ind.
  - simpl. lia.
  - rewrite Pos.iter_succ, Pos2Z.inj_xO, IH, Pos2Z.inj_succ, Z.pow_succ_r by lia.
    lia.
Qed.

(** *** Positive 16-bit integers as normal numbers *)

Lemma float64_of_pos_normal p :
  Zpos p < 65536 ->
  exists m e,
    float64_of_Z (Zpos p) = S754_finite false m e
    /\ Zpos (digits2_pos m) = 53
    /\ -52 <= e <= -37
    /\ Zpos m = Zpos p * 2 ^ (- e).
Proof.
  intros Hp. pose proof (NdviFacts.digits2_pos_uint16 p Hp) as Hd.
  unfold float64_of_Z, binary_normalize, binary_round, shl_align.
  assert (fexp prec emax (Zpos (digits2_pos p) + 0) = Zpos (digits2_pos p) - 53)
    as -> by (unfold fexp, emin; lia).
  destruct (Zpos (digits2_pos p) - 53 - 0) as [|k|k] eqn:Hk; [lia | lia |].
  exists (Pos.iter xO p k), (Zpos (digits2_pos p) - 53).
  assert (Zpos (digits2_pos (Pos.iter xO p k)) = 53) as Hdig
    by (rewrite NdviFacts.digits2_pos_shift; lia).
  split; [|split; [done|split; [lia|]]].
  - apply NdviFacts.binary_round_aux_canonical; [done | lia].
  - rewrite iter_xO. f_equal. f_equal. lia.
Qed.

(** *** Rounding a quotient of normal numbers *)

Lemma loc_of_record m l : loc_of_shr_record (shr_record_of_loc m l) = l.
Proof. by destruct l as [|[]]. Qed.

Lemma shr_record_m m l : shr_m (shr_record_of_loc m l) = m.
Proof. by destruct l as [|[]]. Qed.

Lemma shr_1_half p r s :
  shr_m (shr_1 (Build_shr_record (Zpos p) r s)) = Zpos p / 2.
Proof.
  destruct p as [p|p|]; cbn [shr_1 shr_m].
  - apply (Z.div_unique _ 2 _ 1); lia.
  - apply (Z.div_unique _ 2 _ 0); lia.
  - reflexivity.
Qed.

Lemma shr_fexp_53 p e l :
  Zpos (digits2_pos p) = 53 -> -1074 <= e ->
  shr_fexp prec emax (Zpos p) e l = (shr_record_of_loc (Zpos p) l, e).
Proof.
  intros Hd He. unfold shr_fexp, Zdigits2. rewrite Hd.
  assert (fexp prec emax (53 + e) - e = 0) as ->
    by (unfold fexp, emin; lia).
  reflexivity.
Qed.

Lemma shr_fexp_54 p e l :
  Zpos (digits2_pos p) = 54 -> -1075 <= e ->
  shr_fexp prec emax (Zpos p) e l
  = (shr_1 (shr_record_of_loc (Zpos p) l), e + 1).
Proof.
  intros Hd He. unfold shr_fexp, Zdigits2. rewrite Hd.
  assert (fexp prec emax (54 + e) - e = 1) as ->
    by (unfold fexp, emin; lia).
  reflexivity.
Qed.

Lemma round_nearest_even_step m l :
  round_nearest_even m l = m \/ round_nearest_even m l = m + 1.
Proof.
  unfold round_nearest_even. destruct l as [|[]]; try tauto.
  destruct (Z.even m); tauto.
Qed.

(** The second half of [binary_round_aux]: a mantissa of 53 digits stays,
    and [2^53] becomes [2^52] with the next exponent. *)
Lemma shr_fexp_rounded m e :
  2 ^ 52 <= m <= 2 ^ 53 -> -1074 <= e ->
  exists mrs m' e',
    shr_fexp prec emax m e loc_Exact = (mrs, e')
    /\ shr_m mrs = Zpos m'
    /\ 2 ^ 52 <= Zpos m' < 2 ^ 53
    /\ e <= e' <= e + 1.
Proof.
  intros [Hlo Hhi] He.
  destruct m as [|p|p]; [lia | | lia].
  destruct (Z.eq_dec (Zpos p) (2 ^ 53)) as [Heq|Hne].
  - assert (p = 9007199254740992%positive) as -> by lia.
    rewrite shr_fexp_54 by (done || lia).
    eexists _, 4503599627370496%positive, _. split; [reflexivity|].
    split; [reflexivity|]. split; [done | lia].
  - rewrite shr_fexp_53 by (try apply digits2_pos_eq; lia).
    eexists _, p, _. split; [reflexivity|].
    split; [reflexivity|]. lia.
Qed.

Lemma binary_round_aux_normal q e l :
  2 ^ 52 <= q < 2 ^ 54 -> -1074 <= e <= 900 ->
  exists m e',
    binary_round_aux prec emax false q e l = S754_finite false m e'
    /\ 2 ^ 52 <= Zpos m < 2 ^ 53
    /\ e <= e'
    /\ (2 ^ 53 <= q -> e + 1 <= e').
Proof.
  intros [Hlo Hhi] He.
  destruct q as [|p|p]; [lia | | lia].
  unfold binary_round_aux.
  destruct (Z_lt_le_dec (Zpos p) (2 ^ 53)) as [Hlt|Hge].
  - rewrite shr_fexp_53 by (try apply digits2_pos_eq; lia).
    rewrite loc_of_record, shr_record_m.
    destruct (shr_fexp_rounded (round_nearest_even (Zpos p) l) e)
      as (mrs & m' & e' & -> & Hm & Hm' & He'); [|lia|].
    { destruct (round_nearest_even_step (Zpos p) l) as [-> | ->]; lia. }
    rewrite Hm. exists m', e'.
    destruct (Z.leb_spec e' (emax - prec)); [|lia].
    split; [done|]. split; [done|]. split; lia.
  - rewrite shr_fexp_54 by (try apply digits2_pos_eq; lia).
    set (mrs1 := shr_1 (shr_record_of_loc (Zpos p) l)).
    assert (shr_m mrs1 = Zpos p / 2) as Hhalf.
    { unfold mrs1. destruct l as [|[]]; apply shr_1_half. }
    assert (2 ^ 52 <= Zpos p / 2 < 2 ^ 53) as Hrange.
    { split; [apply Z.div_le_lower_bound | apply Z.div_lt_upper_bound]; lia. }
    destruct (shr_fexp_rounded
                (round_nearest_even (shr_m mrs1) (loc_of_shr_record mrs1)) (e + 1))
      as (mrs & m' & e' & -> & Hm & Hm' & He'); [|lia|].
    { rewrite Hhalf.
      destruct (round_nearest_even_step (Zpos p / 2) (loc_of_shr_record mrs1))
        as [-> | ->]; lia. }
    rewrite Hm. exists m', e'.
    destruct (Z.leb_spec e' (emax - prec)); [|lia].
    split; [done|]. split; [done|]. split; lia.
Qed.

(** *** A quotient that is at least one *)

Lemma SFdiv_at_least_one mx ex my ey :
  Zpos (digits2_pos mx) = 53 -> Zpos (digits2_pos my) = 53 ->
  -52 <= ex <= -37 -> -52 <= ey <= -37 ->
  ey < ex \/ (ex = ey /\ Zpos my <= Zpos mx) ->
  exists m e,
    SFdiv prec emax (S754_finite false mx ex) (S754_finite false my ey)
    = S754_finite false m e
    /\ 2 ^ 52 <= Zpos m < 2 ^ 53
    /\ -52 <= e.
Proof.
  intros Hdx Hdy Hex Hey Hge.
  apply digits2_pos_bounds in Hdx as Hmx. apply digits2_pos_bounds in Hdy as Hmy.
  unfold SFdiv, SFdiv_core_binary, Zdigits2. rewrite Hdx, Hdy.
  assert (Z.min (fexp prec emax (53 + ex - (53 + ey))) (ex - ey) = ex - ey - 53)
    as -> by (unfold fexp, emin; lia).
  replace (ex - ey - (ex - ey - 53)) with 53 by lia.
  rewrite Z.shiftl_mul_pow2 by lia.
  pose proof (Z_div_mod (Zpos mx * 2 ^ 53) (Zpos my) ltac:(lia)) as Hdiv.
  destruct (Z.div_eucl (Zpos mx * 2 ^ 53) (Zpos my)) as [q r].
  destruct Hdiv as [Hq Hr]. cbn [xorb].
  assert (2 ^ 52 <= q < 2 ^ 54) as Hrange by nia.
  destruct (binary_round_aux_normal q (ex - ey - 53) (new_location (Zpos my) r)
              Hrange ltac:(lia)) as (m & e & -> & Hm & He & He1).
  exists m, e. split; [done|]. split; [done|].
  destruct Hge as [Hlt|[-> Hle]]; [lia|].
  assert (2 ^ 53 <= q) by nia. lia.
Qed.

Lemma clip_at_least_one m e :
  2 ^ 52 <= Zpos m -> -52 <= e ->
  clip (S754_finite false m e) (float64_of_Z 0) (float64_of_Z 1)
  = float64_of_Z 1.
Proof.
  intros Hm He. unfold clip, np_maximum, np_minimum.
  rewrite NdviFacts.float64_of_zero, NdviFacts.float64_of_one.
  change (SFleb (S754_zero false) (S754_finite false m e)) with true.
  cbn [orb isnan]. rewrite orb_false_r.
  unfold SFleb, SFcompare.
  destruct (Z.compare_spec e (-52)) as [-> | Hlt | Hgt]; [|lia|done].
  rewrite Pos.compare_cont_spec. cbn [Pos.switch_Eq].
  destruct (Pos.compare_spec m 4503599627370496) as [-> | Hlt | Hgt];
    [reflexivity | | reflexivity].
  assert (Zpos m < 2 ^ 52) as Hlt' by exact Hlt. clear Hlt. lia.
Qed.

(** Where the 16-bit difference is at least the 16-bit sum, the index is
    exactly [1.0]. *)
Lemma ndvi_saturates nir red :
  0 < uint16_add nir red <= uint16_sub nir red ->
  ndvi nir red = float64_of_Z 1.
Proof.
  intros [Hpos Hle]. unfold ndvi, true_divide.
  pose proof (NdviFacts.uint16_add_range nir red) as Hd.
  pose proof (NdviFacts.uint16_sub_range nir red) as Hn.
  destruct (uint16_add nir red) as [|y|y]; [lia | | lia].
  destruct (uint16_sub nir red) as [|x|x]; [lia | | lia].
  destruct (float64_of_pos_normal y) as (my & ey & -> & Hdy & Hey & Hmy); [lia|].
  destruct (float64_of_pos_normal x) as (mx & ex & -> & Hdx & Hex & Hmx); [lia|].
  apply digits2_pos_bounds in Hdx as Hbx. apply digits2_pos_bounds in Hdy as Hby.
  destruct (SFdiv_at_least_one mx ex my ey Hdx Hdy Hex Hey)
    as (m & e & -> & Hm & He).
  - destruct (Z.lt_trichotomy ey ex) as [Hlt|[Heq|Hgt]]; [by left | right | exfalso].
    + split; [done|]. rewrite Hmx, Hmy, Heq.
      apply Z.mul_le_mono_nonneg_r; [apply Z.pow_nonneg|]; lia.
    + assert (2 ^ (- ex) = 2 ^ (- ey) * 2 ^ (ey - ex)) as Hpow
        by (rewrite <- Z.pow_add_r by lia; f_equal; lia).
      assert (2 <= 2 ^ (ey - ex)) as H2
        by (change 2 with (2 ^ 1) at 1; apply Z.pow_le_mono_r; lia).
      assert (0 < 2 ^ (- ey)) as Hp by (apply Z.pow_pos_nonneg; lia).
      rewrite Hpow in Hmx. nia.
  - apply clip_at_least_one; lia.
Qed.

(** Where the 16-bit sum is zero and the difference is not, the division
    is by zero and the clipped quotient is [1.0]. *)
Lemma ndvi_divides_by_zero nir red :
  uint16_add nir red = 0 -> uint16_sub nir red <> 0 ->
  ndvi nir red = float64_of_Z 1.
Proof.
  intros Hd Hn. unfold ndvi, true_divide. rewrite Hd.
  pose proof (NdviFacts.uint16_sub_range nir red) as Hr.
  destruct (uint16_sub nir red) as [|x|x]; [done | | lia].
  destruct (NdviFacts.float64_of_pos x) as (mx & ex & ->); [lia|].
  reflexivity.
Qed.

(** X14. A pixel whose red band is above its near-infrared band, the ratio being
    negative, does not come out as [0]: the 16-bit difference wraps, and as
    long as the red band is at most [32768] the index is exactly [1.0]. *)
Theorem ndvi_red_above_nir nir red :
  uint16 nir -> uint16 red -> nir < red -> red <= 32768 ->
  ndvi nir red = float64_of_Z 1.
Proof.
  unfold uint16. intros Hn Hr Hlt Hle. apply ndvi_saturates.
  assert (uint16_add nir red = nir + red) as ->
    by (unfold uint16_add; apply Z.mod_small; lia).
  assert (uint16_sub nir red = nir - red + 65536) as ->
    by (unfold uint16_sub; symmetry; apply (Z.mod_unique _ _ (-1)); lia).
  lia.
Qed.

(** X15. Where the two bands add up to [65536] the 16-bit sum is [0]; unless
    both are [32768] the index is then [1.0]. *)
Theorem ndvi_sum_wraps_to_zero nir red :
  uint16 nir -> uint16 red -> nir + red = 65536 -> nir <> red ->
  ndvi nir red = float64_of_Z 1.
Proof.
  unfold uint16. intros Hn Hr Hsum Hne. apply ndvi_divides_by_zero.
  - unfold uint16_add. by rewrite Hsum.
  - unfold uint16_sub. intros H0.
    apply Z.mod_divide in H0 as [q Hq]; lia.
Qed.

(** X16. On any pixel the index is [nan] or a number of [[0, 1]]: never negative,
    never infinite. *)
Theorem ndvi_nan_or_unit nir red :
  ndvi nir red = S754_nan \/ in_unit_interval (ndvi nir red) = true.
Proof.
  destruct (Z.eq_dec (uint16_add nir red) 0) as [Hd|Hd].
  - destruct (Z.eq_dec (uint16_sub nir red) 0) as [Hn|Hn].
    + left. unfold ndvi, true_divide. by rewrite Hd, Hn.
    + right. by rewrite (ndvi_divides_by_zero nir red Hd Hn).
  - right. by apply NdviFacts.ndvi_in_unit_interval.
Qed.

(** X17. Equal bands below [32768] give [0.0]. *)
Theorem ndvi_equal_bands nir :
  0 < nir < 32768 -> ndvi nir nir = S754_zero false.
Proof.
  intros Hn. unfold ndvi, true_divide.
  assert (uint16_sub nir nir = 0) as ->
    by (unfold uint16_sub; by rewrite Z.sub_diag).
  assert (uint16_add nir nir = nir + nir) as ->
    by (unfold uint16_add; apply Z.mod_small; lia).
  destruct (nir + nir) as [|y|y] eqn:Hy; [lia | | lia].
  destruct (NdviFacts.float64_of_pos y) as (my & ey & ->); [lia|].
  reflexivity.
Qed.

Lemma red_above_nir_witness : ndvi 100 200 = float64_of_Z 1.
Proof. apply (ndvi_red_above_nir 100 200); unfold uint16; lia. Defined.

Lemma sum_wraps_to_zero_witness : ndvi 40000 25536 = float64_of_Z 1.
Proof. apply (ndvi_sum_wraps_to_zero 40000 25536); unfold uint16; lia. Defined.

Lemma equal_bands_witness : ndvi 1200 1200 = S754_zero false.
Proof. apply (ndvi_equal_bands 1200). lia. Defined.

Lemma nan_pixels_witness :
  ndvi 32768 32768 = S754_nan
  <-> 32768 = 32768 /\ (32768 = 0 \/ 32768 = 32768).
Proof. apply (NdviFacts.ndvi_nan_pixels 32768 32768); unfold uint16; lia. Defined.

End NdviWrap.

(** ** [set_credentials] *)

Module CredentialsFacts.
Import Credentials.

Section Library.

Variable read : string -> outcome ConfigParser.
Variable expanduser : environ -> string -> string.
Variable interpolate :
  ConfigParser -> string -> string -> string -> outcome string.

Local Abbreviation run := (set_credentials read expanduser interpolate).
Local Abbreviation file_of cfile env :=
  (or_else cfile (expanduser env "~/.aws/credentials")).

Lemma plain_value_inv v :
  plain_value v = true -> str_contains "%" v = false /\ has_nul v = false.
Proof.
  unfold plain_value. intros H. apply andb_prop in H as [H1 H2].
  split; [by destruct (str_contains "%" v) | by destruct (has_nul v)].
Qed.

(** An option written in the section of the profile is what [cp[profile]]
    gives, when its value needs no interpolation. *)
Lemma lookup_in_section cp profile options key v :
  profile <> "" -> profile <> default_section ->
  dict_get profile (_sections cp) = Some options ->
  dict_get (optionxform key) options = Some v ->
  str_contains "%" v = false ->
  lookup interpolate cp profile key = inl v.
Proof.
  intros Hne Hdef Hsec Hopt Hv.
  unfold lookup, has_section, dict_has, has_option, get, before_get, dict_has.
  rewrite Hsec.
  destruct (String.eqb_spec profile default_section) as [|_]; [done|].
  destruct (String.eqb_spec profile "") as [|_]; [done|].
  cbn [negb andb orb]. by rewrite Hopt, Hv.
Qed.

(** An option written neither in the section nor in the defaults is a
    [KeyError] naming the option. *)
Lemma lookup_missing_option cp profile options key :
  profile <> "" -> profile <> default_section ->
  dict_get profile (_sections cp) = Some options ->
  dict_get (optionxform key) options = None ->
  dict_get (optionxform key) (_defaults cp) = None ->
  lookup interpolate cp profile key = inr (EKeyError key).
Proof.
  intros Hne Hdef Hsec Hopt Hd.
  unfold lookup, has_section, dict_has, has_option, dict_has.
  rewrite Hsec.
  destruct (String.eqb_spec profile default_section) as [|_]; [done|].
  destruct (String.eqb_spec profile "") as [|_]; [done|].
  cbn [negb andb orb]. by rewrite Hopt, Hd.
Qed.

(** The three assignments of [set_credentials], run in order. *)
Lemma set_credentials_stores profile region endpoint cfile env cp options
  key_id secret :
  read (file_of cfile env) = inl cp ->
  profile <> "" -> profile <> default_section ->
  dict_get profile (_sections cp) = Some options ->
  dict_get "aws_access_key_id" options = Some key_id ->
  dict_get "aws_secret_access_key" options = Some secret ->
  plain_value key_id = true -> plain_value secret = true ->
  has_nul (endpoint_of region endpoint) = false ->
  run profile region endpoint cfile env
  = (inl tt,
     dict_set "AWS_S3_ENDPOINT" (endpoint_of region endpoint)
       (dict_set "AWS_SECRET_ACCESS_KEY" secret
          (dict_set "AWS_ACCESS_KEY_ID" key_id env))).
Proof.
  intros Hread Hne Hdef Hsec Hid Hsecret Hpid Hpsec Hend.
  apply plain_value_inv in Hpid as [Hid1 Hid2].
  apply plain_value_inv in Hpsec as [Hsec1 Hsec2].
  unfold set_credentials. rewrite Hread.
  rewrite (lookup_in_section cp profile options _ key_id) by done.
  unfold setenv at 1. rewrite Hid2.
  rewrite (lookup_in_section cp profile options _ secret) by done.
  unfold setenv at 1. rewrite Hsec2.
  unfold setenv. fold (endpoint_of region endpoint). rewrite Hend.
  reflexivity.
Qed.

(** X19. With a profile that holds both keys, the call stores the key id,
    the secret and the endpoint under the three upper-case names and
    leaves every other variable of the environment as it was.  The
    endpoint is the argument when it is a non-empty string, and
    [s3.<region>.amazonaws.com] otherwise. *)
Theorem set_credentials_sets profile region endpoint cfile env cp options
  key_id secret :
  read (file_of cfile env) = inl cp ->
  profile <> "" -> profile <> default_section ->
  dict_get profile (_sections cp) = Some options ->
  dict_get "aws_access_key_id" options = Some key_id ->
  dict_get "aws_secret_access_key" options = Some secret ->
  plain_value key_id = true -> plain_value secret = true ->
  has_nul (endpoint_of region endpoint) = false ->
  exists env',
    run profile region endpoint cfile env = (inl tt, env')
    /\ dict_get "AWS_ACCESS_KEY_ID" env' = Some key_id
    /\ dict_get "AWS_SECRET_ACCESS_KEY" env' = Some secret
    /\ dict_get "AWS_S3_ENDPOINT" env' = Some (endpoint_of region endpoint)
    /\ (forall k, k <> "AWS_ACCESS_KEY_ID" -> k <> "AWS_SECRET_ACCESS_KEY" ->
                  k <> "AWS_S3_ENDPOINT" -> dict_get k env' = dict_get k env)
    /\ (falsy endpoint = true ->
        endpoint_of region endpoint = "s3." +:+ region +:+ ".amazonaws.com")
    /\ (forall e, endpoint = Some e -> e <> "" -> endpoint_of region endpoint = e).
Proof.
  intros Hread Hne Hdef Hsec Hid Hsecret Hpid Hpsec Hend.
  eexists. split; [by eapply set_credentials_stores|].
  repeat split.
  - rewrite !dict_get_set_ne by done. apply dict_get_set_eq.
  - rewrite dict_get_set_ne by done. apply dict_get_set_eq.
  - apply dict_get_set_eq.
  - intros k H1 H2 H3. by rewrite !dict_get_set_ne by congruence.
  - by destruct endpoint as [[|]|].
  - intros e -> He. by destruct e.
Qed.

(** X20. When the file gives no section for the profile (a missing file
    gives none at all), the call raises [KeyError] naming the profile and
    the environment is untouched. *)
Theorem set_credentials_unknown_profile profile region endpoint cfile env cp :
  read (file_of cfile env) = inl cp ->
  profile <> default_section ->
  has_section cp profile = false ->
  run profile region endpoint cfile env = (inr (EKeyError profile), env).
Proof.
  intros Hread Hdef Hsec. unfold set_credentials. rewrite Hread.
  unfold lookup. rewrite Hsec.
  by destruct (String.eqb_spec profile default_section).
Qed.

(** X21. With a profile that holds the key id but no secret, the call raises
    [KeyError] for the secret after it has already stored the key id:
    [AWS_ACCESS_KEY_ID] is overwritten, the secret and the endpoint are not
    set. *)
Theorem set_credentials_partial profile region endpoint cfile env cp options
  key_id :
  read (file_of cfile env) = inl cp ->
  profile <> "" -> profile <> default_section ->
  dict_get profile (_sections cp) = Some options ->
  dict_get "aws_access_key_id" options = Some key_id ->
  plain_value key_id = true ->
  dict_get "aws_secret_access_key" options = None ->
  dict_get "aws_secret_access_key" (_defaults cp) = None ->
  run profile region endpoint cfile env
  = (inr (EKeyError "aws_secret_access_key"),
     dict_set "AWS_ACCESS_KEY_ID" key_id env).
Proof.
  intros Hread Hne Hdef Hsec Hid Hpid Hno Hnod.
  apply plain_value_inv in Hpid as [Hid1 Hid2].
  unfold set_credentials. rewrite Hread.
  rewrite (lookup_in_section cp profile options _ key_id) by done.
  unfold setenv at 1. rewrite Hid2.
  by rewrite (lookup_missing_option cp profile options) by done.
Qed.

(** X22. After the two environment cells and [set_credentials()], the
    environment handed to the workers holds the four GDAL settings,
    [AWS_REQUEST_PAYER=requester] and the credentials of the profile
    [default]. *)
Theorem worker_environment_complete env cp options key_id secret :
  read (expanduser
          (environ_update (environ_update env gdal_env) requester_pays_env)
          "~/.aws/credentials") = inl cp ->
  dict_get "default" (_sections cp) = Some options ->
  dict_get "aws_access_key_id" options = Some key_id ->
  dict_get "aws_secret_access_key" options = Some secret ->
  plain_value key_id = true -> plain_value secret = true ->
  exists env',
    worker_environment read expanduser interpolate env = (inl tt, env')
    /\ Forall (fun kv => dict_get (fst kv) env' = Some (snd kv))
         (gdal_env ++ requester_pays_env
          ++ [("AWS_ACCESS_KEY_ID", key_id);
              ("AWS_SECRET_ACCESS_KEY", secret);
              ("AWS_S3_ENDPOINT", "s3.us-west-2.amazonaws.com")])%list.
Proof.
  intros Hread Hsec Hid Hsecret Hpid Hpsec.
  unfold worker_environment, set_credentials_default.
  set (env0 := environ_update (environ_update env gdal_env) requester_pays_env) in *.
  eexists. split.
  { by apply (set_credentials_stores "default" "us-west-2" None None env0 cp
                options key_id secret). }
  assert (forall k v, In (k, v) (gdal_env ++ requester_pays_env)%list ->
                      dict_get k env0 = Some v) as Hcells.
  { intros k v Hin. unfold env0, environ_update, gdal_env, requester_pays_env.
    cbn [dict_update fold_left fst snd].
    simpl in Hin.
    repeat (destruct Hin as [[= <- <-]|Hin];
            [by rewrite ?dict_get_set_ne, ?dict_get_set_eq by done|]).
    done. }
  rewrite app_assoc. apply Forall_app. split.
  - apply Forall_forall. intros [k v] Hin. cbn [fst snd].
    rewrite !dict_get_set_ne; [by apply Hcells| | |];
      intros <-; simpl in Hin;
      repeat (destruct Hin as [Hin|Hin]; [discriminate Hin|]); done.
  - repeat constructor; cbn [fst snd].
    + rewrite !dict_get_set_ne by done. apply dict_get_set_eq.
    + rewrite dict_get_set_ne by done. apply dict_get_set_eq.
    + apply dict_get_set_eq.
Qed.

End Library.

Lemma set_credentials_sets_witness :
  exists env',
    sample_set_credentials "default" "eu-west-1" (Some "minio:9000") None
      [("HOME", "/home/user"); ("AWS_ACCESS_KEY_ID", "stale")]
    = (inl tt, env')
    /\ dict_get "AWS_ACCESS_KEY_ID" env' = Some "AKIDEXAMPLE"
    /\ dict_get "AWS_SECRET_ACCESS_KEY" env' = Some "wJalrXUtnFEMI"
    /\ dict_get "AWS_S3_ENDPOINT" env'
       = Some (endpoint_of "eu-west-1" (Some "minio:9000"))
    /\ (forall k, k <> "AWS_ACCESS_KEY_ID" -> k <> "AWS_SECRET_ACCESS_KEY" ->
                  k <> "AWS_S3_ENDPOINT" ->
                  dict_get k env'
                  = dict_get k [("HOME", "/home/user"); ("AWS_ACCESS_KEY_ID", "stale")])
    /\ (falsy (Some "minio:9000") = true ->
        endpoint_of "eu-west-1" (Some "minio:9000")
        = "s3." +:+ "eu-west-1" +:+ ".amazonaws.com")
    /\ (forall e, Some "minio:9000" = Some e -> e <> "" ->
                  endpoint_of "eu-west-1" (Some "minio:9000") = e).
Proof.
  apply (set_credentials_sets sample_read sample_expanduser sample_interpolate
           "default" "eu-west-1" (Some "minio:9000") None _ sample_file
           [("aws_access_key_id", "AKIDEXAMPLE");
            ("aws_secret_access_key", "wJalrXUtnFEMI")]);
    try reflexivity; discriminate.
Defined.

Lemma set_credentials_unknown_profile_witness :
  sample_set_credentials "nobody" "us-west-2" None (Some "/nowhere") []
  = (inr (EKeyError "nobody"), []).
Proof.
  apply (set_credentials_unknown_profile sample_read sample_expanduser
           sample_interpolate "nobody" "us-west-2" None (Some "/nowhere") []
           (mkConfigParser [] [])); try reflexivity; discriminate.
Defined.

Lemma set_credentials_partial_witness :
  sample_set_credentials "other" "us-west-2" None None [("HOME", "/home/user")]
  = (inr (EKeyError "aws_secret_access_key"),
     dict_set "AWS_ACCESS_KEY_ID" "AKIDOTHER" [("HOME", "/home/user")]).
Proof.
  apply (set_credentials_partial sample_read sample_expanduser
           sample_interpolate "other" "us-west-2" None None _ sample_file
           [("aws_access_key_id", "AKIDOTHER")]);
    try reflexivity; discriminate.
Defined.

Lemma worker_environment_witness :
  exists env',
    worker_environment sample_read sample_expanduser sample_interpolate
      [("HOME", "/home/user")] = (inl tt, env')
    /\ Forall (fun kv => dict_get (fst kv) env' = Some (snd kv))
         (gdal_env ++ requester_pays_env
          ++ [("AWS_ACCESS_KEY_ID", "AKIDEXAMPLE");
              ("AWS_SECRET_ACCESS_KEY", "wJalrXUtnFEMI");
              ("AWS_S3_ENDPOINT", "s3.us-west-2.amazonaws.com")])%list.
Proof.
  apply (worker_environment_complete sample_read sample_expanduser
           sample_interpolate [("HOME", "/home/user")] sample_file
           [("aws_access_key_id", "AKIDEXAMPLE");
            ("aws_secret_access_key", "wJalrXUtnFEMI")]);
    reflexivity.
Defined.

End CredentialsFacts.
